(** * cli-administratif: authentication and session layer

    A shallow embedding of [utils.ts], [mes-echeances-urssaf.ts] and
    [mon-kbis.ts], and the properties of their credential store, session
    cache and login handshakes.

    Conventions.  A JavaScript string is held as a Rocq [string]: the
    sequence of bytes of its UTF-8 encoding.  A [Buffer] is a [string] too
    (a sequence of bytes), so [Buffer.toString()] is the identity on
    well-formed UTF-8.  An HTTP status and a reading of the clock are
    integers, held as [Z]; any other number is a [Number] of binary64. *)

From Stdlib Require Import String Ascii List ZArith NArith Lia Bool.
From Stdlib Require Import Decimal DecimalString DecimalN DecimalFacts.
From stdpp Require Import gmap strings.
Import ListNotations.
Set Warnings "-register-all".
#[local] Arguments String.append !_ _ : simpl nomatch.
Local Open Scope string_scope.

(** ** String primitives of the JavaScript runtime *)

Module Str.

(** The double quote character (code 34). *)
Definition dq : ascii := Eval cbv in ascii_of_nat 34.

(** [s.startsWith(p)] *)
Definition startsWith (s p : string) : bool := String.prefix p s.

(** [s.includes(p)] *)
Fixpoint includes (s p : string) : bool :=
  String.prefix p s ||
  match s with
  | EmptyString => false
  | String _ r => includes r p
  end.

(** Longest prefix of [s] whose characters satisfy [f], and what follows. *)
Fixpoint span (f : ascii -> bool) (s : string) : string * string :=
  match s with
  | EmptyString => (EmptyString, EmptyString)
  | String c r =>
      if f c then let '(a, b) := span f r in (String c a, b)
      else (EmptyString, s)
  end.

(** What follows the literal [p] at the head of [s], if [s] starts with it. *)
Fixpoint after (p s : string) : option string :=
  match p with
  | EmptyString => Some s
  | String a p' =>
      match s with
      | EmptyString => None
      | String b s' => if Ascii.eqb a b then after p' s' else None
      end
  end.

(** [s.replace(/p/g, r)] for a literal, non-empty pattern [p]: matches are
    taken from left to right and do not overlap.  [skip] counts the
    characters of the current match that remain to be dropped. *)
Fixpoint replace_from (p r : string) (skip : nat) (s : string) : string :=
  match s with
  | EmptyString => EmptyString
  | String c s' =>
      match skip with
      | S k => replace_from p r k s'
      | O =>
          if String.prefix p s
          then r ++ replace_from p r (String.length p - 1) s'
          else String c (replace_from p r 0 s')
      end
  end.

Definition replaceAll (s p r : string) : string := replace_from p r 0 s.

(** [s.split(sep)[0]] for a one-character separator. *)
Definition split_head (sep : ascii) (s : string) : string :=
  fst (span (fun c => negb (Ascii.eqb c sep)) s).

(** [s.split(sep)] for a one-character separator. *)
Fixpoint split (sep : ascii) (s : string) : list string :=
  match s with
  | EmptyString => [EmptyString]
  | String c r =>
      match split sep r with
      | piece :: pieces =>
          if Ascii.eqb c sep then EmptyString :: piece :: pieces
          else String c piece :: pieces
      | [] => [String c EmptyString]
      end
  end.

(** [l.join(sep)] *)
Definition join (sep : string) (l : list string) : string := String.concat sep l.

(** *** [String.prototype.trim]

    White space and line terminators of ECMAScript, as UTF-8 byte
    sequences: TAB LF VT FF CR SP, U+00A0, U+1680, U+2000..U+200A, U+2028,
    U+2029, U+202F, U+205F, U+3000 and U+FEFF. *)

Definition is_ws1 (c : ascii) : bool :=
  let n := nat_of_ascii c in
  ((9 <=? n) && (n <=? 13))%nat || (n =? 32)%nat.

Definition is_ws2 (c1 c2 : ascii) : bool :=
  (nat_of_ascii c1 =? 194)%nat && (nat_of_ascii c2 =? 160)%nat.

Definition is_ws3 (c1 c2 c3 : ascii) : bool :=
  let n1 := nat_of_ascii c1 in
  let n2 := nat_of_ascii c2 in
  let n3 := nat_of_ascii c3 in
  ((n1 =? 225) && (n2 =? 154) && (n3 =? 128))%nat
  || ((n1 =? 226) && (n2 =? 128)
      && (((128 <=? n3) && (n3 <=? 138)) || (n3 =? 168) || (n3 =? 169) || (n3 =? 175)))%nat
  || ((n1 =? 226) && (n2 =? 129) && (n3 =? 159))%nat
  || ((n1 =? 227) && (n2 =? 128) && (n3 =? 128))%nat
  || ((n1 =? 239) && (n2 =? 187) && (n3 =? 191))%nat.

Fixpoint trimStart (s : string) : string :=
  match s with
  | String c1 r1 =>
      if is_ws1 c1 then trimStart r1
      else match r1 with
           | String c2 r2 =>
               if is_ws2 c1 c2 then trimStart r2
               else match r2 with
                    | String c3 r3 => if is_ws3 c1 c2 c3 then trimStart r3 else s
                    | EmptyString => s
                    end
           | EmptyString => s
           end
  | EmptyString => s
  end.

Definition rev (s : string) : string :=
  string_of_list_ascii (List.rev (list_ascii_of_string s)).

(** The same scan over the reversed string: the bytes of a white space
    character are met last byte first. *)
Fixpoint trimStart_rev (s : string) : string :=
  match s with
  | String c1 r1 =>
      if is_ws1 c1 then trimStart_rev r1
      else match r1 with
           | String c2 r2 =>
               if is_ws2 c2 c1 then trimStart_rev r2
               else match r2 with
                    | String c3 r3 => if is_ws3 c3 c2 c1 then trimStart_rev r3 else s
                    | EmptyString => s
                    end
           | EmptyString => s
           end
  | EmptyString => s
  end.

Definition trimEnd (s : string) : string := rev (trimStart_rev (rev s)).

Definition trim (s : string) : string := trimEnd (trimStart s).

End Str.

(** ** Well-formed UTF-8 *)

Module Utf8.

(** Where the next continuation byte has to lie. *)
Inductive range : Type :=
| R80_BF   (* any continuation byte *)
| RA0_BF   (* after E0: no overlong form *)
| R80_9F   (* after ED: no surrogate *)
| R90_BF   (* after F0: no overlong form *)
| R80_8F.  (* after F4: at most U+10FFFF *)

Definition within (rg : range) (n : N) : bool :=
  match rg with
  | R80_BF => (128 <=? n) && (n <=? 191)
  | RA0_BF => (160 <=? n) && (n <=? 191)
  | R80_9F => (128 <=? n) && (n <=? 159)
  | R90_BF => (144 <=? n) && (n <=? 191)
  | R80_8F => (128 <=? n) && (n <=? 143)
  end%N.

(** The decoder's state between two bytes: at a character boundary, or
    inside a character, the next byte being a continuation byte within
    [rg] with [more] continuation bytes to come after it. *)
Inductive state : Type :=
| Start
| Inside (more : nat) (rg : range).

(** Shortest forms only, no surrogates, nothing above U+10FFFF. *)
Definition step (st : state) (c : ascii) : option state :=
  let n := N_of_ascii c in
  match st with
  | Start =>
      if (n <? 128)%N then Some Start
      else if ((194 <=? n) && (n <=? 223))%N then Some (Inside 0 R80_BF)
      else if (n =? 224)%N then Some (Inside 1 RA0_BF)
      else if (n =? 237)%N then Some (Inside 1 R80_9F)
      else if ((225 <=? n) && (n <=? 239))%N then Some (Inside 1 R80_BF)
      else if (n =? 240)%N then Some (Inside 2 R90_BF)
      else if (n =? 244)%N then Some (Inside 2 R80_8F)
      else if ((241 <=? n) && (n <=? 243))%N then Some (Inside 2 R80_BF)
      else None
  | Inside more rg =>
      if within rg n then
        match more with
        | O => Some Start
        | S k => Some (Inside k R80_BF)
        end
      else None
  end.

Fixpoint run (st : state) (s : string) : option state :=
  match s with
  | EmptyString => Some st
  | String c r =>
      match step st c with
      | Some st' => run st' r
      | None => None
      end
  end.

Definition valid (s : string) : bool :=
  match run Start s with
  | Some Start => true
  | _ => false
  end.

(** [wf s]: the bytes of [s] are whole characters. *)
Definition wf (s : string) : Prop := run Start s = Some Start.

End Utf8.

(** ** Base64, as [Buffer.prototype.toString] and [Buffer.from] do it *)

Module Base64.

(** A sextet is kept in an [ascii] whose two high bits are clear.  The
    first constructor argument of [Ascii] is the least significant bit. *)

Definition sextet1 (x : ascii) : ascii :=
  let '(Ascii _ _ x2 x3 x4 x5 x6 x7) := x in
  Ascii x2 x3 x4 x5 x6 x7 false false.

Definition sextet2 (x y : ascii) : ascii :=
  let '(Ascii x0 x1 _ _ _ _ _ _) := x in
  let '(Ascii _ _ _ _ y4 y5 y6 y7) := y in
  Ascii y4 y5 y6 y7 x0 x1 false false.

Definition sextet3 (y z : ascii) : ascii :=
  let '(Ascii y0 y1 y2 y3 _ _ _ _) := y in
  let '(Ascii _ _ _ _ _ _ z6 z7) := z in
  Ascii z6 z7 y0 y1 y2 y3 false false.

Definition sextet4 (z : ascii) : ascii :=
  let '(Ascii z0 z1 z2 z3 z4 z5 _ _) := z in
  Ascii z0 z1 z2 z3 z4 z5 false false.

(** Three bytes give four sextets; a tail of two bytes gives three and a
    tail of one byte gives two, the missing bits being zero. *)
Fixpoint to_sextets (buf : string) : list ascii :=
  match buf with
  | String x (String y (String z r)) =>
      sextet1 x :: sextet2 x y :: sextet3 y z :: sextet4 z :: to_sextets r
  | String x (String y EmptyString) =>
      [sextet1 x; sextet2 x y; sextet3 y Ascii.zero]
  | String x EmptyString => [sextet1 x; sextet2 x Ascii.zero]
  | EmptyString => []
  end.

Definition alphabet : string :=
  "ABCDEFGHIJKLMNOPQRSTUVWXYZabcdefghijklmnopqrstuvwxyz0123456789+/".

Definition alphabet_url : string :=
  "ABCDEFGHIJKLMNOPQRSTUVWXYZabcdefghijklmnopqrstuvwxyz0123456789-_".

Definition digit (alpha : string) (v : ascii) : ascii :=
  match String.get (nat_of_ascii v) alpha with
  | Some c => c
  | None => "="%char
  end.

Definition render (alpha : string) (l : list ascii) : string :=
  string_of_list_ascii (map (digit alpha) l).

(** Padding that completes the last group of four characters. *)
Definition padding (n : nat) : string :=
  match Nat.modulo n 4 with
  | 2 => "=="
  | 3 => "="
  | _ => ""
  end.

(** [buf.toString("base64")] *)
Definition encode (buf : string) : string :=
  let l := to_sextets buf in
  render alphabet l ++ padding (List.length l).

(** [buf.toString("base64url")]: the URL-safe alphabet and no padding. *)
Definition encode_url (buf : string) : string :=
  render alphabet_url (to_sextets buf).

(** The value of a character in either alphabet. *)
Definition sextet_of_char (c : ascii) : option ascii :=
  let n := N_of_ascii c in
  if ((65 <=? n) && (n <=? 90))%N then Some (ascii_of_N (n - 65))
  else if ((97 <=? n) && (n <=? 122))%N then Some (ascii_of_N (n - 71))
  else if ((48 <=? n) && (n <=? 57))%N then Some (ascii_of_N (n + 4))
  else if ((n =? 43) || (n =? 45))%N then Some (ascii_of_N 62)
  else if ((n =? 47) || (n =? 95))%N then Some (ascii_of_N 63)
  else None.

(** The decoder reads both alphabets, skips every other character and
    stops at the first padding character. *)
Fixpoint read_sextets (s : string) : list ascii :=
  match s with
  | EmptyString => []
  | String c r =>
      if Ascii.eqb c "=" then []
      else match sextet_of_char c with
           | Some v => v :: read_sextets r
           | None => read_sextets r
           end
  end.

Definition octet1 (a b : ascii) : ascii :=
  let '(Ascii a0 a1 a2 a3 a4 a5 _ _) := a in
  let '(Ascii _ _ _ _ b4 b5 _ _) := b in
  Ascii b4 b5 a0 a1 a2 a3 a4 a5.

Definition octet2 (b c : ascii) : ascii :=
  let '(Ascii b0 b1 b2 b3 _ _ _ _) := b in
  let '(Ascii _ _ c2 c3 c4 c5 _ _) := c in
  Ascii c2 c3 c4 c5 b0 b1 b2 b3.

Definition octet3 (c d : ascii) : ascii :=
  let '(Ascii c0 c1 _ _ _ _ _ _) := c in
  let '(Ascii e0 e1 e2 e3 e4 e5 _ _) := d in
  Ascii e0 e1 e2 e3 e4 e5 c0 c1.

Fixpoint of_sextets (l : list ascii) : string :=
  match l with
  | a :: b :: c :: d :: r =>
      String (octet1 a b) (String (octet2 b c) (String (octet3 c d) (of_sextets r)))
  | [a; b; c] => String (octet1 a b) (String (octet2 b c) EmptyString)
  | [a; b] => String (octet1 a b) EmptyString
  | _ => EmptyString
  end.

(** [Buffer.from(s, "base64")] *)
Definition decode (s : string) : string := of_sextets (read_sextets s).

(** A sextet proper: the two high bits are clear. *)
Definition small (v : ascii) : bool :=
  let '(Ascii _ _ _ _ _ _ b6 b7) := v in negb b6 && negb b7.

End Base64.

(** ** Percent-encoding: [encodeURIComponent] and [decodeURIComponent] *)

Module Uri.

Definition hexdigits : string := "0123456789ABCDEF".

Definition hex_of (n : nat) : ascii :=
  match String.get n hexdigits with
  | Some c => c
  | None => "0"%char
  end.

Definition hexval (c : ascii) : option N :=
  let n := N_of_ascii c in
  if ((48 <=? n) && (n <=? 57))%N then Some (n - 48)%N
  else if ((65 <=? n) && (n <=? 70))%N then Some (n - 55)%N
  else if ((97 <=? n) && (n <=? 102))%N then Some (n - 87)%N
  else None.

(** The characters [encodeURIComponent] leaves as they are:
    [A-Z a-z 0-9 - _ . ! ~ * ' ( )]. *)
Definition unreserved (c : ascii) : bool :=
  let n := N_of_ascii c in
  (((65 <=? n) && (n <=? 90)) || ((97 <=? n) && (n <=? 122))
   || ((48 <=? n) && (n <=? 57))
   || (n =? 45) || (n =? 95) || (n =? 46) || (n =? 33) || (n =? 126)
   || (n =? 42) || (n =? 39) || (n =? 40) || (n =? 41))%N.

(** Every other byte of the UTF-8 text becomes [%XX]. *)
Fixpoint encodeURIComponent (s : string) : string :=
  match s with
  | EmptyString => EmptyString
  | String c r =>
      if unreserved c then String c (encodeURIComponent r)
      else
        let n := nat_of_ascii c in
        String "%" (String (hex_of (n / 16)) (String (hex_of (n mod 16))
          (encodeURIComponent r)))
  end.

(** [decode_from run s]: [run] holds, last byte first, the bytes of the
    escapes met since the last literal character.  A run of escapes has to
    spell well-formed UTF-8; [None] is the engine's [URIError]. *)
Fixpoint decode_from (run : list ascii) (s : string) : option string :=
  let flush (k : option string) : option string :=
    let bytes := string_of_list_ascii (List.rev run) in
    if Utf8.valid bytes then option_map (String.append bytes) k else None in
  match s with
  | EmptyString => flush (Some EmptyString)
  | String c r =>
      if Ascii.eqb c "%" then
        match r with
        | String h (String l r') =>
            match hexval h, hexval l with
            | Some a, Some d => decode_from (ascii_of_N (16 * a + d) :: run) r'
            | _, _ => None
            end
        | _ => None
        end
      else flush (option_map (String c) (decode_from [] r))
  end.

Definition decodeURIComponent (s : string) : option string := decode_from [] s.

(** No percent sign occurs in [s]. *)
Fixpoint plain (s : string) : bool :=
  match s with
  | EmptyString => true
  | String c r => negb (Ascii.eqb c "%") && plain r
  end.

End Uri.

(** ** Numbers

    The numbers of JavaScript are those of binary64.  An integer is held
    as it is; any other finite number is held as [m * 2^e] with [m] odd. *)

Inductive Number : Type :=
| Int (z : Z)
| Dyadic (m e : Z)
| Infinite (negative : bool)
| NaN.

Module Binary64.

(** The integers up to [2^53] in absolute value: binary64 holds each of
    them, and a sum or a product that stays among them is exact. *)
Definition safe (z : Z) : bool := (Z.abs z <=? 2 ^ 53)%Z.

(** [p * 2^e] with the factors 2 of [p] moved to the exponent. *)
Fixpoint odd_part (p : positive) (e : Z) : positive * Z :=
  match p with
  | xO p' => odd_part p' (e + 1)
  | _ => (p, e)
  end.

(** The number [m * 2^e], for a value that binary64 holds. *)
Definition make (m e : Z) : Number :=
  match m with
  | Z0 => Int 0
  | Zpos p =>
      let '(p', e') := odd_part p e in
      if (0 <=? e')%Z && safe (Zpos p' * 2 ^ e') then Int (Zpos p' * 2 ^ e')
      else Dyadic (Zpos p') e'
  | Zneg p =>
      let '(p', e') := odd_part p e in
      if (0 <=? e')%Z && safe (Zpos p' * 2 ^ e') then Int (- (Zpos p' * 2 ^ e'))
      else Dyadic (Zneg p') e'
  end.

(** The quotient [p / q] of two positive integers rounded to the nearest
    number of 53 bits, an even one in case of a tie: the result is
    [fst * 2^snd].  The exponent is not below -1074 (subnormal numbers
    have fewer bits). *)
Definition nearest (p q : Z) : Z * Z :=
  let t0 := (Z.log2 p - Z.log2 q - 52)%Z in
  let quotient (t : Z) : Z :=
    if (0 <=? t)%Z then (p / (q * 2 ^ t))%Z else (p * 2 ^ (- t) / q)%Z in
  let t1 := if (quotient t0 <? 2 ^ 52)%Z then (t0 - 1)%Z else t0 in
  let t := Z.max t1 (-1074) in
  let num := if (0 <=? t)%Z then p else (p * 2 ^ (- t))%Z in
  let den := if (0 <=? t)%Z then (q * 2 ^ t)%Z else q in
  let Q := (num / den)%Z in
  let R := (num mod den)%Z in
  match (2 * R ?= den)%Z with
  | Lt => (Q, t)
  | Gt => (Q + 1, t)%Z
  | Eq => if Z.even Q then (Q, t) else (Q + 1, t)%Z
  end.

(** [(-1)^negative * p / q] as a number; beyond the largest number it is
    an infinity. *)
Definition round (negative : bool) (p q : Z) : Number :=
  if (p =? 0)%Z then Int 0
  else
    let '(M, t) := nearest p q in
    if (2 ^ 1024 <=? M * 2 ^ Z.max t 0)%Z && (0 <=? t)%Z then Infinite negative
    else make (if negative then - M else M) t.

(** [m * 2^e] as a number. *)
Definition of_dyadic (m e : Z) : Number :=
  if (0 <=? e)%Z then round (m <? 0)%Z (Z.abs m * 2 ^ e) 1
  else round (m <? 0)%Z (Z.abs m) (2 ^ (- e)).

(** An integer as a number: itself when it is safe. *)
Definition of_Z (z : Z) : Number := if safe z then Int z else of_dyadic z 0.

(** The number of decimal digits of a positive integer. *)
Definition digits10 (z : Z) : Z :=
  Z.of_nat (String.length (NilEmpty.string_of_uint (N.to_uint (Z.to_N z)))).

(** [(-1)^negative * M * 10^E], the value of a decimal literal, as a
    number.  A value of 10^309 or more is beyond the largest number and a
    value below 10^-324 is nearer to 0 than to any other number. *)
Definition of_decimal (negative : bool) (M E : Z) : Number :=
  if (M =? 0)%Z then Int 0
  else if (310 <=? E + digits10 M)%Z then Infinite negative
  else if (E + digits10 M <=? -324)%Z then Int 0
  else if (0 <=? E)%Z then round negative (M * 10 ^ E) 1
  else round negative M (10 ^ (- E)).

(** The finite numbers as [m * 2^e]. *)
Definition dyadic (x : Number) : option (Z * Z) :=
  match x with
  | Int z => Some (z, 0%Z)
  | Dyadic m e => Some (m, e)
  | _ => None
  end.

Definition is_zero (x : Number) : bool :=
  match x with
  | Int z => (z =? 0)%Z
  | Dyadic m _ => (m =? 0)%Z
  | _ => false
  end.

Definition is_negative (x : Number) : bool :=
  match x with
  | Int z => (z <? 0)%Z
  | Dyadic m _ => (m <? 0)%Z
  | Infinite negative => negative
  | NaN => false
  end.

(** [ToBoolean]: every number but 0 and [NaN]. *)
Definition truthy (x : Number) : bool :=
  match x with
  | NaN => false
  | _ => negb (is_zero x)
  end.

(** [a * b] *)
Definition times (a b : Number) : Number :=
  match a, b with
  | NaN, _ | _, NaN => NaN
  | Int x, Int y => of_Z (x * y)
  | Infinite _, _ | _, Infinite _ =>
      if is_zero a || is_zero b then NaN
      else Infinite (xorb (is_negative a) (is_negative b))
  | _, _ =>
      match dyadic a, dyadic b with
      | Some (m1, e1), Some (m2, e2) => of_dyadic (m1 * m2) (e1 + e2)
      | _, _ => NaN
      end
  end.

(** [a + b] *)
Definition plus (a b : Number) : Number :=
  match a, b with
  | NaN, _ | _, NaN => NaN
  | Int x, Int y => of_Z (x + y)
  | Infinite s1, Infinite s2 => if Bool.eqb s1 s2 then a else NaN
  | Infinite _, _ => a
  | _, Infinite _ => b
  | _, _ =>
      match dyadic a, dyadic b with
      | Some (m1, e1), Some (m2, e2) =>
          let e := Z.min e1 e2 in
          of_dyadic (m1 * 2 ^ (e1 - e) + m2 * 2 ^ (e2 - e)) e
      | _, _ => NaN
      end
  end.

(** [x < n] for an integer [n]; false when [x] is [NaN]. *)
Definition below (x : Number) (n : Z) : bool :=
  match x with
  | Int z => (z <? n)%Z
  | Dyadic m e => if (0 <=? e)%Z then (m * 2 ^ e <? n)%Z else (m <? n * 2 ^ (- e))%Z
  | Infinite negative => negative
  | NaN => false
  end.

(** A number of the sign given that is [2^53] at least in absolute value:
    an integer, or an infinity. *)
Definition beyond (negative : bool) (x : Number) : Prop :=
  match x with
  | Int v => if negative then (v <= - 2 ^ 53)%Z else (2 ^ 53 <= v)%Z
  | Dyadic m e =>
      (0 <= e)%Z /\ if negative then (m * 2 ^ e <= - 2 ^ 53)%Z else (2 ^ 53 <= m * 2 ^ e)%Z
  | Infinite n => n = negative
  | NaN => False
  end.

Definition eqb (x y : Number) : bool :=
  match x, y with
  | Int a, Int b => (a =? b)%Z
  | Dyadic m e, Dyadic m' e' => (m =? m')%Z && (e =? e')%Z
  | Infinite a, Infinite b => Bool.eqb a b
  | NaN, NaN => true
  | _, _ => false
  end.

(** *** [Number::toString] *)

Definition digits (n : Z) : string := NilEmpty.string_of_uint (N.to_uint (Z.to_N n)).

Fixpoint zeros (n : nat) : string :=
  match n with
  | O => EmptyString
  | S k => String "0" (zeros k)
  end.

(** A decimal text without its final zeros. *)
Fixpoint strip_zeros (s : string) : string :=
  match s with
  | EmptyString => EmptyString
  | String c r =>
      match strip_zeros r with
      | EmptyString => if Ascii.eqb c "0" then EmptyString else String c EmptyString
      | r' => String c r'
      end
  end.

(** The least [n] from [n0] on, among [fuel] of them, with
    [p / q < 10^n]. *)
Fixpoint magnitude (fuel : nat) (p q n : Z) : Z :=
  match fuel with
  | O => n
  | S f =>
      if (if (0 <=? n)%Z then (p <? q * 10 ^ n)%Z else (p * 10 ^ (- n) <? q)%Z) then n
      else magnitude f p q (n + 1)
  end.

(** The integer [s] of [k] digits (or [10^k]) for which [s * 10^(n-k)]
    is nearest to [p / q] among those that round to [x]. *)
Definition candidate (x : Number) (negative : bool) (p q n k : Z) : option Z :=
  let A := if (0 <=? k - n)%Z then (p * 10 ^ (k - n))%Z else p in
  let B := if (0 <=? k - n)%Z then q else (q * 10 ^ (n - k))%Z in
  let lo := (A / B)%Z in
  let hi := (lo + 1)%Z in
  let R := (A mod B)%Z in
  let value (s : Z) : Number :=
    if (0 <=? n - k)%Z then round negative (s * 10 ^ (n - k)) 1
    else round negative s (10 ^ (k - n)) in
  let ok_lo := eqb (value lo) x in
  let ok_hi := eqb (value hi) x in
  if ok_lo && ok_hi then
    match (2 * R ?= B)%Z with
    | Lt => Some lo
    | Gt => Some hi
    | Eq => if Z.even lo then Some lo else Some hi
    end
  else if ok_lo then Some lo
  else if ok_hi then Some hi
  else None.

(** The shortest [s], looked for with 1, 2, ... digits. *)
Fixpoint shortest (fuel : nat) (x : Number) (negative : bool) (p q n k : Z) : Z * Z :=
  match fuel with
  | O => ((if (0 <=? k - n)%Z then p * 10 ^ (k - n) / q else p / (q * 10 ^ (n - k)))%Z, k)
  | S f =>
      match candidate x negative p q n k with
      | Some s => (s, k)
      | None => shortest f x negative p q n (k + 1)
      end
  end.

(** The text of a positive number given by the digits [d] of [s] and the
    exponent [n]: its value is [0.d * 10^n]. *)
Definition layout (d : string) (n : Z) : string :=
  let k := Z.of_nat (String.length d) in
  if ((k <=? n) && (n <=? 21))%Z then d ++ zeros (Z.to_nat (n - k))
  else if ((0 <? n) && (n <=? 21))%Z then
    String.substring 0 (Z.to_nat n) d ++ "."
    ++ String.substring (Z.to_nat n) (String.length d - Z.to_nat n) d
  else if ((-6 <? n) && (n <=? 0))%Z then "0." ++ zeros (Z.to_nat (- n)) ++ d
  else
    let e := (n - 1)%Z in
    (if (k =? 1)%Z then d
     else String.substring 0 1 d ++ "." ++ String.substring 1 (String.length d - 1) d)
    ++ "e" ++ (if (e <? 0)%Z then "-" else "+") ++ digits (Z.abs e).

(** The text of [m * 2^e], for [m > 0]. *)
Definition positive_text (m e : Z) : string :=
  let p := if (0 <=? e)%Z then (m * 2 ^ e)%Z else m in
  let q := if (0 <=? e)%Z then 1%Z else (2 ^ (- e))%Z in
  let n0 := ((Z.log2 p - Z.log2 q) * 30103 / 100000 - 1)%Z in
  let n := magnitude 6 p q n0 in
  let '(s, k) := shortest 17 (make m e) false p q n 1 in
  let d := digits s in
  layout (strip_zeros d) (n + (Z.of_nat (String.length d) - k)).

(** [String(x)] *)
Definition toString (x : Number) : string :=
  match x with
  | Int z => if (z <? 0)%Z then String "-" (digits (- z)) else digits z
  | Dyadic m e =>
      if (m <? 0)%Z then String "-" (positive_text (- m) e) else positive_text m e
  | Infinite negative => if negative then "-Infinity" else "Infinity"
  | NaN => "NaN"
  end.

End Binary64.

(** ** JSON values, [JSON.stringify] and [JSON.parse] *)

Inductive Json : Type :=
| JNull
| JBool (b : bool)
| JNum (x : Number)
| JStr (s : string)
| JArr (items : list Json)
| JObj (fields : list (string * Json)).

(** A JavaScript value as the code meets them: [None] is [undefined]. *)
Definition JsValue : Type := option Json.

Module JSON.

Definition hex_lower : string := "0123456789abcdef".

Definition hex_of (n : nat) : ascii :=
  match String.get n hex_lower with
  | Some c => c
  | None => "0"%char
  end.

(** [QuoteJSONString], character by character: the quote, the backslash and
    the control characters are escaped, every other byte is kept. *)
Definition escape_char (c : ascii) : string :=
  let n := nat_of_ascii c in
  if (n =? 34)%nat then String "\" (String Str.dq EmptyString)
  else if (n =? 92)%nat then "\\"
  else if (n =? 8)%nat then "\b"
  else if (n =? 12)%nat then "\f"
  else if (n =? 10)%nat then "\n"
  else if (n =? 13)%nat then "\r"
  else if (n =? 9)%nat then "\t"
  else if (n <? 32)%nat then
    "\u00" ++ String (hex_of (n / 16)) (String (hex_of (n mod 16)) EmptyString)
  else String c EmptyString.

Fixpoint escape (s : string) : string :=
  match s with
  | EmptyString => EmptyString
  | String c r => escape_char c ++ escape r
  end.

Definition quote (s : string) : string :=
  String Str.dq (escape s ++ String Str.dq EmptyString).

Definition digits (n : N) : string := NilEmpty.string_of_uint (N.to_uint n).

Definition number (z : Z) : string :=
  if (z <? 0)%Z then String "-" (digits (Z.abs_N z)) else digits (Z.to_N z).

(** A number in a JSON text: an integer by its digits, another finite
    number as [Number::toString] writes it, and [null] for [NaN] and the
    infinities. *)
Definition number_text (x : Number) : string :=
  match x with
  | Int z => number z
  | Dyadic _ _ => Binary64.toString x
  | Infinite _ => "null"
  | NaN => "null"
  end.

Fixpoint stringify (v : Json) : string :=
  match v with
  | JNull => "null"
  | JBool true => "true"
  | JBool false => "false"
  | JNum x => number_text x
  | JStr s => quote s
  | JArr items => "[" ++ Str.join "," (map stringify items) ++ "]"
  | JObj fields =>
      "{" ++ Str.join "," (map (fun kv => quote (fst kv) ++ ":" ++ stringify (snd kv)) fields)
          ++ "}"
  end.

(** *** Parsing *)

Definition is_ws (c : ascii) : bool :=
  let n := nat_of_ascii c in
  ((n =? 32) || (n =? 9) || (n =? 10) || (n =? 13))%nat.

Definition skip_ws (s : string) : string := snd (Str.span is_ws s).

Definition is_digit (c : ascii) : bool :=
  let n := nat_of_ascii c in ((48 <=? n) && (n <=? 57))%nat.

Definition hex4 (h1 h2 h3 h4 : ascii) : option N :=
  match Uri.hexval h1, Uri.hexval h2, Uri.hexval h3, Uri.hexval h4 with
  | Some a, Some b, Some c, Some d => Some (4096 * a + 256 * b + 16 * c + d)%N
  | _, _, _, _ => None
  end.

Definition byte (n : N) : ascii := ascii_of_N n.

(** UTF-8 of a code unit of the basic plane.  A surrogate that stands
    alone is written in the same way, on three bytes. *)
Definition utf8_of_unit (u : N) : string :=
  if (u <? 128)%N then String (byte u) EmptyString
  else if (u <? 2048)%N then
    String (byte (192 + u / 64)) (String (byte (128 + u mod 64)) EmptyString)
  else
    String (byte (224 + u / 4096))
      (String (byte (128 + (u / 64) mod 64)) (String (byte (128 + u mod 64)) EmptyString)).

(** UTF-8 of the code point spelled by a surrogate pair. *)
Definition utf8_of_pair (hi lo : N) : string :=
  let cp := (65536 + (hi - 55296) * 1024 + (lo - 56320))%N in
  String (byte (240 + cp / 262144))
    (String (byte (128 + (cp / 4096) mod 64))
       (String (byte (128 + (cp / 64) mod 64)) (String (byte (128 + cp mod 64)) EmptyString))).

Definition is_high (u : N) : bool := ((55296 <=? u) && (u <=? 56319))%N.
Definition is_low (u : N) : bool := ((56320 <=? u) && (u <=? 57343))%N.

Definition prepend (t : string) (r : option (string * string)) : option (string * string) :=
  match r with
  | Some (u, k) => Some (t ++ u, k)
  | None => None
  end.

(** The characters of a string literal after its opening quote, and what
    follows the closing quote.  [None] is a [SyntaxError].  An escaped
    high surrogate followed by an escaped low one is their code point; an
    escaped surrogate without its partner is kept as a code unit. *)
Fixpoint string_body (s : string) : option (string * string) :=
  match s with
  | EmptyString => None
  | String c r =>
      if Ascii.eqb c Str.dq then Some (EmptyString, r)
      else if Ascii.eqb c "\" then
        match r with
        | EmptyString => None
        | String e r1 =>
            let lit (x : ascii) := prepend (String x EmptyString) (string_body r1) in
            if Ascii.eqb e Str.dq then lit Str.dq
            else if Ascii.eqb e "\" then lit "\"%char
            else if Ascii.eqb e "/" then lit "/"%char
            else if Ascii.eqb e "b" then lit (ascii_of_nat 8)
            else if Ascii.eqb e "f" then lit (ascii_of_nat 12)
            else if Ascii.eqb e "n" then lit (ascii_of_nat 10)
            else if Ascii.eqb e "r" then lit (ascii_of_nat 13)
            else if Ascii.eqb e "t" then lit (ascii_of_nat 9)
            else if Ascii.eqb e "u" then
              match r1 with
              | String h1 (String h2 (String h3 (String h4 r2))) =>
                  match hex4 h1 h2 h3 h4 with
                  | None => None
                  | Some u =>
                      let alone := prepend (utf8_of_unit u) (string_body r2) in
                      if is_high u then
                        match r2 with
                        | String b1 (String b2 (String g1 (String g2 (String g3 (String g4 r3))))) =>
                            if Ascii.eqb b1 "\" && Ascii.eqb b2 "u" then
                              match hex4 g1 g2 g3 g4 with
                              | Some lo =>
                                  if is_low lo
                                  then prepend (utf8_of_pair u lo) (string_body r3)
                                  else alone
                              | None => alone
                              end
                            else alone
                        | _ => alone
                        end
                      else alone
                  end
              | _ => None
              end
            else None
        end
      else if (nat_of_ascii c <? 32)%nat then None
      else prepend (String c EmptyString) (string_body r)
  end.

(** The integer that a text of digits writes. *)
Definition digits_value (ds : string) : Z :=
  match NilEmpty.uint_of_string ds with
  | Some d => Z.of_N (N.of_uint d)
  | None => 0%Z
  end.

(** The fraction of a number literal: the digits after the point, at least
    one, or none when there is no point. *)
Definition fraction (s : string) : option (string * string) :=
  match s with
  | String c r =>
      if Ascii.eqb c "." then
        match Str.span is_digit r with
        | (EmptyString, _) => None
        | (fs, k) => Some (fs, k)
        end
      else Some (EmptyString, s)
  | EmptyString => Some (EmptyString, s)
  end.

(** The exponent of a number literal: [e] or [E], a sign or none, and at
    least one digit; [Some (None, _)] when there is no exponent. *)
Definition exponent (s : string) : option (option Z * string) :=
  match s with
  | String c r =>
      if Ascii.eqb c "e" || Ascii.eqb c "E" then
        let '(negative, r1) :=
          match r with
          | String sg r' =>
              if Ascii.eqb sg "-" then (true, r')
              else if Ascii.eqb sg "+" then (false, r')
              else (false, r)
          | EmptyString => (false, r)
          end in
        match Str.span is_digit r1 with
        | (EmptyString, _) => None
        | (es, k) => Some (Some (if negative then - digits_value es else digits_value es)%Z, k)
        end
      else Some (None, s)
  | EmptyString => Some (None, s)
  end.

(** A number literal: a sign or none, an integer without a superfluous
    zero, a fraction or none, an exponent or none.  A literal of digits
    only is held as the integer it writes; any other one is the number
    nearest to the decimal value written.  Beyond [2^53] the engine
    rounds an integer too: the programs only compare what they parse with
    a reading of the clock, and the outcome of that is the same for the
    integer and for the rounded number ([below_of_Z]). *)
Definition number_lit (s : string) : option (Json * string) :=
  let '(neg, s1) :=
    match s with
    | String c r => if Ascii.eqb c "-" then (true, r) else (false, s)
    | EmptyString => (false, s)
    end in
  let '(ds, k) := Str.span is_digit s1 in
  match NilEmpty.uint_of_string ds with
  | Some d =>
      if uint_beq d (unorm d) then
        match fraction k with
        | None => None
        | Some (fs, k1) =>
            match exponent k1 with
            | None => None
            | Some (None, k2) =>
                match fs with
                | EmptyString =>
                    Some (JNum (Int (if neg then - Z.of_N (N.of_uint d)
                                     else Z.of_N (N.of_uint d))), k2)
                | _ =>
                    Some (JNum (Binary64.of_decimal neg (digits_value (ds ++ fs))
                                  (- Z.of_nat (String.length fs))), k2)
                end
            | Some (Some e, k2) =>
                Some (JNum (Binary64.of_decimal neg (digits_value (ds ++ fs))
                              (e - Z.of_nat (String.length fs))), k2)
            end
        end
      else None
  | None => None
  end.

Definition keyword (s : string) : option (Json * string) :=
  match Str.after "null" s with
  | Some k => Some (JNull, k)
  | None =>
      match Str.after "true" s with
      | Some k => Some (JBool true, k)
      | None =>
          match Str.after "false" s with
          | Some k => Some (JBool false, k)
          | None => number_lit s
          end
      end
  end.

(** Recursive descent; [fuel] bounds the number of nested calls. *)
Fixpoint value (fuel : nat) (s : string) : option (Json * string) :=
  match fuel with
  | O => None
  | S f =>
      match skip_ws s with
      | EmptyString => None
      | String c r =>
          if Ascii.eqb c Str.dq then
            match string_body r with
            | Some (t, k) => Some (JStr t, k)
            | None => None
            end
          else if Ascii.eqb c "{" then
            match skip_ws r with
            | String c' k =>
                if Ascii.eqb c' "}" then Some (JObj [], k)
                else match members f r with
                     | Some (fs, k') => Some (JObj fs, k')
                     | None => None
                     end
            | EmptyString => None
            end
          else if Ascii.eqb c "[" then
            match skip_ws r with
            | String c' k =>
                if Ascii.eqb c' "]" then Some (JArr [], k)
                else match elements f r with
                     | Some (vs, k') => Some (JArr vs, k')
                     | None => None
                     end
            | EmptyString => None
            end
          else keyword (String c r)
      end
  end
with members (fuel : nat) (s : string) : option (list (string * Json) * string) :=
  match fuel with
  | O => None
  | S f =>
      match skip_ws s with
      | EmptyString => None
      | String c r =>
          if Ascii.eqb c Str.dq then
            match string_body r with
            | None => None
            | Some (key, k1) =>
                match skip_ws k1 with
                | EmptyString => None
                | String c2 k2 =>
                    if Ascii.eqb c2 ":" then
                      match value f k2 with
                      | None => None
                      | Some (v, k3) =>
                          match skip_ws k3 with
                          | EmptyString => None
                          | String c4 k4 =>
                              if Ascii.eqb c4 "," then
                                match members f k4 with
                                | Some (rest, k5) => Some ((key, v) :: rest, k5)
                                | None => None
                                end
                              else if Ascii.eqb c4 "}" then Some ([(key, v)], k4)
                              else None
                          end
                      end
                    else None
                end
            end
          else None
      end
  end
with elements (fuel : nat) (s : string) : option (list Json * string) :=
  match fuel with
  | O => None
  | S f =>
      match value f s with
      | None => None
      | Some (v, k1) =>
          match skip_ws k1 with
          | EmptyString => None
          | String c k2 =>
              if Ascii.eqb c "," then
                match elements f k2 with
                | Some (rest, k3) => Some (v :: rest, k3)
                | None => None
                end
              else if Ascii.eqb c "]" then Some ([v], k2)
              else None
          end
      end
  end.

(** [JSON.parse(s)]; [None] is the [SyntaxError]. *)
Definition parse (s : string) : option Json :=
  match value (S (String.length s)) s with
  | Some (v, k) =>
      match skip_ws k with
      | EmptyString => Some v
      | String _ _ => None
      end
  | None => None
  end.

(** [v[k]] for an object built by [JSON.parse] or an object literal: the
    last binding of a repeated key wins; any other value has no such
    property. *)
Fixpoint lookup (k : string) (fields : list (string * Json)) : JsValue :=
  match fields with
  | [] => None
  | (k', v) :: rest =>
      match lookup k rest with
      | Some w => Some w
      | None => if String.eqb k k' then Some v else None
      end
  end.

Definition field (v : Json) (k : string) : JsValue :=
  match v with
  | JObj fields => lookup k fields
  | _ => None
  end.

(** [ToBoolean] *)
Definition truthy (v : JsValue) : bool :=
  match v with
  | None => false
  | Some JNull => false
  | Some (JBool b) => b
  | Some (JNum x) => Binary64.truthy x
  | Some (JStr s) => negb (String.eqb s EmptyString)
  | Some (JArr _) => true
  | Some (JObj _) => true
  end.

(** What may follow a number in a JSON text of this program. *)
Definition closes (k : string) : Prop :=
  match k with
  | EmptyString => True
  | String c _ => c = "}"%char \/ c = ","%char \/ c = "]"%char
  end.

End JSON.

(** ** The two regular expressions of [mon-kbis.ts]

    They are written here with [Q] for the double quote character:
    [/action=Q([^Q]+)Q/] and [/class=Qalert[^Q]*Q[^>]*>([^<]+)/].
    Both are unanchored: the engine tries each start position from the
    left and keeps the first that matches.  Every quantified class is
    followed by a character it excludes, so at a given start position
    there is one way to match at most. *)

Module Regex.

Definition isnt (x : ascii) (c : ascii) : bool := negb (Ascii.eqb c x).

Definition action_prefix : string := "action=" ++ String Str.dq EmptyString.
Definition alert_prefix : string := "class=" ++ String Str.dq "alert".

(** The first expression anchored at the head of [s]: its capture. *)
Definition action_here (s : string) : option string :=
  match Str.after action_prefix s with
  | None => None
  | Some r =>
      match Str.span (isnt Str.dq) r with
      | (String c cap, String _ _) => Some (String c cap)
      | _ => None
      end
  end.

(** [html.match] of the first expression: group 1 of the leftmost match. *)
Fixpoint match_action (s : string) : option string :=
  match action_here s with
  | Some cap => Some cap
  | None =>
      match s with
      | EmptyString => None
      | String _ r => match_action r
      end
  end.

(** The second expression anchored at the head of [s]: its capture. *)
Definition alert_here (s : string) : option string :=
  match Str.after alert_prefix s with
  | None => None
  | Some r =>
      match snd (Str.span (isnt Str.dq) r) with
      | EmptyString => None
      | String _ r1 =>
          match snd (Str.span (isnt ">") r1) with
          | EmptyString => None
          | String _ r2 =>
              match fst (Str.span (isnt "<") r2) with
              | EmptyString => None
              | String c cap => Some (String c cap)
              end
          end
      end
  end.

(** [body.match] of the second expression: group 1 of the leftmost match. *)
Fixpoint match_alert (s : string) : option string :=
  match alert_here s with
  | Some cap => Some cap
  | None =>
      match s with
      | EmptyString => None
      | String _ r => match_alert r
      end
  end.

End Regex.

(** ** What the runtime provides and this development leaves open *)

Class Runtime : Type := {
  (** [new Bun.CookieMap(header).get(name)]: [None] is [null]. *)
  CookieMap : string -> string -> option string;
  (** [createHash("sha256").update(text).digest()] *)
  sha256 : string -> string;
  (** [new URL(href).searchParams.get(name)]: the outer [None] is the
      [TypeError] of an invalid URL, the inner one is [null]. *)
  URL_searchParam : string -> string -> option (option string);
  (** [ToNumber] of a string, an array or an object. *)
  ToNumber_other : Json -> Number;
  (** What [Buffer.toString()] makes of bytes that are not well-formed
      UTF-8 (it substitutes U+FFFD). *)
  utf8_lossy : string -> string
}.

(** ** HTTP messages *)

Inductive Method : Type := GET | POST.

Inductive Body : Type :=
| NoBody
| Text (s : string)
| Form (fields : list (string * JsValue)).   (* a [URLSearchParams] record *)

(** A request: [search] is the record given to the [URLSearchParams] that
    the code appends to [url] after a question mark (empty when there is
    none); [manual] is [redirect: "manual"]. *)
Record Request : Type := {
  url : string;
  search : list (string * JsValue);
  method : Method;
  headers : list (string * string);
  body : Body;
  manual : bool
}.

(** [params.get(name)] on such a record: [None] when [name] is not bound. *)
Fixpoint param (name : string) (l : list (string * JsValue)) : option JsValue :=
  match l with
  | [] => None
  | (k, v) :: rest => if String.eqb k name then Some v else param name rest
  end.

(** What the code reads of a response: [status], [headers.get("Location")],
    [headers.getSetCookie()] and [text()]. *)
Record Response : Type := {
  status : Z;
  location : option string;
  getSetCookie : list string;
  text : string
}.

(** ** Effects

    Every call that leaves the program is an event of the run's [log],
    the latest call first.  The answers of the outside world are looked up
    in a [World] at the number of calls made before. *)

Inductive Event : Type :=
| Fetch (rq : Request)
| RandomBytes (n : nat)
| DateNow
| SecretsGet (service name : string)
| SecretsSet (service name value : string)
| SecretsDelete (service name : string)
| StdoutWrite (s : string)
| StdinData
| StdinPause
| ConsoleLog (s : string)
| Shell (cmd : string) (ok : bool).

Record World : Type := {
  http : nat -> Request -> option Response;  (* [None]: [fetch] rejects *)
  entropy : nat -> nat -> ascii;             (* byte [i] of a [randomBytes] call *)
  clock : nat -> Z;                          (* [Date.now()], a time value *)
  stdin : nat -> string;                     (* the chunk of a ["data"] event *)
  shell : nat -> string -> bool              (* does the command exit with 0 *)
}.

(** The OS keychain behind [Bun.secrets], keyed by service and name. *)
Record State : Type := {
  secrets : gmap (string * string) string;
  log : list Event
}.

Inductive JsError : Type :=
| Error (message : string)
| TypeError
| SyntaxError
| URIError
| ShellError (cmd : string)
| FetchError.

Inductive Outcome (A : Type) : Type :=
| Returned (a : A)
| Thrown (e : JsError).
Arguments Returned {A} a.
Arguments Thrown {A} e.

Definition M (A : Type) : Type := World -> State -> Outcome A * State.

(** A computation that has no effect: it returns or throws. *)
Definition lift {A} (o : Outcome A) : M A := fun _ st => (o, st).

Definition ret {A} (a : A) : M A := lift (Returned a).

Definition throw {A} (e : JsError) : M A := lift (Thrown e).

Definition and_then {A B} (o : Outcome A) (k : A -> Outcome B) : Outcome B :=
  match o with
  | Returned a => k a
  | Thrown e => Thrown e
  end.

Definition bind {A B} (m : M A) (k : A -> M B) : M B :=
  fun w st =>
    match m w st with
    | (Returned a, st') => k a w st'
    | (Thrown e, st') => (Thrown e, st')
    end.

Notation "x <- m ;; k" := (bind m (fun x => k))
  (at level 200, m at level 99, k at level 200, right associativity).
Notation "m ;;; k" := (bind m (fun _ => k))
  (at level 200, k at level 200, right associativity).

(** [wp w m st Q]: the run of [m] in world [w] from state [st] ends with an
    outcome and a state that satisfy [Q]. *)
Definition wp {A : Type} (w : World) (m : M A) (st : State)
    (Q : Outcome A -> State -> Prop) : Prop :=
  Q (fst (m w st)) (snd (m w st)).

Definition record (e : Event) (st : State) : State :=
  {| secrets := secrets st; log := e :: log st |}.

Definition now_index (st : State) : nat := List.length (log st).

(** Does the event read or write the keychain. *)
Definition keychain_event (e : Event) : bool :=
  match e with
  | SecretsGet _ _ | SecretsSet _ _ _ | SecretsDelete _ _ => true
  | _ => false
  end.

(** The events in the order of the calls. *)
Definition history (st : State) : list Event := List.rev (log st).

(** [await fetch(...)] *)
Definition fetch (rq : Request) : M Response :=
  fun w st =>
    match http w (now_index st) rq with
    | Some res => (Returned res, record (Fetch rq) st)
    | None => (Thrown FetchError, record (Fetch rq) st)
    end.

(** The [n] bytes that the world hands to the [randomBytes] call made after
    [i] others. *)
Definition sample (w : World) (i n : nat) : string :=
  string_of_list_ascii (map (entropy w i) (seq 0 n)).

(** [randomBytes(n)] *)
Definition randomBytes (n : nat) : M string :=
  fun w st => (Returned (sample w (now_index st) n), record (RandomBytes n) st).

(** The events of a run that led from [st] to [st'], in the order of the
    calls. *)
Definition run_events (st st' : State) : list Event :=
  List.rev (firstn (List.length (log st') - List.length (log st)) (log st')).

(** [Date.now()] *)
Definition Date_now : M Z :=
  fun w st => (Returned (clock w (now_index st)), record DateNow st).

(** [Bun.secrets.get], [set] and [delete] *)
Definition secrets_get (service name : string) : M (option string) :=
  fun _ st => (Returned (secrets st !! (service, name)), record (SecretsGet service name) st).

Definition secrets_set (service name value : string) : M unit :=
  fun _ st =>
    (Returned tt,
     {| secrets := <[(service, name) := value]> (secrets st);
        log := SecretsSet service name value :: log st |}).

Definition secrets_delete (service name : string) : M unit :=
  fun _ st =>
    (Returned tt,
     {| secrets := delete (service, name) (secrets st);
        log := SecretsDelete service name :: log st |}).

Definition stdout_write (s : string) : M unit :=
  fun _ st => (Returned tt, record (StdoutWrite s) st).

Definition console_log (s : string) : M unit :=
  fun _ st => (Returned tt, record (ConsoleLog s) st).

(** [new Promise((resolve) => process.stdin.once("data", (data) =>
    resolve(data.toString())))] *)
Definition stdin_data : M string :=
  fun w st => (Returned (stdin w (now_index st)), record StdinData st).

Definition stdin_pause : M unit :=
  fun _ st => (Returned tt, record StdinPause st).

(** [await Bun.$`cmd`]: throws when the command exits with another status
    than 0. *)
Definition run_shell (cmd : string) : M unit :=
  fun w st =>
    let ok := shell w (now_index st) cmd in
    (if ok then Returned tt else Thrown (ShellError cmd), record (Shell cmd ok) st).

(** Helpers for values. *)

Definition of_option {A} (e : JsError) (o : option A) : Outcome A :=
  match o with
  | Some a => Returned a
  | None => Thrown e
  end.

(** [v.k], and the destructuring [const { k } = v]: a [TypeError] when [v]
    is [null] or [undefined]. *)
Definition prop (v : JsValue) (k : string) : Outcome JsValue :=
  match v with
  | None => Thrown TypeError
  | Some JNull => Thrown TypeError
  | Some j => Returned (JSON.field j k)
  end.

(** Is a [string | null] falsy: [null] and the empty string are. *)
Definition falsy (o : option string) : bool :=
  match o with
  | None => true
  | Some s => String.eqb s EmptyString
  end.

(** The string of a [string | null] that was tested to be truthy. *)
Definition unwrap (o : option string) : string :=
  match o with
  | Some s => s
  | None => EmptyString
  end.

(** [JSON.parse] with its [SyntaxError]. *)
Definition JSON_parse (s : string) : Outcome Json := of_option SyntaxError (JSON.parse s).

(** [await res.json()] *)
Definition json (res : Response) : Outcome Json := JSON_parse (text res).

(** The object literal [{ token, expiresAt }] of [setSessionToken]. *)
Definition session_data (token : string) (expiresAt : Number) : Json :=
  JObj [("token", JStr token); ("expiresAt", JNum expiresAt)].

(** The same with an integer for [expiresAt]. *)
Definition SessionData (token : string) (expiresAt : Z) : Json :=
  session_data token (Int expiresAt).

(** [now + ms] for a clock reading [now].  What [Date.now()] returns is a
    time value, an integer of at most 8.64e15 in absolute value; with an
    integer [ms] of at most [2^48] in absolute value the sum is a safe
    integer, and binary64 adds exactly. *)
Definition since (now : Z) (ms : Number) : Number :=
  match ms with
  | Int d => if (Z.abs d <=? 2 ^ 48)%Z then Int (now + d) else Binary64.plus (Int now) ms
  | _ => Binary64.plus (Int now) ms
  end.

(** [Date.now() + ttlMinutes * 60 * 1000] *)
Definition expiry (now : Z) (ttlMinutes : Number) : Number :=
  since now (Binary64.times (Binary64.times ttlMinutes (Int 60)) (Int 1000)).

(** The object literal [{ login, password }]. *)
Definition Credentials (login password : string) : Json :=
  JObj [("login", JStr login); ("password", JStr password)].

Section WithRuntime.

Context {rt : Runtime}.

(** [buf.toString()] *)
Definition Buffer_toString (buf : string) : string :=
  if Utf8.valid buf then buf else utf8_lossy buf.

(** [ToNumber] *)
Definition ToNumber (v : JsValue) : Number :=
  match v with
  | None => NaN
  | Some JNull => Int 0
  | Some (JBool true) => Int 1
  | Some (JBool false) => Int 0
  | Some (JNum x) => x
  | Some j => ToNumber_other j
  end.

(** [n > v] for an integer [n]: false when [v] is [NaN]. *)
Definition greater (n : Z) (v : JsValue) : bool := Binary64.below (ToNumber v) n.

(** [new URL(href).searchParams.get(name)] where [href] is a header that
    may be missing: [new URL(null)] is a [TypeError]. *)
Definition searchParam (href : option string) (name : string) : Outcome (option string) :=
  match href with
  | None => Thrown TypeError
  | Some h => of_option TypeError (URL_searchParam h name)
  end.

(** A [string | null] as a value. *)
Definition nullable (o : option string) : JsValue :=
  match o with
  | Some s => Some (JStr s)
  | None => Some JNull
  end.

(** ** [utils.ts] *)

Definition KEYCHAIN_SERVICE : string := "cli-administratif".

Inductive ServiceName : Type := kbis | urssaf.

Definition service_name (name : ServiceName) : string :=
  match name with
  | kbis => "kbis"
  | urssaf => "urssaf"
  end.

Definition DEFAULT_HEADERS : list (string * string) :=
  [("User-Agent",
    "Mozilla/5.0 (Macintosh; Intel Mac OS X 10.15; rv:143.0) Gecko/20100101 Firefox/143.0")].

(** [getCredentials]: the parsed secret, or [null]. *)
Definition getCredentials (name : ServiceName) : M Json :=
  stored <- secrets_get KEYCHAIN_SERVICE (service_name name) ;;
  match stored with
  | Some s => if String.eqb s EmptyString then ret JNull else lift (JSON_parse s)
  | None => ret JNull
  end.

Definition setCredentials (name : ServiceName) (login password : string) : M unit :=
  secrets_set KEYCHAIN_SERVICE (service_name name)
    (JSON.stringify (Credentials login password)).

Definition deleteCredentials (name : ServiceName) : M unit :=
  secrets_delete KEYCHAIN_SERVICE (service_name name).

Definition ask (prompt : string) : M string :=
  stdout_write prompt ;;;
  data <- stdin_data ;;
  ret (Str.trim data).

Definition newline : string := String (ascii_of_nat 10) EmptyString.

Definition askPassword (prompt : string) : M string :=
  stdout_write prompt ;;;
  run_shell "stty -echo" ;;;
  data <- stdin_data ;;
  let password := Str.trim data in
  run_shell "stty echo" ;;;
  stdout_write newline ;;;
  ret password.

Definition getOrPromptCredentials (name : ServiceName) (loginPrompt : string) : M Json :=
  stored <- getCredentials name ;;
  if JSON.truthy (Some stored) then ret stored
  else
    login <- ask loginPrompt ;;
    password <- askPassword "Mot de passe: " ;;
    stdin_pause ;;;
    setCredentials name login password ;;;
    console_log "Identifiants sauvegardés dans le trousseau." ;;;
    ret (Credentials login password).

Definition sessionKey (name : ServiceName) : string := service_name name ++ "-session".

Definition deleteSessionToken (name : ServiceName) : M unit :=
  secrets_delete KEYCHAIN_SERVICE (sessionKey name).

(** [getSessionToken]: the result is [data.token] as it is, or [null]. *)
Definition getSessionToken (name : ServiceName) : M JsValue :=
  stored <- secrets_get KEYCHAIN_SERVICE (sessionKey name) ;;
  if falsy stored then ret (Some JNull)
  else
    data <- lift (JSON_parse (unwrap stored)) ;;
    now <- Date_now ;;
    expiresAt <- lift (prop (Some data) "expiresAt") ;;
    if greater now expiresAt then
      deleteSessionToken name ;;;
      ret (Some JNull)
    else lift (prop (Some data) "token").

Definition setSessionToken (name : ServiceName) (token : string) (ttlMinutes : Number)
    : M unit :=
  now <- Date_now ;;
  let data := session_data token (expiry now ttlMinutes) in
  secrets_set KEYCHAIN_SERVICE (sessionKey name) (JSON.stringify data).

(** [parseCookies]: the map is kept as its lookup function. *)
Definition parseCookies (response : Response) : string -> option string :=
  CookieMap (Str.join "; " (getSetCookie response)).

End WithRuntime.

(** ** [mes-echeances-urssaf.ts] *)

Module Urssaf.

Record AuthResult : Type := {
  compte : JsValue;
  access_token : JsValue
}.

Definition bad_credentials_marker : string := "Erreur d'identifiant ou de mot de passe".

Definition credentials_rejected : JsError :=
  Error ("Authentification échouée : identifiant ou mot de passe incorrect."
         ++ newline
         ++ "Les identifiants ont été supprimés du trousseau. Relancez le script.").

Definition contract_changed : JsError :=
  Error "Cookie ctxUrssaf non trouvé - l'API URSSAF a peut-être changé".

(** The record [{siret, orga, numc}] and the JSON value
    [{compte: {siret, orga, numc}}] that the portal puts, in Base64, in the
    [ctxUrssaf] cookie. *)
Definition account (siret orga numc : string) : Json :=
  JObj [("siret", JStr siret); ("orga", JStr orga); ("numc", JStr numc)].

Definition context (siret orga numc : string) : Json :=
  JObj [("compte", account siret orga numc)].

Definition b64url (buf : string) : string := Base64.encode_url buf.

Definition authorize_endpoint : string := "https://login.urssaf.fr/api/oauth/v1/authorize".

Definition token_endpoint : string := "https://login.urssaf.fr/api/oauth/v1/token".

(** The three samples that a run of [login] started after [n] calls draws
    when it gets that far, and the [codeVerifier], [state] and [nonce] it
    makes of them. *)
Definition pkce_samples (w : World) (n : nat) : string * string * string :=
  (sample w (2 + n) 32, sample w (3 + n) 32, sample w (4 + n) 32).

Definition pkce_material (w : World) (n : nat) : string * string * string :=
  (b64url (sample w (2 + n) 32),
   b64url (sample w (3 + n) 32) ++ "-0000000000-webti",
   b64url (sample w (4 + n) 32)).

Section WithRuntime.

Context {rt : Runtime}.

(** [JSON.parse(Buffer.from(decodeURIComponent(ctxValue), "base64").toString())]
    and the destructuring of [compte]. *)
Definition decode_context (ctxValue : string) : Outcome JsValue :=
  and_then (of_option URIError (Uri.decodeURIComponent ctxValue)) (fun unescaped =>
  and_then (JSON_parse (Buffer_toString (Base64.decode unescaped))) (fun parsed =>
  prop (Some parsed) "compte")).

Definition cnx_request (identifiant password : string) : Request :=
  {| url := "https://mon.urssaf.fr/cnx";
     search := [];
     method := POST;
     headers := DEFAULT_HEADERS ++ [("Content-Type", "application/x-www-form-urlencoded")];
     body := Text ("identifiant=" ++ Uri.encodeURIComponent identifiant
                   ++ "&Password=" ++ Uri.encodeURIComponent password);
     manual := true |}.

Definition configuration_request : Request :=
  {| url := "https://webti.urssaf.fr/assets/configuration/configuration.json";
     search := [];
     method := GET;
     headers := DEFAULT_HEADERS ++ [("Accept", "application/json")];
     body := NoBody;
     manual := false |}.

Definition authorize_request (clientId : JsValue) (state codeVerifier nonce : string)
    (tokenBds : option string) : Request :=
  {| url := authorize_endpoint;
     search :=
       [("response_type", Some (JStr "code"));
        ("client_id", clientId);
        ("state", Some (JStr state));
        ("redirect_uri", Some (JStr "https://webti.urssaf.fr/callback"));
        ("scope",
         Some (JStr "openid webti.metier webti.metier.v2 deci.ti offline_access ods.cedito ods.session"));
        ("code_challenge", Some (JStr (b64url (sha256 codeVerifier))));
        ("code_challenge_method", Some (JStr "S256"));
        ("nonce", Some (JStr nonce));
        ("prompt", Some (JStr "none"));
        ("subject_token", nullable tokenBds);
        ("subject_token_type", Some (JStr "urn:oauth2:180035016:acoss:token-bds"))];
     method := GET;
     headers := DEFAULT_HEADERS;
     body := NoBody;
     manual := true |}.

Definition token_request (clientId : JsValue) (code : option string) (codeVerifier : string)
    : Request :=
  {| url := token_endpoint;
     search := [];
     method := POST;
     headers := DEFAULT_HEADERS ++ [("Content-Type", "application/x-www-form-urlencoded")];
     body :=
       Form [("grant_type", Some (JStr "authorization_code"));
             ("code", nullable code);
             ("redirect_uri", Some (JStr "https://webti.urssaf.fr/callback"));
             ("code_verifier", Some (JStr codeVerifier));
             ("client_id", clientId)];
     manual := false |}.

(** The handshake after the context cookie was found. *)
Definition oidc (res : Response) (ctxValue : string) : M AuthResult :=
  compte <- lift (decode_context ctxValue) ;;
  configuration <- fetch configuration_request ;;
  conf <- lift (json configuration) ;;
  conf_oidc <- lift (prop (Some conf) "oidc") ;;
  annabel <- lift (prop conf_oidc "annabel") ;;
  clientId <- lift (prop annabel "clientId") ;;
  verifier_bytes <- randomBytes 32 ;;
  let codeVerifier := b64url verifier_bytes in
  tokenBds <- lift (searchParam (location res) "tokenBds") ;;
  state_bytes <- randomBytes 32 ;;
  nonce_bytes <- randomBytes 32 ;;
  authRes <- fetch (authorize_request clientId (b64url state_bytes ++ "-0000000000-webti")
                      codeVerifier (b64url nonce_bytes) tokenBds) ;;
  code <- lift (searchParam (location authRes) "code") ;;
  tokenRes <- fetch (token_request clientId code codeVerifier) ;;
  token <- lift (json tokenRes) ;;
  access_token <- lift (prop (Some token) "access_token") ;;
  ret {| compte := compte; access_token := access_token |}.

Definition login (identifiant password : string) : M AuthResult :=
  res <- fetch (cnx_request identifiant password) ;;
  let cookieMap := parseCookies res in
  let ctxValue := cookieMap "ctxUrssaf" in
  if falsy ctxValue then
    let body := text res in
    if Str.includes body bad_credentials_marker then
      deleteCredentials urssaf ;;;
      throw credentials_rejected
    else throw contract_changed
  else oidc res (unwrap ctxValue).

End WithRuntime.

(** *** [printEcheances]

    The amounts are JavaScript numbers; their type, their addition and
    their French formatting are left open.  [toLowerCase] is too. *)

Section Echeances.

Variable number : Type.
Variable zero : number.
Variable plus : number -> number -> number.
Variable toLocaleString_fr : number -> string.
Variable toLowerCase : string -> string.

Record Echeance : Type := {
  montantTotal : number;
  montantNonPaye : number;
  montantPaye : number;        (* [paiement.montantPaye] *)
  dateExigibilite : string;    (* [exigibilite.dateExigibilite] *)
  etatEcheance : string
}.

Record Ligne : Type := {
  Date : string;
  Montant_Total : string;
  Paye : string;
  Restant : string;
  Etat : string
}.

Inductive Output : Type :=
| Log (s : string)
| Table (rows : list Ligne).

Definition formatEuro (m : number) : string := toLocaleString_fr m ++ " €".

(** An element of a destructured array inside a template literal. *)
Definition part (l : list string) (i : nat) : string := nth i l "undefined".

(** [s.replace(/ee$/, "ée")] *)
Fixpoint replace_final_ee (s : string) : string :=
  match s with
  | String c r =>
      if String.eqb s "ee" then "ée" else String c (replace_final_ee r)
  | EmptyString => EmptyString
  end.

(** [s.length]: the number of UTF-16 code units of the text. *)
Fixpoint utf16_length (s : string) : nat :=
  match s with
  | EmptyString => O
  | String c r =>
      let n := nat_of_ascii c in
      ((if (n <? 128) || (192 <=? n) then 1 else 0) + (if 240 <=? n then 1 else 0)
       + utf16_length r)%nat
  end.

Fixpoint spaces (n : nat) : string :=
  match n with
  | O => EmptyString
  | S k => String " " (spaces k)
  end.

Definition padEnd (s : string) (width : nat) : string :=
  s ++ spaces (width - utf16_length s).

Definition padStart (s : string) (width : nat) : string :=
  spaces (width - utf16_length s) ++ s.

Definition ligne (e : Echeance) : Ligne :=
  let ymd := Str.split "-" (dateExigibilite e) in
  {| Date := part ymd 2 ++ "/" ++ part ymd 1 ++ "/" ++ part ymd 0;
     Montant_Total := formatEuro (montantTotal e);
     Paye := formatEuro (montantPaye e);
     Restant := formatEuro (montantNonPaye e);
     Etat := replace_final_ee (toLowerCase (etatEcheance e)) |}.

(** One call of the callback of [echeances.map]: it adds to the three
    cells of [totaux] and yields the row. *)
Definition visit (acc : (number * number * number) * list Ligne) (e : Echeance)
    : (number * number * number) * list Ligne :=
  let '((t0, t1, t2), lignes) := acc in
  ((plus t0 (montantTotal e), plus t1 (montantPaye e), plus t2 (montantNonPaye e)),
   (lignes ++ [ligne e])%list).

(** [totaux] and [lignes] once [map] has visited every element in order. *)
Definition accumulate (echeances : list Echeance) : (number * number * number) * list Ligne :=
  fold_left visit echeances ((zero, zero, zero), []).

Definition esc : string := String (ascii_of_nat 27) EmptyString.

Definition totaux_text (totaux : number * number * number) : string :=
  let '(t0, t1, t2) := totaux in
  let width := 12%nat in
  newline ++ esc ++ "[96m 💰 TOTAUX" ++ esc ++ "[0m" ++ newline ++ newline
  ++ "  " ++ padEnd "Total :" width ++ " " ++ padStart (formatEuro t0) width ++ newline
  ++ "  " ++ padEnd "Payé :" width ++ " " ++ padStart (formatEuro t1) width ++ newline
  ++ "  " ++ padEnd "Restant dû :" width ++ " " ++ padStart (formatEuro t2) width ++ newline.

(** What [printEcheances] prints: a heading, the table and the totals. *)
Definition printEcheances (echeances : list Echeance) : list Output :=
  let '(totaux, lignes) := accumulate echeances in
  [Log (newline ++ esc ++ "[96m 📅 ÉCHÉANCES" ++ esc ++ "[0m");
   Table lignes;
   Log (totaux_text totaux)].

End Echeances.

Arguments montantTotal {number} _.
Arguments montantNonPaye {number} _.
Arguments montantPaye {number} _.
Arguments dateExigibilite {number} _.
Arguments etatEcheance {number} _.
Arguments formatEuro {number} _ _.
Arguments ligne {number} _ _ _.
Arguments visit {number} _ _ _ _ _.
Arguments accumulate {number} _ _ _ _ _.
Arguments totaux_text {number} _ _.
Arguments printEcheances {number} _ _ _ _ _.

End Urssaf.

(** ** [mon-kbis.ts] *)

Module Kbis.

Definition unknown_action : JsError :=
  Error "Impossible de trouver l'URL d'action du formulaire Keycloak".

Definition unexpected_redirect : JsError :=
  Error "Redirection inattendue après authentification".

Definition session_not_found : JsError :=
  Error "PHPSESSID non trouvé après les redirections".

(** The message of the error raised when the login POST is not answered
    with a redirect. *)
Definition errorMessage (body : string) : string :=
  match Regex.match_alert body with
  | Some captured => Str.trim (Str.replaceAll captured "&#39;" "'")
  | None => "Erreur inconnue"
  end.

Definition rejected (body : string) : JsError :=
  Error ("Authentification: " ++ errorMessage body).

Definition get_manual (href : string) : Request :=
  {| url := href; search := []; method := GET; headers := []; body := NoBody;
     manual := true |}.

(** The event of one hop of the redirect walk. *)
Definition hop (href : string) : Event := Fetch (get_manual href).

Definition get_follow (href : string) : Request :=
  {| url := href; search := []; method := GET; headers := []; body := NoBody;
     manual := false |}.

Definition login_post (actionUrl authCookies email password : string) : Request :=
  {| url := actionUrl;
     search := [];
     method := POST;
     headers := DEFAULT_HEADERS
                ++ [("Content-Type", "application/x-www-form-urlencoded");
                    ("Cookie", authCookies)];
     body := Text ("username=" ++ Uri.encodeURIComponent email
                   ++ "&password=" ++ Uri.encodeURIComponent password
                   ++ "&credentialId=");
     manual := true |}.

Definition authCookies (keycloakRes : Response) : string :=
  Str.join "; "
    (filter (fun c => Str.startsWith c "AUTH_SESSION_ID")
            (map (Str.split_head ";") (getSetCookie keycloakRes))).

Definition resolve (nextUrl : string) : string :=
  if Str.startsWith nextUrl "http" then nextUrl else "https://monidenum.fr" ++ nextUrl.

Section WithRuntime.

Context {rt : Runtime}.

(** The [for] loop with [budget] iterations left: the value of
    [phpsessid] when the loop is left, empty if no hop set the cookie. *)
Fixpoint walk (budget : nat) (currentUrl : string) : M string :=
  match budget with
  | O => ret EmptyString
  | S k =>
      res <- fetch (get_manual currentUrl) ;;
      let cookies := parseCookies res in
      let sessionCookie := cookies "PHPSESSID" in
      if negb (falsy sessionCookie) then ret (unwrap sessionCookie)
      else
        let nextUrl := location res in
        if falsy nextUrl || negb (status res =? 302)%Z then ret EmptyString
        else walk k (resolve (unwrap nextUrl))
  end.

Definition login (email password : string) : M string :=
  loginPageRes <- fetch (get_manual "https://monidenum.fr/login") ;;
  keycloakUrl <- lift (of_option TypeError (location loginPageRes)) ;;
  keycloakRes <- fetch (get_follow keycloakUrl) ;;
  let keycloakHtml := text keycloakRes in
  match Regex.match_action keycloakHtml with
  | None => throw unknown_action
  | Some action =>
      let actionUrl := Str.replaceAll action "&amp;" "&" in
      loginRes <- fetch (login_post actionUrl (authCookies keycloakRes) email password) ;;
      let redirectUrl := location loginRes in
      if negb (status loginRes =? 302)%Z then throw (rejected (text loginRes))
      else if falsy redirectUrl
              || negb (Str.includes (unwrap redirectUrl) "monidenum.fr")
      then throw unexpected_redirect
      else
        phpsessid <- walk 5 (unwrap redirectUrl) ;;
        if String.eqb phpsessid EmptyString then throw session_not_found
        else ret phpsessid
  end.

End WithRuntime.

End Kbis.

(** ** The terminal, as the shell commands of a run leave it

    [stty -echo] and [stty echo] switch the echo when they succeed; a
    command that fails changes nothing. *)

Fixpoint echo_after (events : list Event) (echo : bool) : bool :=
  match events with
  | [] => echo
  | Shell cmd true :: rest =>
      if String.eqb cmd "stty -echo" then echo_after rest false
      else if String.eqb cmd "stty echo" then echo_after rest true
      else echo_after rest echo
  | _ :: rest => echo_after rest echo
  end.

(** [e1] occurs in [events] and [e2] occurs later. *)
Definition followed_by (e1 e2 : Event) (events : list Event) : Prop :=
  exists a b c, events = (a ++ e1 :: b ++ e2 :: c)%list.

(** ** The words of the specification, where they differ from the code *)

Module Spec.

(** Section 4.4 names this substring of the response body as the sign of
    bad credentials. *)
Definition bad_credentials_substring : string := "identifiant ou mot de passe incorrect".

(** Section 4.5 speaks of a redirect target that belongs to the expected
    origin.  The host of an absolute URL: what stands between [://] and the
    next [/], [?], [#] or [:]. *)
Fixpoint after_scheme (s : string) : option string :=
  match Str.after "://" s with
  | Some r => Some r
  | None =>
      match s with
      | EmptyString => None
      | String c r =>
          if Ascii.eqb c "/" || Ascii.eqb c "?" || Ascii.eqb c "#" then None
          else after_scheme r
      end
  end.

Definition host_char (c : ascii) : bool :=
  negb (Ascii.eqb c "/" || Ascii.eqb c "?" || Ascii.eqb c "#" || Ascii.eqb c ":"
        || Ascii.eqb c "@").

Definition host_of (href : string) : option string :=
  match after_scheme href with
  | Some r => Some (fst (Str.span host_char r))
  | None => None
  end.

Fixpoint ends_with (s suffix : string) : bool :=
  String.eqb s suffix ||
  match s with
  | EmptyString => false
  | String _ r => ends_with r suffix
  end.

(** The target is on [monidenum.fr] or on one of its subdomains. *)
Definition belongs_to_expected_origin (href : string) : bool :=
  match host_of href with
  | Some h => String.eqb h "monidenum.fr" || ends_with h ".monidenum.fr"
  | None => false
  end.

(** Section 4.5 speaks of an HTML element matching an [alert] class.  In
    HTML the value of a [class] attribute is a list of names separated by
    white space, and an element has the class [alert] when [alert] is one
    of them. *)
Definition html_space (c : ascii) : bool :=
  Ascii.eqb c " " || Ascii.eqb c "009" || Ascii.eqb c "010" || Ascii.eqb c "012"
  || Ascii.eqb c "013".

(** The names of a [class] value; [current] is the name being read. *)
Fixpoint class_names (value current : string) : list string :=
  match value with
  | EmptyString => if String.eqb current EmptyString then [] else [current]
  | String c r =>
      if html_space c
      then if String.eqb current EmptyString then class_names r EmptyString
           else current :: class_names r EmptyString
      else class_names r (current ++ String c EmptyString)
  end.

Definition has_alert_class (value : string) : bool :=
  existsb (String.eqb "alert") (class_names value EmptyString).

End Spec.

(** ** A runtime and worlds for the examples

    Plain stand-ins for the runtime services, enough to run the programs
    on concrete inputs. *)

Module Sample.

(** A percent-encoded text decoded; it is left as it is when its escapes
    do not spell well-formed UTF-8. *)
Definition percent_decoded (s : string) : string :=
  match Uri.decodeURIComponent s with
  | Some d => d
  | None => s
  end.

(** One [name=value] piece, split at its first [=]. *)
Definition cookie_pair (piece : string) : string * string :=
  let '(n, v) := Str.span (Regex.isnt "=") (Str.trim piece) in
  (n, match v with String _ r => r | EmptyString => EmptyString end).

Fixpoint assoc (name : string) (l : list (string * string)) : option string :=
  match l with
  | [] => None
  | (k, v) :: rest => if String.eqb k name then Some v else assoc name rest
  end.

(** A cookie header read as [name=value] pieces separated by semicolons,
    the value percent-decoded. *)
Definition cookie_get (header name : string) : option string :=
  option_map percent_decoded (assoc name (map cookie_pair (Str.split ";" header))).

(** The query of an absolute URL read as [name=value] pieces separated by
    ampersands, the value percent-decoded with [+] read as a space. *)
Definition query_get (href name : string) : option (option string) :=
  if Str.includes href "://" then
    match Str.split "?" href with
    | _ :: q :: _ =>
        Some (option_map (fun v => percent_decoded (Str.replaceAll v "+" " "))
                (assoc name (map cookie_pair (Str.split "&" q))))
    | _ => Some None
    end
  else None.

#[local] Instance runtime : Runtime := {|
  CookieMap := cookie_get;
  sha256 := fun s => "sha256 of " ++ s;
  URL_searchParam := query_get;
  ToNumber_other := fun _ => NaN;
  utf8_lossy := fun s => s
|}.

Definition start (keychain : gmap (string * string) string) : State :=
  {| secrets := keychain; log := [] |}.

Definition response (st : Z) (loc : option string) (cookies : list string) (body : string)
    : Response :=
  {| status := st; location := loc; getSetCookie := cookies; text := body |}.

Fixpoint answer (i : nat) (answers : list (nat * Response)) : option Response :=
  match answers with
  | [] => None
  | (j, res) :: rest => if (i =? j)%nat then Some res else answer i rest
  end.

(** A world whose server answers the call made after [i] others with the
    response listed for [i] and rejects every other call; the clock stands
    at [now], every line typed is [line] and every shell command succeeds
    or fails as [tty] says. *)
Definition world (answers : list (nat * Response)) (now : Z) (line : string) (tty : bool)
    : World :=
  {| http := fun i _ => answer i answers;
     entropy := fun i j => ascii_of_nat (i + j);
     clock := fun _ => now;
     stdin := fun _ => line;
     shell := fun _ _ => tty |}.

Definition at_time (now : Z) : World := world [] now EmptyString true.

(** The numbers 10^18 and 0.009. *)
Definition quintillion : Number := Dyadic 3814697265625 18.
Definition nine_thousandths : Number := Dyadic 5188146770730811 (-59).

(** *** A handshake with the URSSAF portal that succeeds *)

Definition cnx_ok : Response :=
  response 302 (Some "https://mon.urssaf.fr/redirect?tokenBds=bds-1")
    ["ctxUrssaf="
       ++ Base64.encode (JSON.stringify (Urssaf.context "12345678900011" "117" "1170000001"))
       ++ "; Path=/; Secure"]
    EmptyString.

Definition configuration_ok : Response :=
  response 200 None []
    (JSON.stringify (JObj [("oidc", JObj [("annabel", JObj [("clientId", JStr "webti")])])])).

Definition authorize_ok : Response :=
  response 302 (Some "https://webti.urssaf.fr/callback?code=code-1") [] EmptyString.

Definition token_ok : Response :=
  response 200 None [] (JSON.stringify (JObj [("access_token", JStr "token-1")])).

Definition urssaf_ok : World :=
  world [(0, cnx_ok); (1, configuration_ok); (5, authorize_ok); (6, token_ok)]%nat
    0 EmptyString true.

(** The same portal on a day when the random source yields other bytes. *)
Definition urssaf_again : World :=
  {| http := http urssaf_ok;
     entropy := fun i j => ascii_of_nat (100 + i + j);
     clock := clock urssaf_ok;
     stdin := stdin urssaf_ok;
     shell := shell urssaf_ok |}.

(** The authorization request of that run. *)
Definition authorize_sent : Request :=
  Urssaf.authorize_request (Some (JStr "webti"))
    (Urssaf.b64url (sample urssaf_ok 3 32) ++ "-0000000000-webti")
    (Urssaf.b64url (sample urssaf_ok 2 32))
    (Urssaf.b64url (sample urssaf_ok 4 32)) (Some "bds-1").

(** The token request of that run. *)
Definition token_sent : Request :=
  Urssaf.token_request (Some (JStr "webti")) (Some "code-1")
    (Urssaf.b64url (sample urssaf_ok 2 32)).

Definition authorize_sent_again : Request :=
  Urssaf.authorize_request (Some (JStr "webti"))
    (Urssaf.b64url (sample urssaf_again 3 32) ++ "-0000000000-webti")
    (Urssaf.b64url (sample urssaf_again 2 32))
    (Urssaf.b64url (sample urssaf_again 4 32)) (Some "bds-1").

(** *** Answers of [/cnx] without the context cookie *)

Definition keychain_with_credentials : gmap (string * string) string :=
  {[ (KEYCHAIN_SERVICE, "urssaf") := JSON.stringify (Credentials "12345678900011" "hunter2") ]}.

(** A page that carries the marker the code looks for. *)
Definition cnx_rejected : Response :=
  response 200 None [] "<p>Erreur d'identifiant ou de mot de passe</p>".

(** A page that carries the substring the specification names, and not
    the marker of the code. *)
Definition cnx_spec_wording : Response :=
  response 200 None [] "<p>identifiant ou mot de passe incorrect</p>".

Definition cnx_other : Response :=
  response 503 None [] "<h1>Service indisponible</h1>".

(** *** Terminals *)

(** No terminal on the standard input: every [stty] command fails. *)
Definition no_tty : World := world [] 0 "hunter2" false.

(** A terminal on which [stty -echo] succeeds and nothing else does. *)
Definition echo_stuck : World :=
  {| http := fun _ _ => None;
     entropy := fun _ _ => Ascii.zero;
     clock := fun _ => 0%Z;
     stdin := fun _ => "hunter2";
     shell := fun _ cmd => String.eqb cmd "stty -echo" |}.

Definition tty : World := world [] 0 "  hunter2 " true.

(** *** The monidenum portal *)

Definition q : string := String Str.dq EmptyString.

Definition login_page : Response :=
  response 302 (Some "https://auth.monidenum.fr/realms/mon/auth?client_id=portail") []
    EmptyString.

Definition keycloak_page : Response :=
  response 200 None
    ["AUTH_SESSION_ID=s1.node; Path=/realms/mon/; HttpOnly"; "KC_RESTART=r1; Path=/"]
    ("<form id=" ++ q ++ "kc-form-login" ++ q ++ " action=" ++ q
     ++ "https://auth.monidenum.fr/login-actions/authenticate?session_code=c1&amp;tab_id=t1"
     ++ q ++ " method=" ++ q ++ "post" ++ q ++ ">").

Definition redirect (href : string) : Response := response 302 (Some href) [] EmptyString.

Definition with_session (value : string) : Response :=
  response 302 (Some "/mon-espace") ["PHPSESSID=" ++ value ++ "; path=/; secure"] EmptyString.

(** The login POST is answered with a page that carries an alert. *)
Definition post_rejected : Response :=
  response 200 None []
    ("<div class=" ++ q ++ "alert alert-danger" ++ q ++ ">Invalid password</div>").

Definition kbis_rejected : World :=
  world [(0, login_page); (1, keycloak_page); (2, post_rejected)]%nat 0 EmptyString true.

(** The same page, with the class [alert] written after another class. *)
Definition post_notice : Response :=
  response 200 None []
    ("<div class=" ++ q ++ "notice alert" ++ q ++ ">Invalid password</div>").

Definition kbis_notice : World :=
  world [(0, login_page); (1, keycloak_page); (2, post_notice)]%nat 0 EmptyString true.

(** A page whose first element of class [alert] holds its text in a child
    element, and which is followed by an element of class [alert-info]. *)
Definition post_nested : Response :=
  response 200 None []
    ("<div class=" ++ q ++ "alert" ++ q ++ "><b>Invalid password</b></div>"
     ++ "<p class=" ++ q ++ "alert-info" ++ q ++ ">Try again</p>").

Definition kbis_nested : World :=
  world [(0, login_page); (1, keycloak_page); (2, post_nested)]%nat 0 EmptyString true.

(** Five redirects, none of which sets the session cookie; a sixth request
    would be answered with the cookie. *)
Definition kbis_five_hops : World :=
  world [(0, login_page); (1, keycloak_page); (2, redirect "https://monidenum.fr/sso/1");
         (3, redirect "/sso/2"); (4, redirect "/sso/3"); (5, redirect "/sso/4");
         (6, redirect "/sso/5"); (7, redirect "/sso/6"); (8, with_session "late")]%nat
    0 EmptyString true.

(** The second hop sets the session cookie. *)
Definition kbis_second_hop : World :=
  world [(0, login_page); (1, keycloak_page); (2, redirect "https://monidenum.fr/sso/1");
         (3, redirect "/sso/2"); (4, with_session "abc123"); (5, with_session "other")]%nat
    0 EmptyString true.

(** The login POST redirects to another host whose URL contains the text
    [monidenum.fr], and that host sets a session cookie. *)
Definition elsewhere : string := "https://login.example.org/monidenum.fr/landing".

Definition kbis_elsewhere : World :=
  world [(0, login_page); (1, keycloak_page); (2, redirect elsewhere);
         (3, with_session "from-elsewhere")]%nat
    0 EmptyString true.

(** The login POST redirects to a host whose URL does not contain it. *)
Definition kbis_unexpected : World :=
  world [(0, login_page); (1, keycloak_page); (2, redirect "https://login.example.org/")]%nat
    0 EmptyString true.

End Sample.


(** ** Texts over an alphabet *)

(** Every character of [s] satisfies [f]. *)
Fixpoint every (f : ascii -> bool) (s : string) : bool :=
  match s with
  | EmptyString => true
  | String c r => f c && every f r
  end.

(** A place of [page] where the alert expression of [mon-kbis.ts] matches:
    after [before] stand [class=], a double quote and [alert], then
    [class], the rest of the attribute value up to its closing quote, then
    [attributes], the rest of the tag up to its [>], then [captured], the
    non-empty text that runs to the next [<] or to the end of the page. *)
Definition alert_site (page before class attributes captured after : string) : Prop :=
  page = before ++ Regex.alert_prefix ++ class ++ String Str.dq attributes
                ++ String ">" captured ++ after
  /\ every (Regex.isnt Str.dq) class = true
  /\ every (Regex.isnt ">") attributes = true
  /\ every (Regex.isnt "<") captured = true
  /\ captured <> EmptyString
  /\ match after with String c _ => c = "<"%char | EmptyString => True end.

(** The characters of base64url: letters, digits, [-] and [_].  They are
    among the unreserved characters of a URL. *)
Definition url_safe (c : ascii) : bool :=
  let n := nat_of_ascii c in
  (((65 <=? n) && (n <=? 90)) || ((97 <=? n) && (n <=? 122))
   || ((48 <=? n) && (n <=? 57)) || (n =? 45) || (n =? 95))%nat.

(** ** Runs that differ in their past only *)

(** Two states with the same keychain, reached after the same number of
    calls. *)
Definition agree (st1 st2 : State) : Prop :=
  secrets st1 = secrets st2 /\ List.length (log st1) = List.length (log st2).

(** [m] does the same from any two such states: the same outcome, the same
    calls and the same keychain. *)
Definition uniform {A : Type} (m : M A) : Prop :=
  forall w st1 st2,
    agree st1 st2 ->
    fst (m w st1) = fst (m w st2)
    /\ secrets (snd (m w st1)) = secrets (snd (m w st2))
    /\ exists new, log (snd (m w st1)) = (new ++ log st1)%list
                   /\ log (snd (m w st2)) = (new ++ log st2)%list.

(** ** [mon-kbis.ts]: the cached session, the logout and the choice of a company *)

Module KbisCli.

Record Entreprise : Type := {
  id : string;
  denomination : string;
  siren : string;
  formeJuridique : string
}.

Definition no_company : JsError := Error "Aucune entreprise trouvée sur ce compte".

Definition siren_not_found (sirenArg : string) : JsError :=
  Error ("SIREN " ++ sirenArg ++ " non trouvé").

Definition invalid_choice : JsError := Error "Choix invalide".

(** [s.replace] of every match of [\s] by the empty string: the class
    [\s] is the white space that [trim] removes. *)
Fixpoint remove_ws (s : string) : string :=
  match s with
  | String c1 r1 =>
      if Str.is_ws1 c1 then remove_ws r1
      else match r1 with
           | String c2 r2 =>
               if Str.is_ws2 c1 c2 then remove_ws r2
               else match r2 with
                    | String c3 r3 =>
                        if Str.is_ws3 c1 c2 c3 then remove_ws r3
                        else String c1 (remove_ws r1)
                    | EmptyString => String c1 (remove_ws r1)
                    end
           | EmptyString => String c1 EmptyString
           end
  | EmptyString => EmptyString
  end.

(** The number that a string of decimal digits spells, after [acc]. *)
Fixpoint digits_value (acc : Z) (ds : string) : Z :=
  match ds with
  | EmptyString => acc
  | String c r => digits_value (10 * acc + (Z.of_nat (nat_of_ascii c) - 48)) r
  end.

(** [parseInt(s, 10)]: leading white space, a sign, then the longest run of
    digits; [None] is [NaN]. *)
Definition parseInt (s : string) : option Z :=
  let s1 := Str.trimStart s in
  let '(negative, s2) :=
    match s1 with
    | String c r =>
        if Ascii.eqb c "-" then (true, r)
        else if Ascii.eqb c "+" then (false, r)
        else (false, s1)
    | EmptyString => (false, s1)
    end in
  match fst (Str.span JSON.is_digit s2) with
  | EmptyString => None
  | ds => Some (if negative then - digits_value 0 ds else digits_value 0 ds)%Z
  end.

(** A line of the list of companies; [i] counts from 0. *)
Definition listing (i : nat) (e : Entreprise) : string :=
  "  " ++ JSON.digits (N.of_nat (i + 1)) ++ ". " ++ denomination e
  ++ " (" ++ siren e ++ ") - " ++ formeJuridique e.

(** [entreprises.forEach((e, i) => console.log(...))] from index [i] on. *)
Fixpoint list_entreprises (i : nat) (entreprises : list Entreprise) : M unit :=
  match entreprises with
  | [] => ret tt
  | e :: rest => console_log (listing i e) ;;; list_entreprises (S i) rest
  end.

(** The lines that [list_entreprises] prints. *)
Fixpoint listings (i : nat) (entreprises : list Entreprise) : list string :=
  match entreprises with
  | [] => []
  | e :: rest => listing i e :: listings (S i) rest
  end.

(** [selectEntreprise]; [entreprises[index]] is read once [index] is known
    to lie within the array. *)
Definition selectEntreprise (entreprises : list Entreprise) (sirenArg : option string)
    : M Entreprise :=
  match entreprises with
  | [] => throw no_company
  | first :: others =>
      if negb (falsy sirenArg) then
        match find (fun e => String.eqb (siren e) (remove_ws (unwrap sirenArg))) entreprises with
        | Some found => ret found
        | None => throw (siren_not_found (unwrap sirenArg))
        end
      else
        match others with
        | [] => ret first
        | _ :: _ =>
            console_log (newline ++ "Entreprises disponibles :") ;;;
            list_entreprises 0 entreprises ;;;
            choice <- ask (newline ++ "Numéro de l'entreprise: ") ;;
            match parseInt choice with
            | None => throw invalid_choice
            | Some n =>
                let index := (n - 1)%Z in
                if (index <? 0)%Z || (Z.of_nat (List.length entreprises) <=? index)%Z
                then throw invalid_choice
                else ret (nth (Z.to_nat index) entreprises first)
            end
        end
  end.

(** A request of the redirect walk. *)
Definition is_hop (e : Event) : Prop := exists u, e = Fetch (Kbis.get_manual u).

(** The [logout] command. *)
Definition logout : M unit :=
  deleteCredentials kbis ;;;
  deleteSessionToken kbis ;;;
  console_log "Identifiants et session supprimés du trousseau.".

Section WithRuntime.

Context {rt : Runtime}.

(** [ToString] of a value that is not a string is left open. *)
Variable ToString_other : JsValue -> string.

Definition ToString (v : JsValue) : string :=
  match v with
  | Some (JStr s) => s
  | _ => ToString_other v
  end.

(** [authenticate]: the cached token as it is, or the session identifier
    of a fresh login, kept for 30 minutes. *)
Definition authenticate : M JsValue :=
  cached <- getSessionToken kbis ;;
  if JSON.truthy cached then ret cached
  else
    credentials <- getOrPromptCredentials kbis "Email monidenum.fr: " ;;
    email <- lift (prop (Some credentials) "login") ;;
    password <- lift (prop (Some credentials) "password") ;;
    phpsessid <- Kbis.login (ToString email) (ToString password) ;;
    setSessionToken kbis phpsessid (Int 30) ;;;
    ret (Some (JStr phpsessid)).

End WithRuntime.

End KbisCli.

(** ** [mes-echeances-urssaf.ts]: the logout *)

Module UrssafCli.

Definition logout : M unit :=
  deleteCredentials urssaf ;;;
  console_log "Identifiants supprimés du trousseau.".

End UrssafCli.

(** ** Worlds and inputs for the examples of the two command lines *)

Module SampleCli.

Definition keychain_kbis : gmap (string * string) string :=
  {[ (KEYCHAIN_SERVICE, "kbis") := JSON.stringify (Credentials "marie@example.org" "hunter2") ]}.

(** The monidenum portal as a run of [authenticate] meets it when the
    keychain holds the credentials and no session: the two keychain reads
    come before the first request.  The clock stands at 1000. *)
Definition portal : World :=
  Sample.world [(2, Sample.login_page); (3, Sample.keycloak_page);
                (4, Sample.redirect "https://monidenum.fr/sso/1");
                (5, Sample.with_session "abc123")]%nat
    1000 EmptyString true.

Definition acme : KbisCli.Entreprise :=
  {| KbisCli.id := "41"; KbisCli.denomination := "ACME";
     KbisCli.siren := "123456789"; KbisCli.formeJuridique := "SAS" |}.

Definition globex : KbisCli.Entreprise :=
  {| KbisCli.id := "42"; KbisCli.denomination := "GLOBEX";
     KbisCli.siren := "987654321"; KbisCli.formeJuridique := "SARL" |}.

End SampleCli.

(** * Properties *)

(** ** Strings *)

Lemma append_assoc (a b c : string) : (a ++ b) ++ c = a ++ (b ++ c).
Proof. induction a as [|x a IH]; simpl; [reflexivity | now rewrite IH]. Qed.

Lemma append_nil_r (a : string) : a ++ EmptyString = a.
Proof. induction a as [|x a IH]; simpl; [reflexivity | now rewrite IH]. Qed.

Lemma length_append (a b : string) :
  String.length (a ++ b) = (String.length a + String.length b)%nat.
Proof. induction a as [|x a IH]; simpl; [reflexivity | now rewrite IH]. Qed.

Lemma append_inv_tail (a b c : string) : a ++ c = b ++ c -> a = b.
Proof.
  intros H.
  assert (Hl : String.length a = String.length b).
  { apply (f_equal String.length) in H. rewrite !length_append in H. lia. }
  revert b H Hl. induction a as [|x a IH]; intros [|y b] H Hl; simpl in *; try discriminate.
  - reflexivity.
  - injection H as -> H. f_equal. apply IH; [exact H | lia].
Qed.

Lemma string_of_list_app (l1 l2 : list ascii) :
  string_of_list_ascii (l1 ++ l2) = string_of_list_ascii l1 ++ string_of_list_ascii l2.
Proof. induction l1 as [|x l1 IH]; simpl; [reflexivity | now rewrite IH]. Qed.

(** Induction over a buffer three bytes at a time. *)
Lemma string_triple_ind (P : string -> Prop) :
  P EmptyString ->
  (forall x, P (String x EmptyString)) ->
  (forall x y, P (String x (String y EmptyString))) ->
  (forall x y z r, P r -> P (String x (String y (String z r)))) ->
  forall s, P s.
Proof.
  intros H0 H1 H2 H3 s.
  enough (H : P s /\ (forall x, P (String x s)) /\ (forall x y, P (String x (String y s))))
    by apply H.
  induction s as [|c s (Ha & Hb & Hc)].
  - repeat split; auto.
  - repeat split; auto.
Qed.

(** ** Base64 *)

Module Base64Facts.
Import Base64.

Lemma octet1_sextets x y : octet1 (sextet1 x) (sextet2 x y) = x.
Proof. destruct x, y; reflexivity. Qed.

Lemma octet2_sextets x y z : octet2 (sextet2 x y) (sextet3 y z) = y.
Proof. destruct x, y, z; reflexivity. Qed.

Lemma octet3_sextets y z : octet3 (sextet3 y z) (sextet4 z) = z.
Proof. destruct y, z; reflexivity. Qed.

Lemma of_to_sextets buf : of_sextets (to_sextets buf) = buf.
Proof.
  induction buf as [|x|x y|x y z r IH] using string_triple_ind.
  - reflexivity.
  - simpl. now rewrite octet1_sextets.
  - simpl. now rewrite octet1_sextets, octet2_sextets.
  - cbn [to_sextets of_sextets].
    now rewrite octet1_sextets, octet2_sextets, octet3_sextets, IH.
Qed.

Lemma to_sextets_small buf : Forall (fun v => small v = true) (to_sextets buf).
Proof.
  induction buf as [|x|x y|x y z r IH] using string_triple_ind; cbn [to_sextets].
  - constructor.
  - repeat constructor; destruct x; reflexivity.
  - repeat constructor; destruct x, y; reflexivity.
  - repeat (constructor; [destruct x, y, z; reflexivity|]). exact IH.
Qed.

Ltac sixty_four v :=
  destruct v as [[] [] [] [] [] [] [] []]; try discriminate; vm_compute; repeat split;
  congruence.

(** A character of either alphabet is read back as the sextet it stands
    for, and is neither the padding character nor the percent sign. *)
Lemma digit_read v :
  small v = true ->
  sextet_of_char (digit alphabet v) = Some v
  /\ Ascii.eqb (digit alphabet v) "=" = false
  /\ Ascii.eqb (digit alphabet v) "%" = false.
Proof. intros H. sixty_four v. Qed.

Lemma digit_url_read v :
  small v = true ->
  sextet_of_char (digit alphabet_url v) = Some v
  /\ Ascii.eqb (digit alphabet_url v) "=" = false
  /\ Ascii.eqb (digit alphabet_url v) "%" = false.
Proof. intros H. sixty_four v. Qed.

Lemma read_render alpha l k :
  (forall v, small v = true ->
     sextet_of_char (digit alpha v) = Some v /\ Ascii.eqb (digit alpha v) "=" = false
     /\ Ascii.eqb (digit alpha v) "%" = false) ->
  Forall (fun v => small v = true) l ->
  read_sextets (render alpha l ++ k) = (l ++ read_sextets k)%list.
Proof.
  intros Halpha Hl. induction Hl as [|v l Hv Hl IH]; [reflexivity|].
  destruct (Halpha v Hv) as (Hread & Hpad & _).
  unfold render in *. cbn [map string_of_list_ascii String.append read_sextets].
  rewrite Hpad, Hread, IH. reflexivity.
Qed.

Lemma read_padding n : read_sextets (padding n) = [].
Proof.
  unfold padding. destruct (n mod 4)%nat as [|[|[|[|m]]]]; reflexivity.
Qed.

(** Decoding inverts both encodings. *)
Lemma decode_encode buf : decode (encode buf) = buf.
Proof.
  unfold decode, encode.
  rewrite (read_render alphabet _ _ digit_read (to_sextets_small buf)).
  rewrite read_padding, app_nil_r. apply of_to_sextets.
Qed.

Lemma decode_encode_url buf : decode (encode_url buf) = buf.
Proof.
  unfold decode, encode_url.
  rewrite <- (append_nil_r (render alphabet_url (to_sextets buf))).
  rewrite (read_render alphabet_url _ _ digit_url_read (to_sextets_small buf)).
  cbn [read_sextets]. rewrite app_nil_r. apply of_to_sextets.
Qed.

Lemma encode_url_inj a b : encode_url a = encode_url b -> a = b.
Proof.
  intros H. rewrite <- (decode_encode_url a), <- (decode_encode_url b). now rewrite H.
Qed.

End Base64Facts.

(** ** Well-formed text *)

Module Utf8Facts.
Import Utf8.

Lemma valid_wf s : valid s = true <-> wf s.
Proof.
  unfold valid, wf. destruct (run Start s) as [[|m rg]|]; split; intros H;
    try reflexivity; try discriminate.
Qed.

Lemma run_app st a b :
  run st (a ++ b) = match run st a with Some st' => run st' b | None => None end.
Proof.
  revert st. induction a as [|c a IH]; intros st; simpl; [reflexivity|].
  destruct (step st c); [apply IH | reflexivity].
Qed.

Lemma wf_app a b : wf a -> wf b -> wf (a ++ b).
Proof. unfold wf. intros Ha Hb. now rewrite run_app, Ha. Qed.

Lemma wf_ascii c s : (N_of_ascii c <? 128)%N = true -> wf s -> wf (String c s).
Proof. unfold wf. intros Hc Hs. simpl. now rewrite Hc. Qed.

Lemma wf_nil : wf EmptyString.
Proof. reflexivity. Qed.

(** Escaping a JSON string changes ASCII characters into ASCII characters
    and leaves the other bytes alone. *)
Lemma escape_char_run c st st1 :
  step st c = Some st1 -> run st (JSON.escape_char c) = Some st1.
Proof.
  destruct c as [[] [] [] [] [] [] [] []];
    (destruct st as [|more [] ];
     [ vm_compute; intros H; exact H
     | vm_compute; first [discriminate | destruct more; intros H; exact H] .. ]).
Qed.

Lemma escape_run s : forall st st1, run st s = Some st1 -> run st (JSON.escape s) = Some st1.
Proof.
  induction s as [|c s IH]; intros st st1 H; simpl in *; [exact H|].
  rewrite run_app. destruct (step st c) as [st2|] eqn:E; [|discriminate].
  rewrite (escape_char_run _ _ _ E). now apply IH.
Qed.

Lemma wf_escape s : wf s -> wf (JSON.escape s).
Proof. apply escape_run. Qed.

Lemma wf_quote s : wf s -> wf (JSON.quote s).
Proof.
  intros H. unfold JSON.quote. apply wf_ascii; [reflexivity|].
  apply wf_app; [now apply wf_escape | reflexivity].
Qed.

End Utf8Facts.

(** ** Percent-decoding *)

Module UriFacts.
Import Uri.

Lemma plain_app a b : plain (a ++ b) = plain a && plain b.
Proof. induction a as [|c a IH]; simpl; [reflexivity | now rewrite IH, andb_assoc]. Qed.

(** A string without a percent sign is decoded to itself. *)
Lemma decode_plain s : plain s = true -> Uri.decodeURIComponent s = Some s.
Proof.
  unfold Uri.decodeURIComponent.
  induction s as [|c s IH]; intros H; simpl in *; [reflexivity|].
  apply andb_prop in H as [Hc Hs]. apply negb_true_iff in Hc. rewrite Hc.
  now rewrite (IH Hs).
Qed.

Lemma plain_render alpha l :
  (forall v, Base64.small v = true ->
     Base64.sextet_of_char (Base64.digit alpha v) = Some v
     /\ Ascii.eqb (Base64.digit alpha v) "=" = false
     /\ Ascii.eqb (Base64.digit alpha v) "%" = false) ->
  Forall (fun v => Base64.small v = true) l ->
  plain (Base64.render alpha l) = true.
Proof.
  intros Halpha Hl. induction Hl as [|v l Hv Hl IH]; [reflexivity|].
  destruct (Halpha v Hv) as (_ & _ & Hp).
  unfold Base64.render in *. simpl. now rewrite Hp, IH.
Qed.

Lemma plain_encode buf : plain (Base64.encode buf) = true.
Proof.
  unfold Base64.encode. rewrite plain_app.
  rewrite (plain_render _ _ Base64Facts.digit_read (Base64Facts.to_sextets_small buf)).
  unfold Base64.padding.
  destruct (List.length (Base64.to_sextets buf) mod 4)%nat as [|[|[|[|m]]]]; reflexivity.
Qed.

Lemma decode_base64 buf :
  Uri.decodeURIComponent (Base64.encode buf) = Some (Base64.encode buf).
Proof. apply decode_plain, plain_encode. Qed.

End UriFacts.

(** ** Integers beyond [2^53]

    Binary64 rounds an integer beyond [2^53] to a number that is [2^53] at
    least.  A time value is below that, so comparing it with the integer
    or with the rounded number gives the same. *)

Lemma odd_part_value (p : positive) (e : Z) :
  (0 <= e)%Z ->
  (0 <= snd (Binary64.odd_part p e)
   /\ Zpos (fst (Binary64.odd_part p e)) * 2 ^ snd (Binary64.odd_part p e) = Zpos p * 2 ^ e)%Z.
Proof.
  revert e. induction p as [p IH|p IH|]; intros e He; cbn [Binary64.odd_part fst snd];
    try (split; [lia|reflexivity]).
  destruct (IH (e + 1)%Z ltac:(lia)) as (H0 & H). split; [exact H0|].
  rewrite H. rewrite Z.pow_add_r by lia. change (2 ^ 1)%Z with 2%Z. lia.
Qed.

Lemma make_beyond (negative : bool) (M t : Z) :
  (0 <= t)%Z -> (2 ^ 53 <= M * 2 ^ t)%Z ->
  Binary64.beyond negative (Binary64.make (if negative then - M else M) t).
Proof.
  intros Ht HM.
  assert (0 < M)%Z by (assert (0 < 2 ^ t)%Z by (apply Z.pow_pos_nonneg; lia); nia).
  destruct M as [|P|P]; try lia.
  pose proof (odd_part_value P t Ht) as (He & Hv).
  destruct negative; [change (- Z.pos P)%Z with (Z.neg P)|]; unfold Binary64.make;
    destruct (Binary64.odd_part P t) as [P' t']; cbn [fst snd] in *;
    destruct ((0 <=? t')%Z && Binary64.safe (Z.pos P' * 2 ^ t')); cbn [Binary64.beyond].
  - lia.
  - split; [exact He|]. change (Z.neg P') with (- Z.pos P')%Z. lia.
  - lia.
  - split; [exact He|]. lia.
Qed.

Lemma nearest_beyond (p : Z) :
  (2 ^ 53 < p)%Z ->
  (1 <= snd (Binary64.nearest p 1) /\
   2 ^ 53 <= fst (Binary64.nearest p 1) * 2 ^ snd (Binary64.nearest p 1))%Z.
Proof.
  intros Hp. unfold Binary64.nearest.
  change (Z.log2 1) with 0%Z.
  assert (Hlog : (53 <= Z.log2 p)%Z) by (apply Z.log2_le_pow2; lia).
  set (t0 := (Z.log2 p - 0 - 52)%Z).
  assert (Ht0 : (1 <= t0)%Z) by (subst t0; lia).
  assert (Hq : (2 ^ 52 <= p / (1 * 2 ^ t0))%Z).
  { apply Z.div_le_lower_bound; [apply Z.mul_pos_pos; [lia|apply Z.pow_pos_nonneg; lia]|].
    replace (1 * 2 ^ t0 * 2 ^ 52)%Z with (2 ^ Z.log2 p)%Z.
    - apply Z.log2_spec. lia.
    - rewrite Z.mul_1_l, <- Z.pow_add_r by lia. f_equal. subst t0. lia. }
  destruct (0 <=? t0)%Z eqn:E0; [|lia].
  destruct (p / (1 * 2 ^ t0) <? 2 ^ 52)%Z eqn:E1; [lia|].
  rewrite Z.max_l by lia. rewrite E0.
  assert (H2 : (2 <= 2 ^ t0)%Z).
  { change 2%Z with (2 ^ 1)%Z at 1. apply Z.pow_le_mono_r; lia. }
  destruct (2 * (p mod (1 * 2 ^ t0)) ?= 1 * 2 ^ t0)%Z; [destruct (Z.even _)| |];
    cbn [fst snd]; split; try lia; nia.
Qed.

Lemma round_beyond (negative : bool) (p : Z) :
  (2 ^ 53 < p)%Z -> Binary64.beyond negative (Binary64.round negative p 1).
Proof.
  intros Hp. unfold Binary64.round.
  destruct (p =? 0)%Z eqn:E; [lia|].
  pose proof (nearest_beyond p Hp) as (Ht & HM).
  destruct (Binary64.nearest p 1) as [M t]. cbn [fst snd] in *.
  destruct ((2 ^ 1024 <=? M * 2 ^ Z.max t 0)%Z && (0 <=? t)%Z); [reflexivity|].
  apply make_beyond; lia.
Qed.

Lemma below_beyond (negative : bool) (x : Number) (n : Z) :
  Binary64.beyond negative x -> (Z.abs n < 2 ^ 53)%Z -> Binary64.below x n = negative.
Proof.
  intros Hx Hn. destruct x as [v|m e|s|]; cbn [Binary64.beyond Binary64.below] in *.
  - destruct negative; lia.
  - destruct Hx as (He & Hx). destruct (0 <=? e)%Z eqn:E; [|lia].
    destruct negative; lia.
  - exact Hx.
  - contradiction.
Qed.

(** An integer literal and the binary64 number nearest to it compare alike
    with a time value. *)
Lemma below_of_Z (z now : Z) :
  (Z.abs now <= 8640000000000000)%Z ->
  Binary64.below (Binary64.of_Z z) now = Binary64.below (Int z) now.
Proof.
  intros Hnow. unfold Binary64.of_Z.
  destruct (Binary64.safe z) eqn:E; [reflexivity|].
  unfold Binary64.safe in E. apply Z.leb_gt in E.
  unfold Binary64.of_dyadic. cbn [Z.leb Z.compare]. rewrite Z.pow_0_r, Z.mul_1_r.
  rewrite (below_beyond (z <? 0)%Z); [|apply round_beyond; lia|lia].
  cbn [Binary64.below]. lia.
Qed.

(** ** JSON *)

Module JSONFacts.
Import JSON.

Lemma string_body_escape_char c k :
  string_body (escape_char c ++ k) = prepend (String c EmptyString) (string_body k).
Proof. destruct c as [[] [] [] [] [] [] [] []]; reflexivity. Qed.

(** A quoted string is read back. *)
Lemma string_body_escape s k :
  string_body (escape s ++ String Str.dq k) = Some (s, k).
Proof.
  induction s as [|c s IH]; [reflexivity|].
  cbn [escape]. rewrite append_assoc, string_body_escape_char, IH. reflexivity.
Qed.

Lemma quote_app s k : quote s ++ k = String Str.dq (escape s ++ String Str.dq k).
Proof. unfold quote. simpl. now rewrite append_assoc. Qed.

Lemma value_quote fuel s k : value (S fuel) (quote s ++ k) = Some (JStr s, k).
Proof. rewrite quote_app. simpl. now rewrite string_body_escape. Qed.

(** *** Numbers *)

Lemma uint_digit_head d :
  d <> Nil ->
  exists c r, NilEmpty.string_of_uint d = String c r /\ is_digit c = true.
Proof. destruct d; intros H; try congruence; eexists _, _; split; reflexivity. Qed.

Lemma span_digits d k :
  fst (Str.span is_digit k) = EmptyString ->
  Str.span is_digit (NilEmpty.string_of_uint d ++ k) = (NilEmpty.string_of_uint d, k).
Proof.
  intros Hk. induction d; simpl; try (rewrite IHd; reflexivity).
  destruct k as [|c k]; [reflexivity|]. simpl in *.
  destruct (is_digit c); [|reflexivity].
  destruct (Str.span is_digit k); discriminate.
Qed.

Lemma to_uint_normal n : unorm (N.to_uint n) = N.to_uint n.
Proof.
  rewrite <- (DecimalN.Unsigned.of_to n) at 2. now rewrite DecimalN.Unsigned.to_of.
Qed.

Lemma uint_beq_refl d : uint_beq d d = true.
Proof. induction d; simpl; auto. Qed.

Lemma sign_none s c r :
  s = String c r -> Ascii.eqb c "-" = false ->
  match s with
  | String c r => if Ascii.eqb c "-" then (true, r) else (false, s)
  | EmptyString => (false, s)
  end = (false, s).
Proof. intros -> H. now rewrite H. Qed.

(** What closes a number is neither a fraction nor an exponent. *)
Lemma closes_number k :
  closes k -> fraction k = Some (EmptyString, k) /\ exponent k = Some (None, k).
Proof.
  destruct k as [|c k]; [now split|].
  intros [-> | [-> | ->]]; now split.
Qed.

Lemma number_lit_digits n k :
  closes k ->
  number_lit (digits n ++ k) = Some (JNum (Int (Z.of_N n)), k)
  /\ number_lit (String "-" (digits n ++ k)) = Some (JNum (Int (- Z.of_N n)), k).
Proof.
  intros Hk. unfold digits.
  assert (Hspan : Str.span is_digit (NilEmpty.string_of_uint (N.to_uint n) ++ k)
                  = (NilEmpty.string_of_uint (N.to_uint n), k)).
  { apply span_digits. destruct k as [|c k]; [reflexivity|].
    destruct Hk as [-> | [-> | ->]]; reflexivity. }
  assert (Hnil : N.to_uint n <> Nil).
  { rewrite <- to_uint_normal. apply unorm_nonnil. }
  destruct (uint_digit_head _ Hnil) as (c & r & Hd & Hc).
  assert (Hminus : Ascii.eqb c "-" = false).
  { destruct (Ascii.eqb_spec c "-") as [->|]; [discriminate | reflexivity]. }
  destruct (closes_number k Hk) as [Hfraction Hexponent].
  split.
  - unfold number_lit.
    rewrite (sign_none _ c (r ++ k)); [| now rewrite Hd | exact Hminus].
    rewrite Hspan, NilEmpty.usu, to_uint_normal, uint_beq_refl, DecimalN.Unsigned.of_to.
    now rewrite Hfraction, Hexponent.
  - unfold number_lit. cbn [Ascii.eqb Bool.eqb]. rewrite Hspan.
    rewrite NilEmpty.usu, to_uint_normal, uint_beq_refl, DecimalN.Unsigned.of_to.
    now rewrite Hfraction, Hexponent.
Qed.

Lemma number_head z :
  exists c r, number z = String c r /\ (is_digit c = true \/ c = "-"%char).
Proof.
  unfold number. destruct (z <? 0)%Z.
  - eexists _, _. split; [reflexivity | now right].
  - unfold digits.
    assert (Hnil : N.to_uint (Z.to_N z) <> Nil).
    { rewrite <- to_uint_normal. apply unorm_nonnil. }
    destruct (uint_digit_head _ Hnil) as (c & r & Hd & Hc).
    exists c, r. split; [exact Hd | now left].
Qed.

Lemma number_lit_number z k :
  closes k -> number_lit (number z ++ k) = Some (JNum (Int z), k).
Proof.
  intros Hk. unfold number. destruct (z <? 0)%Z eqn:E.
  - destruct (number_lit_digits (Z.abs_N z) k Hk) as [_ H].
    cbn [String.append]. rewrite H. do 4 f_equal.
    apply Z.ltb_lt in E. rewrite N2Z.inj_abs_N. lia.
  - destruct (number_lit_digits (Z.to_N z) k Hk) as [H _].
    rewrite H. do 4 f_equal. apply Z.ltb_ge in E. now rewrite Z2N.id.
Qed.

Lemma value_number fuel z k :
  closes k -> value (S fuel) (number z ++ k) = Some (JNum (Int z), k).
Proof.
  intros Hk. pose proof (number_lit_number z k Hk) as H.
  destruct (number_head z) as (c & r & Hz & Hc). rewrite Hz in *.
  cbn [String.append] in *. unfold value.
  assert (Hws : skip_ws (String c (r ++ k)) = String c (r ++ k)).
  { unfold skip_ws. simpl.
    destruct Hc as [Hc | ->]; [|reflexivity].
    destruct c as [[] [] [] [] [] [] [] []]; try discriminate; reflexivity. }
  rewrite Hws.
  assert (Hkw : forall p, (p = "n" \/ p = "t" \/ p = "f" \/ p = Str.dq \/ p = "{" \/ p = "[")%char ->
                            Ascii.eqb p c = false /\ Ascii.eqb c p = false).
  { intros p Hp.
    destruct Hc as [Hc | ->].
    - destruct c as [[] [] [] [] [] [] [] []]; try discriminate;
        destruct Hp as [-> | [-> | [-> | [-> | [-> | ->]]]]]; split; reflexivity.
    - destruct Hp as [-> | [-> | [-> | [-> | [-> | ->]]]]]; split; reflexivity. }
  destruct (Hkw Str.dq) as [_ ->]; [tauto|].
  destruct (Hkw "{"%char) as [_ ->]; [tauto|].
  destruct (Hkw "["%char) as [_ ->]; [tauto|].
  unfold keyword. cbn [Str.after].
  destruct (Hkw "n"%char) as [-> _]; [tauto|].
  destruct (Hkw "t"%char) as [-> _]; [tauto|].
  destruct (Hkw "f"%char) as [-> _]; [tauto|].
  exact H.
Qed.

End JSONFacts.

(** *** Objects of a known shape are read back *)

Module JSONShapes.
Import JSON JSONFacts.
Import Urssaf.

#[local] Arguments value : simpl never.
#[local] Arguments members : simpl never.
#[local] Arguments elements : simpl never.

Lemma value_eq f s :
  value (S f) s =
  match skip_ws s with
  | EmptyString => None
  | String c r =>
      if Ascii.eqb c Str.dq then
        match string_body r with
        | Some (t, k) => Some (JStr t, k)
        | None => None
        end
      else if Ascii.eqb c "{" then
        match skip_ws r with
        | String c' k =>
            if Ascii.eqb c' "}" then Some (JObj [], k)
            else match members f r with
                 | Some (fs, k') => Some (JObj fs, k')
                 | None => None
                 end
        | EmptyString => None
        end
      else if Ascii.eqb c "[" then
        match skip_ws r with
        | String c' k =>
            if Ascii.eqb c' "]" then Some (JArr [], k)
            else match elements f r with
                 | Some (vs, k') => Some (JArr vs, k')
                 | None => None
                 end
        | EmptyString => None
        end
      else keyword (String c r)
  end.
Proof. reflexivity. Qed.

Lemma members_eq f s :
  members (S f) s =
  match skip_ws s with
  | EmptyString => None
  | String c r =>
      if Ascii.eqb c Str.dq then
        match string_body r with
        | None => None
        | Some (key, k1) =>
            match skip_ws k1 with
            | EmptyString => None
            | String c2 k2 =>
                if Ascii.eqb c2 ":" then
                  match value f k2 with
                  | None => None
                  | Some (v, k3) =>
                      match skip_ws k3 with
                      | EmptyString => None
                      | String c4 k4 =>
                          if Ascii.eqb c4 "," then
                            match members f k4 with
                            | Some (rest, k5) => Some ((key, v) :: rest, k5)
                            | None => None
                            end
                          else if Ascii.eqb c4 "}" then Some ([(key, v)], k4)
                          else None
                      end
                  end
                else None
            end
        end
      else None
  end.
Proof. reflexivity. Qed.

Lemma value_object f key rest fs k :
  members f (quote key ++ rest) = Some (fs, k) ->
  value (S f) ("{" ++ quote key ++ rest) = Some (JObj fs, k).
Proof.
  intros H. rewrite value_eq. rewrite quote_app in *. simpl. now rewrite H.
Qed.

Lemma members_cons f key rest v k4 fs k5 :
  value f rest = Some (v, "," ++ k4) ->
  members f k4 = Some (fs, k5) ->
  members (S f) (quote key ++ ":" ++ rest) = Some ((key, v) :: fs, k5).
Proof.
  intros Hv Hm. rewrite members_eq, quote_app. simpl.
  rewrite string_body_escape. simpl. rewrite Hv. simpl. now rewrite Hm.
Qed.

Lemma members_last f key rest v k4 :
  value f rest = Some (v, "}" ++ k4) ->
  members (S f) (quote key ++ ":" ++ rest) = Some ([(key, v)], k4).
Proof.
  intros Hv. rewrite members_eq, quote_app. simpl.
  rewrite string_body_escape. simpl. now rewrite Hv.
Qed.

Lemma stringify_fields2 k1 v1 k2 v2 :
  stringify (JObj [(k1, v1); (k2, v2)])
  = "{" ++ quote k1 ++ ":" ++ stringify v1 ++ "," ++ quote k2 ++ ":" ++ stringify v2 ++ "}".
Proof. cbn [stringify map fst snd]. unfold Str.join. cbn [String.concat]. now rewrite !append_assoc. Qed.

Lemma stringify_fields1 k1 v1 :
  stringify (JObj [(k1, v1)]) = "{" ++ quote k1 ++ ":" ++ stringify v1 ++ "}".
Proof. cbn [stringify map fst snd]. unfold Str.join. cbn [String.concat]. now rewrite !append_assoc. Qed.

Lemma stringify_fields3 k1 v1 k2 v2 k3 v3 :
  stringify (JObj [(k1, v1); (k2, v2); (k3, v3)])
  = "{" ++ quote k1 ++ ":" ++ stringify v1 ++ "," ++ quote k2 ++ ":" ++ stringify v2 ++ ","
        ++ quote k3 ++ ":" ++ stringify v3 ++ "}".
Proof. cbn [stringify map fst snd]. unfold Str.join. cbn [String.concat]. now rewrite !append_assoc. Qed.

Lemma parse_of_value n s v :
  (forall f, value (n + f) s = Some (v, EmptyString)) ->
  (n <= S (String.length s))%nat ->
  parse s = Some v.
Proof.
  intros H Hn. unfold parse.
  replace (S (String.length s)) with (n + (S (String.length s) - n))%nat by lia.
  now rewrite H.
Qed.

Lemma parse_session token expiresAt :
  parse (stringify (SessionData token expiresAt)) = Some (SessionData token expiresAt).
Proof.
  apply (parse_of_value 4).
  - intros f. unfold SessionData, session_data. rewrite stringify_fields2.
    cbn [stringify number_text].
    apply value_object. eapply members_cons; [apply value_quote|].
    apply members_last. apply (value_number _ _ "}"). simpl. auto.
  - unfold SessionData, session_data. rewrite stringify_fields2, !length_append. simpl. lia.
Qed.

Lemma value_account f X Y Z k :
  value (S (S (S (S (S f))))) (stringify (account X Y Z) ++ k) = Some (account X Y Z, k).
Proof.
  unfold account. rewrite stringify_fields3. cbn [stringify]. rewrite !append_assoc.
  apply value_object. eapply members_cons; [apply value_quote|].
  eapply members_cons; [apply value_quote|].
  apply members_last. apply value_quote.
Qed.

Lemma parse_context X Y Z :
  parse (stringify (context X Y Z)) = Some (context X Y Z).
Proof.
  apply (parse_of_value 7).
  - intros f. unfold context. rewrite stringify_fields1.
    apply value_object, members_last. apply value_account.
  - unfold context. rewrite stringify_fields1. unfold account. rewrite stringify_fields3.
    rewrite !length_append. simpl. lia.
Qed.

Import Utf8 Utf8Facts.

Lemma wf_context X Y Z :
  wf X -> wf Y -> wf Z -> wf (stringify (context X Y Z)).
Proof.
  intros HX HY HZ. unfold context, account.
  rewrite stringify_fields1, stringify_fields3. cbn [stringify].
  repeat first [ apply wf_quote | apply wf_escape | assumption | reflexivity | apply wf_app ].
Qed.

End JSONShapes.

(** *** Numbers and texts that the programs do not write but may read *)

Example parse_numbers :
  JSON.parse "[0.1, -2E-2, 1.5e3, 1e400]"
  = Some (JArr [JNum (Dyadic 3602879701896397 (-55)); JNum (Dyadic (-5764607523034235) (-58));
                JNum (Int 1500); JNum (Infinite false)]).
Proof. vm_compute. reflexivity. Qed.

Example stringify_numbers :
  JSON.stringify (JArr [JNum (Dyadic 3602879701896397 (-55)); JNum (Dyadic 476837158203125 21);
                        JNum (Dyadic 7152557373249531 23); JNum (Dyadic 1 (-1074));
                        JNum (Infinite false); JNum NaN])
  = "[0.1,1e+21,6.00000000017e+22,5e-324,null,null]".
Proof. vm_compute. reflexivity. Qed.

(** An escape that writes half of a surrogate pair is read as the three
    bytes of that code unit. *)
Example parse_lone_surrogate :
  JSON.parse (String Str.dq ("\ud800" ++ String Str.dq EmptyString))
  = Some (JStr (String "237" (String "160" (String "128" EmptyString)))).
Proof. vm_compute. reflexivity. Qed.

(** An entry whose [expiresAt] has a fraction is read: half a millisecond
    before it the token is returned, half a millisecond after it the entry
    is evicted. *)
Example getSessionToken_reads_fraction :
  let stored := "{" ++ JSON.quote "token" ++ ":" ++ JSON.quote "abc" ++ ","
                ++ JSON.quote "expiresAt" ++ ":1700000000000.5}" in
  let st := Sample.start {[ (KEYCHAIN_SERVICE, "kbis-session") := stored ]} in
  fst (getSessionToken (rt := Sample.runtime) kbis (Sample.at_time 1700000000000) st)
  = Returned (Some (JStr "abc"))
  /\ fst (getSessionToken (rt := Sample.runtime) kbis (Sample.at_time 1700000000001) st)
     = Returned (Some JNull).
Proof. split; vm_compute; reflexivity. Qed.

(** ** The keychain *)

Lemma credential_key_not_session (s s' : ServiceName) :
  (KEYCHAIN_SERVICE, service_name s) <> (KEYCHAIN_SERVICE, sessionKey s').
Proof. destruct s, s'; discriminate. Qed.

Lemma session_key_not_credential (s s' : ServiceName) :
  (KEYCHAIN_SERVICE, sessionKey s) <> (KEYCHAIN_SERVICE, service_name s').
Proof. destruct s, s'; discriminate. Qed.

Lemma falsy_stringify_session t e : falsy (Some (JSON.stringify (SessionData t e))) = false.
Proof. unfold SessionData, session_data. now rewrite JSONShapes.stringify_fields2. Qed.

Lemma setSessionToken_run (s : ServiceName) (t : string) (ttl : Number) (w : World)
    (st : State) :
  setSessionToken s t ttl w st
  = (Returned tt,
     {| secrets := <[(KEYCHAIN_SERVICE, sessionKey s) :=
                       JSON.stringify (session_data t (expiry (clock w (now_index st)) ttl))]>
                     (secrets st);
        log := SecretsSet KEYCHAIN_SERVICE (sessionKey s)
                 (JSON.stringify (session_data t (expiry (clock w (now_index st)) ttl)))
               :: DateNow :: log st |}).
Proof. reflexivity. Qed.

(** A whole number of minutes of at most 4 691 249 611 in absolute value
    makes at most [2^48] milliseconds: the products and the sum are exact. *)
Lemma expiry_exact (now ttl : Z) :
  (Z.abs ttl <= 4691249611)%Z ->
  expiry now (Int ttl) = Int (now + ttl * 60 * 1000).
Proof.
  intros H. unfold expiry. cbn [Binary64.times].
  assert (H53 : (2 ^ 53 = 9007199254740992)%Z) by reflexivity.
  assert (H48 : (2 ^ 48 = 281474976710656)%Z) by reflexivity.
  assert (H1 : Binary64.of_Z (ttl * 60) = Int (ttl * 60)).
  { unfold Binary64.of_Z, Binary64.safe. rewrite H53.
    destruct (Z.leb_spec (Z.abs (ttl * 60)) 9007199254740992); [reflexivity | lia]. }
  rewrite H1. cbn [Binary64.times].
  assert (H2 : Binary64.of_Z (ttl * 60 * 1000) = Int (ttl * 60 * 1000)).
  { unfold Binary64.of_Z, Binary64.safe. rewrite H53.
    destruct (Z.leb_spec (Z.abs (ttl * 60 * 1000)) 9007199254740992); [reflexivity | lia]. }
  rewrite H2. unfold since. rewrite H48.
  destruct (Z.leb_spec (Z.abs (ttl * 60 * 1000)) 281474976710656); [reflexivity | lia].
Qed.

(** What [getSessionToken] does when the keychain holds the session data
    [{token, expiresAt}]. *)
Lemma getSessionToken_stored {rt : Runtime} (s : ServiceName) (t : string) (e : Z)
    (w : World) (st : State) :
  secrets st !! (KEYCHAIN_SERVICE, sessionKey s) = Some (JSON.stringify (SessionData t e)) ->
  getSessionToken s w st
  = if (e <? clock w (S (now_index st)))%Z
    then (Returned (Some JNull),
          {| secrets := delete (KEYCHAIN_SERVICE, sessionKey s) (secrets st);
             log := SecretsDelete KEYCHAIN_SERVICE (sessionKey s) :: DateNow
                    :: SecretsGet KEYCHAIN_SERVICE (sessionKey s) :: log st |})
    else (Returned (Some (JStr t)),
          {| secrets := secrets st;
             log := DateNow :: SecretsGet KEYCHAIN_SERVICE (sessionKey s) :: log st |}).
Proof.
  intros H. unfold getSessionToken, bind, secrets_get. rewrite H, falsy_stringify_session.
  unfold JSON_parse, lift. cbn [unwrap]. rewrite JSONShapes.parse_session.
  unfold now_index. cbn -[JSON.stringify Z.ltb].
  destruct (e <? clock w (S (length (log st))))%Z; reflexivity.
Qed.

Lemma getSessionToken_absent {rt : Runtime} (s : ServiceName) (w : World) (st : State) :
  secrets st !! (KEYCHAIN_SERVICE, sessionKey s) = None ->
  getSessionToken s w st
  = (Returned (Some JNull), record (SecretsGet KEYCHAIN_SERVICE (sessionKey s)) st).
Proof. intros H. unfold getSessionToken, bind, secrets_get. now rewrite H. Qed.

(** C10.  Credentials and session tokens live under different keys of the
    keychain.  For all service names [s] and [s']: the session key of [s]
    is its name followed by [-session]; the credential key
    [(cli-administratif, s)] differs from the session key
    [(cli-administratif, s'-session)]; [setCredentials] and
    [setSessionToken] write under these keys, the latter with
    [expiresAt = now + ttl * 60 * 1000] for a whole number [ttl] of minutes
    of at most 4 691 249 611 in absolute value; [setCredentials] and
    [deleteCredentials] leave every session entry as it was, and
    [setSessionToken] and [deleteSessionToken] leave every credential entry
    as it was. *)
Theorem credential_and_session_keys_disjoint (s s' : ServiceName) (w : World) (st : State)
    (login password token : string) (ttl : Number) :
  sessionKey s = service_name s ++ "-session"
  /\ (KEYCHAIN_SERVICE, service_name s) <> (KEYCHAIN_SERVICE, sessionKey s')
  /\ secrets (snd (setCredentials s login password w st)) !! (KEYCHAIN_SERVICE, service_name s)
     = Some (JSON.stringify (Credentials login password))
  /\ secrets (snd (setSessionToken s token ttl w st)) !! (KEYCHAIN_SERVICE, sessionKey s)
     = Some (JSON.stringify (session_data token (expiry (clock w (now_index st)) ttl)))
  /\ (forall minutes : Z,
        (Z.abs minutes <= 4691249611)%Z ->
        secrets (snd (setSessionToken s token (Int minutes) w st))
          !! (KEYCHAIN_SERVICE, sessionKey s)
        = Some (JSON.stringify
                  (SessionData token (clock w (now_index st) + minutes * 60 * 1000))))
  /\ secrets (snd (setCredentials s login password w st)) !! (KEYCHAIN_SERVICE, sessionKey s')
     = secrets st !! (KEYCHAIN_SERVICE, sessionKey s')
  /\ secrets (snd (deleteCredentials s w st)) !! (KEYCHAIN_SERVICE, sessionKey s')
     = secrets st !! (KEYCHAIN_SERVICE, sessionKey s')
  /\ secrets (snd (setSessionToken s token ttl w st)) !! (KEYCHAIN_SERVICE, service_name s')
     = secrets st !! (KEYCHAIN_SERVICE, service_name s')
  /\ secrets (snd (deleteSessionToken s w st)) !! (KEYCHAIN_SERVICE, service_name s')
     = secrets st !! (KEYCHAIN_SERVICE, service_name s').
Proof.
  rewrite setSessionToken_run.
  unfold setCredentials, deleteCredentials, deleteSessionToken, secrets_set, secrets_delete.
  cbn [snd secrets].
  repeat split.
  - apply credential_key_not_session.
  - apply lookup_insert_eq.
  - apply lookup_insert_eq.
  - intros minutes Hminutes. rewrite setSessionToken_run. cbn [snd secrets].
    rewrite (expiry_exact _ _ Hminutes). apply lookup_insert_eq.
  - apply lookup_insert_ne, credential_key_not_session.
  - apply lookup_delete_ne, credential_key_not_session.
  - apply lookup_insert_ne, session_key_not_credential.
  - apply lookup_delete_ne, session_key_not_credential.
Qed.

(** Thirty minutes at the clock reading 1000. *)
Lemma credential_and_session_keys_disjoint_witness :
  secrets (snd (setSessionToken kbis "abc" (Int 30) (Sample.at_time 1000) (Sample.start ∅)))
    !! (KEYCHAIN_SERVICE, sessionKey kbis)
  = Some (JSON.stringify (SessionData "abc" 1801000)).
Proof.
  destruct (credential_and_session_keys_disjoint kbis kbis (Sample.at_time 1000)
              (Sample.start ∅) EmptyString EmptyString "abc" (Int 30))
    as (_ & _ & _ & _ & H & _).
  apply (H 30%Z). cbn. lia.
Defined.

(** C3, as the code has it.  For a whole number [ttl] of minutes of at
    most 4 691 249 611 in absolute value, for which binary64 computes
    [now + ttl * 60 * 1000] exactly: [setSessionToken s t ttl], run when the
    clock reads [now], returns and stores the token with
    [expiresAt = now + ttl * 60000].  A [getSessionToken s] that follows and
    reads the clock at [now1] returns [t] and leaves the keychain as it is
    when [now1 <= expiresAt], hence when the clock has not moved and [ttl]
    is not negative.  When [now1 > expiresAt], hence when the clock has not
    moved and [ttl] is negative, it returns [null] and deletes the entry, so
    that a later [getSessionToken s] finds no entry, returns [null] and
    changes nothing. *)
Theorem session_cache_semantics {rt : Runtime} (s : ServiceName) (t : string) (ttl : Z)
    (w w1 w2 : World) (st : State) :
  (Z.abs ttl <= 4691249611)%Z ->
  let key := (KEYCHAIN_SERVICE, sessionKey s) in
  let now := clock w (now_index st) in
  let expiresAt := (now + ttl * 60000)%Z in
  let st1 := snd (setSessionToken s t (Int ttl) w st) in
  let now1 := clock w1 (S (now_index st1)) in
  let r1 := fst (getSessionToken s w1 st1) in
  let st2 := snd (getSessionToken s w1 st1) in
  fst (setSessionToken s t (Int ttl) w st) = Returned tt
  /\ secrets st1 = <[key := JSON.stringify (SessionData t expiresAt)]> (secrets st)
  /\ ((now1 <= expiresAt)%Z -> r1 = Returned (Some (JStr t)) /\ secrets st2 = secrets st1)
  /\ ((0 <= ttl)%Z -> now1 = now -> r1 = Returned (Some (JStr t)))
  /\ ((now1 > expiresAt)%Z ->
      r1 = Returned (Some JNull)
      /\ secrets st2 = delete key (secrets st1)
      /\ secrets st2 !! key = None
      /\ fst (getSessionToken s w2 st2) = Returned (Some JNull)
      /\ secrets (snd (getSessionToken s w2 st2)) = secrets st2)
  /\ ((ttl < 0)%Z -> now1 = now ->
      r1 = Returned (Some JNull) /\ secrets st2 = delete key (secrets st1)).
Proof.
  intros Hrange key now expiresAt st1 now1 r1 st2.
  assert (Hexp : expiry now (Int ttl) = Int expiresAt).
  { rewrite (expiry_exact now ttl Hrange). unfold expiresAt. f_equal. lia. }
  assert (Hst1 : secrets st1 !! key = Some (JSON.stringify (SessionData t expiresAt))).
  { unfold st1. rewrite setSessionToken_run. cbn [snd secrets]. fold now. rewrite Hexp.
    apply lookup_insert_eq. }
  pose proof (getSessionToken_stored s t expiresAt w1 st1 Hst1) as Hget.
  fold now1 in Hget.
  assert (Hfresh : (now1 <= expiresAt)%Z ->
                   r1 = Returned (Some (JStr t)) /\ secrets st2 = secrets st1).
  { intros Hle. unfold r1, st2. rewrite Hget.
    destruct (expiresAt <? now1)%Z eqn:E; [apply Z.ltb_lt in E; lia|]. now split. }
  assert (Hstale : (now1 > expiresAt)%Z ->
      r1 = Returned (Some JNull)
      /\ secrets st2 = delete key (secrets st1)
      /\ secrets st2 !! key = None
      /\ fst (getSessionToken s w2 st2) = Returned (Some JNull)
      /\ secrets (snd (getSessionToken s w2 st2)) = secrets st2).
  { intros Hgt. unfold r1, st2 in *. rewrite Hget.
    destruct (expiresAt <? now1)%Z eqn:E; [|apply Z.ltb_ge in E; lia].
    cbn [fst snd secrets].
    assert (Hgone : delete key (secrets st1) !! key = None) by apply lookup_delete_eq.
    repeat split; try assumption.
    - rewrite getSessionToken_absent; [reflexivity | exact Hgone].
    - rewrite getSessionToken_absent; [reflexivity | exact Hgone]. }
  split; [reflexivity|]. split.
  { unfold st1. rewrite setSessionToken_run. cbn [snd secrets]. fold now. now rewrite Hexp. }
  split; [exact Hfresh|]. split.
  { intros Httl Hsame. apply Hfresh. unfold expiresAt. lia. }
  split; [exact Hstale|].
  intros Httl Hsame. destruct Hstale as (H1 & H2 & _); [unfold expiresAt; lia|]. now split.
Qed.

(** A token stored for 30 minutes is returned one minute later and is gone
    one millisecond after the 30 minutes; a token stored for -1 minute is
    gone at once. *)
Lemma session_cache_semantics_witness :
  fst (getSessionToken (rt := Sample.runtime) kbis (Sample.at_time 60000)
         (snd (setSessionToken kbis "abc" (Int 30) (Sample.at_time 0) (Sample.start ∅))))
  = Returned (Some (JStr "abc"))
  /\ fst (getSessionToken (rt := Sample.runtime) kbis (Sample.at_time 1800001)
            (snd (setSessionToken kbis "abc" (Int 30) (Sample.at_time 0) (Sample.start ∅))))
     = Returned (Some JNull)
  /\ fst (getSessionToken (rt := Sample.runtime) kbis (Sample.at_time 0)
            (snd (setSessionToken kbis "abc" (Int (-1)) (Sample.at_time 0) (Sample.start ∅))))
     = Returned (Some JNull).
Proof.
  split; [|split].
  - destruct (session_cache_semantics (rt := Sample.runtime) kbis "abc" 30
                (Sample.at_time 0) (Sample.at_time 60000) (Sample.at_time 0) (Sample.start ∅))
      as (_ & _ & H & _); [cbn; lia|].
    apply H. cbn. lia.
  - destruct (session_cache_semantics (rt := Sample.runtime) kbis "abc" 30
                (Sample.at_time 0) (Sample.at_time 1800001) (Sample.at_time 0) (Sample.start ∅))
      as (_ & _ & _ & _ & H & _); [cbn; lia|].
    apply H. cbn. lia.
  - destruct (session_cache_semantics (rt := Sample.runtime) kbis "abc" (-1)
                (Sample.at_time 0) (Sample.at_time 0) (Sample.at_time 0) (Sample.start ∅))
      as (_ & _ & _ & _ & _ & H); [cbn; lia|].
    apply H; [lia|reflexivity].
Defined.

(** C3 as the specification words it fails, in three ways.  With a [ttl]
    of -1 minute, a [getSessionToken] that reads the same clock right after
    [setSessionToken] returns [null] and deletes the entry.  With a [ttl]
    of 10^18 minutes at 1 700 000 000 000 ms, what is stored is the
    binary64 number written 6.00000000017e+22, which is 1 742 848 ms more
    than [now + ttl * 60000].  With a [ttl] of 0.009 minute at 0 ms, what is
    stored is 539.9999999999999, the outcome of multiplying by 60 and then
    by 1000, where [now + ttl * 60000] is 540 in binary64 too. *)
Lemma session_cache_counterexample :
  (fst (getSessionToken (rt := Sample.runtime) kbis (Sample.at_time 1700000000000)
          (snd (setSessionToken kbis "abc" (Int (-1)) (Sample.at_time 1700000000000)
                  (Sample.start ∅))))
   = Returned (Some JNull)
   /\ secrets (snd (getSessionToken (rt := Sample.runtime) kbis (Sample.at_time 1700000000000)
                      (snd (setSessionToken kbis "abc" (Int (-1))
                              (Sample.at_time 1700000000000) (Sample.start ∅)))))
        !! (KEYCHAIN_SERVICE, "kbis-session")
      = None)
  /\ (secrets (snd (setSessionToken kbis "abc" Sample.quintillion
                      (Sample.at_time 1700000000000) (Sample.start ∅)))
        !! (KEYCHAIN_SERVICE, "kbis-session")
      = Some ("{" ++ JSON.quote "token" ++ ":" ++ JSON.quote "abc" ++ ","
              ++ JSON.quote "expiresAt" ++ ":6.00000000017e+22}")
      /\ Sample.quintillion = Binary64.of_Z (10 ^ 18)
      /\ expiry 1700000000000 Sample.quintillion = Dyadic 7152557373249531 23
      /\ (7152557373249531 * 2 ^ 23 = 1700000000000 + 10 ^ 18 * 60000 + 1742848)%Z
      /\ JSON.stringify (SessionData "abc" (1700000000000 + 10 ^ 18 * 60000))
         = "{" ++ JSON.quote "token" ++ ":" ++ JSON.quote "abc" ++ ","
           ++ JSON.quote "expiresAt" ++ ":60000000001700000000000}")
  /\ (secrets (snd (setSessionToken kbis "abc" Sample.nine_thousandths
                      (Sample.at_time 0) (Sample.start ∅)))
        !! (KEYCHAIN_SERVICE, "kbis-session")
      = Some ("{" ++ JSON.quote "token" ++ ":" ++ JSON.quote "abc" ++ ","
              ++ JSON.quote "expiresAt" ++ ":539.9999999999999}")
      /\ Binary64.plus (Int 0) (Binary64.times Sample.nine_thousandths (Int 60000)) = Int 540).
Proof. repeat split; vm_compute; reflexivity. Qed.

(** ** Runs and their events *)

Lemma run_events_app (st st' : State) (new : list Event) :
  log st' = (new ++ log st)%list -> run_events st st' = List.rev new.
Proof.
  intros H. unfold run_events. rewrite H, length_app.
  replace (List.length new + List.length (log st) - List.length (log st))%nat
    with (List.length new) by lia.
  now rewrite firstn_app, Nat.sub_diag, firstn_all, firstn_O, app_nil_r.
Qed.

(** The events that stand before [old] in [l], latest first. *)
Ltac events_before l old :=
  lazymatch l with
  | old => constr:(@nil Event)
  | ?e :: ?l' => let r := events_before l' old in constr:(e :: r)
  end.

(** Replaces [run_events st st'] by the list of the events added to the log
    when [st'] is given with its log spelled out. *)
Ltac spell_events :=
  repeat match goal with
  | |- context [run_events ?st {| secrets := ?m; log := ?l |}] =>
      let new := events_before l (log st) in
      rewrite (run_events_app st {| secrets := m; log := l |} new eq_refl);
      cbn [List.rev List.app]
  end.

(** C7.  Decoding the context cookie.  For all texts [X], [Y] and [Z]
    (strings of well-formed UTF-8), the decoding that [login] applies to
    the cookie value -- percent-decoding, Base64 decoding, reading the
    bytes as UTF-8, [JSON.parse] and the projection of [compte] -- maps the
    Base64 of the JSON text of [{compte: {siret: X, orga: Y, numc: Z}}] to
    the record [{siret: X, orga: Y, numc: Z}] itself; the decoding is a
    function of the cookie value alone and checks nothing else. *)
Theorem context_cookie_round_trip {rt : Runtime} (X Y Z : string) :
  Utf8.valid X = true -> Utf8.valid Y = true -> Utf8.valid Z = true ->
  Urssaf.decode_context (Base64.encode (JSON.stringify (Urssaf.context X Y Z)))
  = Returned (Some (Urssaf.account X Y Z)).
Proof.
  intros HX HY HZ. apply Utf8Facts.valid_wf in HX, HY, HZ.
  pose proof (JSONShapes.wf_context X Y Z HX HY HZ) as Hwf.
  apply Utf8Facts.valid_wf in Hwf.
  unfold Urssaf.decode_context.
  rewrite UriFacts.decode_base64. cbn [of_option and_then].
  rewrite Base64Facts.decode_encode. unfold Buffer_toString. rewrite Hwf.
  unfold JSON_parse. rewrite JSONShapes.parse_context. reflexivity.
Qed.

Lemma context_cookie_round_trip_witness :
  Urssaf.decode_context (rt := Sample.runtime)
    (Base64.encode (JSON.stringify (Urssaf.context "12345678900011" "117" "1170000001")))
  = Returned (Some (Urssaf.account "12345678900011" "117" "1170000001")).
Proof.
  apply (context_cookie_round_trip (rt := Sample.runtime)); reflexivity.
Defined.

(** ** Reasoning about runs

    One rule of [wp] per primitive of the monad; following them through a
    program visits each point where the program can stop once. *)

Section Rules.

Context {rt : Runtime} (w : World).

Lemma wp_ret {A} (a : A) st Q : Q (Returned a) st -> wp w (ret a) st Q.
Proof. exact (fun H => H). Qed.

Lemma wp_throw {A} e st (Q : Outcome A -> State -> Prop) :
  Q (Thrown e) st -> wp w (throw e) st Q.
Proof. exact (fun H => H). Qed.

Lemma wp_bind {A B} (m : M A) (k : A -> M B) st Q :
  wp w m st (fun o s =>
    match o with
    | Returned a => wp w (k a) s Q
    | Thrown e => Q (Thrown e) s
    end) ->
  wp w (bind m k) st Q.
Proof.
  unfold wp, bind. destruct (m w st) as [[a|e] s]; cbn [fst snd]; exact (fun H => H).
Qed.

Lemma wp_fetch rq st Q :
  (forall res, http w (now_index st) rq = Some res -> Q (Returned res) (record (Fetch rq) st)) ->
  (http w (now_index st) rq = None -> Q (Thrown FetchError) (record (Fetch rq) st)) ->
  wp w (fetch rq) st Q.
Proof.
  intros Hs Hn. unfold wp, fetch.
  destruct (http w (now_index st) rq) as [res|]; cbn [fst snd]; auto.
Qed.

Lemma wp_randomBytes n st Q :
  Q (Returned (sample w (now_index st) n)) (record (RandomBytes n) st) ->
  wp w (randomBytes n) st Q.
Proof. exact (fun H => H). Qed.

Lemma wp_Date_now st Q :
  Q (Returned (clock w (now_index st))) (record DateNow st) -> wp w Date_now st Q.
Proof. exact (fun H => H). Qed.

Lemma wp_secrets_get service name st Q :
  Q (Returned (secrets st !! (service, name))) (record (SecretsGet service name) st) ->
  wp w (secrets_get service name) st Q.
Proof. exact (fun H => H). Qed.

Lemma wp_secrets_set service name value st (Q : Outcome unit -> State -> Prop) :
  Q (Returned tt)
    {| secrets := <[(service, name) := value]> (secrets st);
       log := SecretsSet service name value :: log st |} ->
  wp w (secrets_set service name value) st Q.
Proof. exact (fun H => H). Qed.

Lemma wp_secrets_delete service name st (Q : Outcome unit -> State -> Prop) :
  Q (Returned tt)
    {| secrets := delete (service, name) (secrets st);
       log := SecretsDelete service name :: log st |} ->
  wp w (secrets_delete service name) st Q.
Proof. exact (fun H => H). Qed.

Lemma wp_stdout_write s st (Q : Outcome unit -> State -> Prop) :
  Q (Returned tt) (record (StdoutWrite s) st) -> wp w (stdout_write s) st Q.
Proof. exact (fun H => H). Qed.

Lemma wp_console_log s st (Q : Outcome unit -> State -> Prop) :
  Q (Returned tt) (record (ConsoleLog s) st) -> wp w (console_log s) st Q.
Proof. exact (fun H => H). Qed.

Lemma wp_stdin_data st Q :
  Q (Returned (stdin w (now_index st))) (record StdinData st) -> wp w stdin_data st Q.
Proof. exact (fun H => H). Qed.

Lemma wp_stdin_pause st (Q : Outcome unit -> State -> Prop) :
  Q (Returned tt) (record StdinPause st) -> wp w stdin_pause st Q.
Proof. exact (fun H => H). Qed.

Lemma wp_run_shell cmd st (Q : Outcome unit -> State -> Prop) :
  (shell w (now_index st) cmd = true -> Q (Returned tt) (record (Shell cmd true) st)) ->
  (shell w (now_index st) cmd = false ->
   Q (Thrown (ShellError cmd)) (record (Shell cmd false) st)) ->
  wp w (run_shell cmd) st Q.
Proof.
  intros Ht Hf. unfold wp, run_shell.
  destruct (shell w (now_index st) cmd); cbn [fst snd]; auto.
Qed.

(** A computation without effect: one case for its value, one for its
    error. *)
Lemma wp_lift {A} (o : Outcome A) st Q :
  (forall a, o = Returned a -> Q (Returned a) st) ->
  (forall e, o = Thrown e -> Q (Thrown e) st) ->
  wp w (lift o) st Q.
Proof. intros Hs Hn. unfold wp, lift. destruct o as [a|e]; cbn [fst snd]; auto. Qed.

End Rules.

(** One step through the program in the goal. *)
Ltac wp_step :=
  cbv beta iota;
  lazymatch goal with
  | |- wp _ (bind _ _) _ _ => apply wp_bind
  | |- wp _ (ret _) _ _ => apply wp_ret
  | |- wp _ (throw _) _ _ => apply wp_throw
  | |- wp _ (fetch _) _ _ => apply wp_fetch; [intros ? ? | intros ?]
  | |- wp _ (randomBytes _) _ _ => apply wp_randomBytes
  | |- wp _ Date_now _ _ => apply wp_Date_now
  | |- wp _ (secrets_get _ _) _ _ => apply wp_secrets_get
  | |- wp _ (secrets_set _ _ _) _ _ => apply wp_secrets_set
  | |- wp _ (secrets_delete _ _) _ _ => apply wp_secrets_delete
  | |- wp _ (stdout_write _) _ _ => apply wp_stdout_write
  | |- wp _ (console_log _) _ _ => apply wp_console_log
  | |- wp _ stdin_data _ _ => apply wp_stdin_data
  | |- wp _ stdin_pause _ _ => apply wp_stdin_pause
  | |- wp _ (run_shell _) _ _ => apply wp_run_shell; intros ?
  | |- wp _ (lift _) _ _ => apply wp_lift; intros ? ?
  | |- wp _ (deleteCredentials _) _ _ => unfold deleteCredentials
  | |- wp _ (deleteSessionToken _) _ _ => unfold deleteSessionToken
  | |- wp _ (if ?b then _ else _) _ _ => destruct b eqn:?
  | |- wp _ (match ?x with _ => _ end) _ _ => destruct x eqn:?
  end.

Ltac wp_run := repeat wp_step.

(** At the end of a path: the events of the run, spelled out. *)
Ltac at_end := unfold record, now_index in *; cbn [log secrets List.length] in *; spell_events.

(** ** The URSSAF handshake *)

Lemma sample_length (w : World) (i n : nat) : String.length (sample w i n) = n.
Proof.
  unfold sample. generalize (entropy w i) as f. intros f. generalize 0%nat as k.
  induction n as [|n IH]; intros k; simpl; [reflexivity | now rewrite IH].
Qed.

Lemma length_string_of_list (l : list ascii) :
  String.length (string_of_list_ascii l) = List.length l.
Proof. induction l as [|c l IH]; cbn; [reflexivity | now rewrite IH]. Qed.

Lemma length_to_sextets (buf : string) :
  List.length (Base64.to_sextets buf) = ((4 * String.length buf + 2) / 3)%nat.
Proof.
  induction buf as [|x|x y|x y z r IH] using string_triple_ind; cbn [Base64.to_sextets];
    try reflexivity.
  cbn [List.length String.length]. rewrite IH.
  replace (4 * S (S (S (String.length r))) + 2)%nat
    with (4 * String.length r + 2 + 4 * 3)%nat by lia.
  rewrite Nat.div_add by discriminate. lia.
Qed.

(** Taking apart [In (Fetch rq) events] for a list of events spelled out. *)
Ltac pick_event H :=
  cbn [In] in H;
  repeat match type of H with
  | _ \/ _ => destruct H as [H|H]
  end;
  try contradiction; try discriminate H.

(** C5.  PKCE derivation and binding.  In every run of the URSSAF
    [login], [codeVerifier] is the base64url text of the 32 bytes that the
    third call of the run, [randomBytes(32)], returns: 43 characters that
    decode to these bytes.  A sixth call, when the run makes one, is the GET
    request to the authorization endpoint, whose [code_challenge] is the
    base64url text of the SHA-256 of [codeVerifier], with
    [code_challenge_method=S256].  Whenever that request is answered and
    the [code] can be read from the [Location] header of the answer, a
    seventh call follows; and a seventh call, when the run makes one, is
    the POST to the token endpoint of a form that carries this same
    [codeVerifier] as [code_verifier], [grant_type=authorization_code] and
    the [code] read from that header. *)
Theorem pkce_derivation_and_binding {rt : Runtime} (identifiant password : string)
    (w : World) (st : State) :
  let n := now_index st in
  let events := run_events st (snd (Urssaf.login identifiant password w st)) in
  let random := sample w (2 + n) 32 in
  let codeVerifier := Base64.encode_url random in
  (String.length random = 32%nat
   /\ String.length codeVerifier = 43%nat
   /\ Base64.decode codeVerifier = random)
  /\ (forall e, nth_error events 5 = Some e ->
      nth_error events 2 = Some (RandomBytes 32)
      /\ exists rq,
           e = Fetch rq
           /\ url rq = Urssaf.authorize_endpoint
           /\ method rq = GET
           /\ param "code_challenge" (search rq)
              = Some (Some (JStr (Base64.encode_url (sha256 codeVerifier))))
           /\ param "code_challenge_method" (search rq) = Some (Some (JStr "S256")))
  /\ (forall authRq authRes code,
        nth_error events 5 = Some (Fetch authRq) ->
        http w (5 + n) authRq = Some authRes ->
        searchParam (location authRes) "code" = Returned code ->
        nth_error events 6 <> None)
  /\ (forall e, nth_error events 6 = Some e ->
      exists authRq authRes code rq fields,
        nth_error events 5 = Some (Fetch authRq)
        /\ http w (5 + n) authRq = Some authRes
        /\ searchParam (location authRes) "code" = Returned code
        /\ e = Fetch rq
        /\ url rq = Urssaf.token_endpoint
        /\ method rq = POST
        /\ body rq = Form fields
        /\ param "grant_type" fields = Some (Some (JStr "authorization_code"))
        /\ param "code" fields = Some (nullable code)
        /\ param "code_verifier" fields = Some (Some (JStr codeVerifier))).
Proof.
  intros n events random codeVerifier.
  assert (Hlen : String.length random = 32%nat) by apply sample_length.
  split.
  { split; [exact Hlen|]. split; [|apply Base64Facts.decode_encode_url].
    unfold codeVerifier, Base64.encode_url, Base64.render.
    rewrite length_string_of_list, length_map, length_to_sextets, Hlen. reflexivity. }
  clear Hlen. subst events random codeVerifier n.
  change (wp w (Urssaf.login identifiant password) st (fun _ st' =>
    (forall e, nth_error (run_events st st') 5 = Some e ->
       nth_error (run_events st st') 2 = Some (RandomBytes 32)
       /\ exists rq,
            e = Fetch rq
            /\ url rq = Urssaf.authorize_endpoint
            /\ method rq = GET
            /\ param "code_challenge" (search rq)
               = Some (Some (JStr (Base64.encode_url
                     (sha256 (Base64.encode_url (sample w (2 + now_index st) 32))))))
            /\ param "code_challenge_method" (search rq) = Some (Some (JStr "S256")))
    /\ (forall authRq authRes code,
          nth_error (run_events st st') 5 = Some (Fetch authRq) ->
          http w (5 + now_index st) authRq = Some authRes ->
          searchParam (location authRes) "code" = Returned code ->
          nth_error (run_events st st') 6 <> None)
    /\ (forall e, nth_error (run_events st st') 6 = Some e ->
        exists authRq authRes code rq fields,
          nth_error (run_events st st') 5 = Some (Fetch authRq)
          /\ http w (5 + now_index st) authRq = Some authRes
          /\ searchParam (location authRes) "code" = Returned code
          /\ e = Fetch rq
          /\ url rq = Urssaf.token_endpoint
          /\ method rq = POST
          /\ body rq = Form fields
          /\ param "grant_type" fields = Some (Some (JStr "authorization_code"))
          /\ param "code" fields = Some (nullable code)
          /\ param "code_verifier" fields
             = Some (Some (JStr (Base64.encode_url (sample w (2 + now_index st) 32))))))).
  unfold Urssaf.login, Urssaf.oidc. wp_run.
  all: at_end; cbn [Nat.add nth_error].
  all: split; [|split].
  all: try (intros ev Hev; discriminate Hev).
  all: try (intros aRq aRes cd Hfifth Hanswer Hread; discriminate Hfifth).
  all: try (intros ev Hev; injection Hev as <-; split; [reflexivity|];
            eexists; repeat split; reflexivity).
  all: try (intros aRq aRes cd Hfifth Hanswer Hread Hnone; discriminate Hnone).
  all: try (intros aRq aRes cd Hfifth Hanswer Hread _; exfalso; congruence).
  all: intros ev Hev; injection Hev as <-.
  all: eexists _, _, _, _, _; repeat split; try eassumption; reflexivity.
Qed.

(** A handshake that succeeds.  Its sixth call is the GET to the
    authorization endpoint with the challenge of the verifier drawn in that
    run; the answer carries a code, so a seventh call follows; and the
    seventh call is the POST to the token endpoint, with that verifier and
    that code. *)
Lemma pkce_derivation_and_binding_witness :
  (nth_error (run_events (Sample.start ∅)
                (snd (Urssaf.login (rt := Sample.runtime) "12345678900011" "hunter2"
                        Sample.urssaf_ok (Sample.start ∅)))) 2
   = Some (RandomBytes 32)
   /\ exists rq,
        Fetch Sample.authorize_sent = Fetch rq
        /\ url rq = Urssaf.authorize_endpoint
        /\ method rq = GET
        /\ param "code_challenge" (search rq)
           = Some (Some (JStr (Base64.encode_url
                    (sha256 (Runtime := Sample.runtime) (Base64.encode_url
                       (sample Sample.urssaf_ok (2 + now_index (Sample.start ∅)) 32))))))
        /\ param "code_challenge_method" (search rq) = Some (Some (JStr "S256")))
  /\ nth_error (run_events (Sample.start ∅)
                  (snd (Urssaf.login (rt := Sample.runtime) "12345678900011" "hunter2"
                          Sample.urssaf_ok (Sample.start ∅)))) 6
     <> None
  /\ exists authRq authRes code rq fields,
       nth_error (run_events (Sample.start ∅)
                    (snd (Urssaf.login (rt := Sample.runtime) "12345678900011" "hunter2"
                            Sample.urssaf_ok (Sample.start ∅)))) 5
       = Some (Fetch authRq)
       /\ http Sample.urssaf_ok (5 + now_index (Sample.start ∅)) authRq = Some authRes
       /\ searchParam (rt := Sample.runtime) (location authRes) "code" = Returned code
       /\ Fetch Sample.token_sent = Fetch rq
       /\ url rq = Urssaf.token_endpoint
       /\ method rq = POST
       /\ body rq = Form fields
       /\ param "grant_type" fields = Some (Some (JStr "authorization_code"))
       /\ param "code" fields = Some (nullable code)
       /\ param "code_verifier" fields
          = Some (Some (JStr (Base64.encode_url
                                (sample Sample.urssaf_ok (2 + now_index (Sample.start ∅)) 32)))).
Proof.
  destruct (pkce_derivation_and_binding (rt := Sample.runtime) "12345678900011" "hunter2"
              Sample.urssaf_ok (Sample.start ∅)) as (_ & Hauthorize & Hnext & Htoken).
  split; [|split].
  - apply (Hauthorize (Fetch Sample.authorize_sent)). vm_compute. reflexivity.
  - apply (Hnext Sample.authorize_sent Sample.authorize_ok (Some "code-1"));
      vm_compute; reflexivity.
  - apply (Htoken (Fetch Sample.token_sent)). vm_compute. reflexivity.
Defined.

Lemma pkce_material_inj (w1 w2 : World) (n1 n2 : nat) :
  Urssaf.pkce_material w1 n1 = Urssaf.pkce_material w2 n2 ->
  Urssaf.pkce_samples w1 n1 = Urssaf.pkce_samples w2 n2.
Proof.
  unfold Urssaf.pkce_material, Urssaf.pkce_samples, Urssaf.b64url.
  intros H.
  pose proof (f_equal (fun t => fst (fst t)) H) as Hv.
  pose proof (f_equal (fun t => snd (fst t)) H) as Hs.
  pose proof (f_equal snd H) as Hn. cbn [fst snd] in Hv, Hs, Hn.
  apply Base64Facts.encode_url_inj in Hv, Hn.
  apply append_inv_tail, Base64Facts.encode_url_inj in Hs.
  now rewrite Hv, Hs, Hn.
Qed.

(** What a run of [login] that calls the authorization endpoint has done:
    its third, fourth and fifth calls drew 32 random bytes each; the
    request carries the challenge of the [codeVerifier], the [state] and
    the [nonce] made of these three samples; the token request, if any,
    carries that [codeVerifier]; and the run has neither read nor written
    the keychain. *)
Lemma pkce_material_of_run {rt : Runtime} (identifiant password : string)
    (w : World) (st : State) :
  let st' := snd (Urssaf.login identifiant password w st) in
  let events := run_events st st' in
  forall rq, In (Fetch rq) events -> url rq = Urssaf.authorize_endpoint ->
    firstn 3 (skipn 2 events) = [RandomBytes 32; RandomBytes 32; RandomBytes 32]
    /\ (param "code_challenge" (search rq), param "state" (search rq),
        param "nonce" (search rq))
       = (let '(codeVerifier, state, nonce) := Urssaf.pkce_material w (now_index st) in
          (Some (Some (JStr (Urssaf.b64url (sha256 codeVerifier)))),
           Some (Some (JStr state)), Some (Some (JStr nonce))))
    /\ (forall rq', In (Fetch rq') events -> url rq' = Urssaf.token_endpoint ->
        exists fields,
          body rq' = Form fields
          /\ param "code_verifier" fields
             = Some (Some (JStr (fst (fst (Urssaf.pkce_material w (now_index st)))))))
    /\ forallb (fun e => negb (keychain_event e)) events = true
    /\ secrets st' = secrets st.
Proof.
  cbv zeta.
  change (wp w (Urssaf.login identifiant password) st (fun _ st' =>
    forall rq, In (Fetch rq) (run_events st st') -> url rq = Urssaf.authorize_endpoint ->
      firstn 3 (skipn 2 (run_events st st'))
      = [RandomBytes 32; RandomBytes 32; RandomBytes 32]
      /\ (param "code_challenge" (search rq), param "state" (search rq),
          param "nonce" (search rq))
         = (let '(codeVerifier, state, nonce) := Urssaf.pkce_material w (now_index st) in
            (Some (Some (JStr (Urssaf.b64url (sha256 codeVerifier)))),
             Some (Some (JStr state)), Some (Some (JStr nonce))))
      /\ (forall rq', In (Fetch rq') (run_events st st') -> url rq' = Urssaf.token_endpoint ->
          exists fields,
            body rq' = Form fields
            /\ param "code_verifier" fields
               = Some (Some (JStr (fst (fst (Urssaf.pkce_material w (now_index st)))))))
      /\ forallb (fun e => negb (keychain_event e)) (run_events st st') = true
      /\ secrets st' = secrets st)).
  unfold Urssaf.login, Urssaf.oidc, Urssaf.pkce_material. wp_run.
  all: at_end; cbn [Nat.add fst].
  all: intros rq Hin Hurl; pick_event Hin.
  all: try (injection Hin as <-); try discriminate Hurl.
  all: repeat split.
  all: intros rq' Hin' Hurl'; pick_event Hin'.
  all: try (injection Hin' as <-); try discriminate Hurl'.
  all: eexists; split; reflexivity.
Qed.

(** C8.  PKCE freshness across runs.  Take two runs of the URSSAF [login]
    that both call the authorization endpoint.  In each, [codeVerifier],
    [state] and [nonce] are the base64url texts (the [state] with its fixed
    suffix) of three samples of 32 bytes drawn by that run, and the run
    neither reads nor writes the keychain.  Whenever the samples of the two
    runs differ, so do their [codeVerifier]/[state]/[nonce] triples. *)
Theorem pkce_material_fresh {rt : Runtime} (id1 pw1 id2 pw2 : string)
    (w1 w2 : World) (st1 st2 : State) (rq1 rq2 : Request) :
  let st1' := snd (Urssaf.login id1 pw1 w1 st1) in
  let st2' := snd (Urssaf.login id2 pw2 w2 st2) in
  In (Fetch rq1) (run_events st1 st1') -> url rq1 = Urssaf.authorize_endpoint ->
  In (Fetch rq2) (run_events st2 st2') -> url rq2 = Urssaf.authorize_endpoint ->
  Urssaf.pkce_samples w1 (now_index st1) <> Urssaf.pkce_samples w2 (now_index st2) ->
  Urssaf.pkce_material w1 (now_index st1) <> Urssaf.pkce_material w2 (now_index st2)
  /\ (param "state" (search rq1), param "nonce" (search rq1))
     = (Some (Some (JStr (snd (fst (Urssaf.pkce_material w1 (now_index st1)))))),
        Some (Some (JStr (snd (Urssaf.pkce_material w1 (now_index st1))))))
  /\ (param "state" (search rq2), param "nonce" (search rq2))
     = (Some (Some (JStr (snd (fst (Urssaf.pkce_material w2 (now_index st2)))))),
        Some (Some (JStr (snd (Urssaf.pkce_material w2 (now_index st2))))))
  /\ param "code_challenge" (search rq1)
     = Some (Some (JStr (Urssaf.b64url
         (sha256 (fst (fst (Urssaf.pkce_material w1 (now_index st1))))))))
  /\ param "code_challenge" (search rq2)
     = Some (Some (JStr (Urssaf.b64url
         (sha256 (fst (fst (Urssaf.pkce_material w2 (now_index st2))))))))
  /\ firstn 3 (skipn 2 (run_events st1 st1')) = [RandomBytes 32; RandomBytes 32; RandomBytes 32]
  /\ firstn 3 (skipn 2 (run_events st2 st2')) = [RandomBytes 32; RandomBytes 32; RandomBytes 32]
  /\ forallb (fun e => negb (keychain_event e)) (run_events st1 st1') = true
  /\ forallb (fun e => negb (keychain_event e)) (run_events st2 st2') = true
  /\ secrets st1' = secrets st1
  /\ secrets st2' = secrets st2.
Proof.
  intros st1' st2' Hin1 Hurl1 Hin2 Hurl2 Hdiff.
  destruct (pkce_material_of_run id1 pw1 w1 st1 rq1 Hin1 Hurl1) as (Hr1 & Hp1 & _ & Hk1 & Hs1).
  destruct (pkce_material_of_run id2 pw2 w2 st2 rq2 Hin2 Hurl2) as (Hr2 & Hp2 & _ & Hk2 & Hs2).
  unfold Urssaf.pkce_material in Hp1, Hp2. cbn [fst snd] in *.
  pose proof (f_equal (fun t => fst (fst t)) Hp1) as Hc1.
  pose proof (f_equal (fun t => snd (fst t)) Hp1) as Hst1.
  pose proof (f_equal snd Hp1) as Hn1.
  pose proof (f_equal (fun t => fst (fst t)) Hp2) as Hc2.
  pose proof (f_equal (fun t => snd (fst t)) Hp2) as Hst2.
  pose proof (f_equal snd Hp2) as Hn2.
  cbn [fst snd] in Hc1, Hst1, Hn1, Hc2, Hst2, Hn2.
  split; [intros Heq; apply Hdiff; now apply pkce_material_inj|].
  unfold Urssaf.pkce_material; cbn [fst snd].
  rewrite Hst1, Hn1, Hst2, Hn2.
  repeat split; assumption.
Qed.

(** Two handshakes whose random sources differ draw different material. *)
Lemma pkce_material_fresh_witness :
  Urssaf.pkce_material Sample.urssaf_ok 0 <> Urssaf.pkce_material Sample.urssaf_again 0.
Proof.
  refine (proj1 (pkce_material_fresh (rt := Sample.runtime)
            "12345678900011" "hunter2" "12345678900011" "hunter2"
            Sample.urssaf_ok Sample.urssaf_again (Sample.start ∅) (Sample.start ∅)
            Sample.authorize_sent Sample.authorize_sent_again _ eq_refl _ eq_refl _)).
  - vm_compute. do 5 right. left. reflexivity.
  - vm_compute. do 5 right. left. reflexivity.
  - intros H. vm_compute in H. discriminate H.
Defined.

(** ** The answer of [/cnx] without the context cookie *)

(** Without a stored credential, [getOrPromptCredentials] prompts. *)
Lemma getOrPromptCredentials_prompts (name : ServiceName) (prompt : string)
    (w : World) (st : State) :
  secrets st !! (KEYCHAIN_SERVICE, service_name name) = None ->
  In (StdoutWrite prompt) (run_events st (snd (getOrPromptCredentials name prompt w st))).
Proof.
  intros Hnone.
  change (wp w (getOrPromptCredentials name prompt) st
            (fun _ s => In (StdoutWrite prompt) (run_events st s))).
  unfold getOrPromptCredentials, getCredentials, ask, askPassword, setCredentials.
  wp_step. wp_step. wp_step. rewrite Hnone. wp_run.
  all: at_end; cbn [In]; try discriminate; tauto.
Qed.

(** C1, as the code has it.  Let the answer of [/cnx] carry no [ctxUrssaf]
    cookie.  If its body contains the marker
    [Erreur d'identifiant ou de mot de passe], [login] deletes the
    credential stored for [urssaf] -- a [getCredentials] that follows finds
    none and a [getOrPromptCredentials] that follows prompts for the login
    -- and raises the credential-rejected error.  If the body does not
    contain the marker, [login] raises the contract-change error, whose
    message names the [ctxUrssaf] cookie, and leaves the keychain as it is.
    The two errors are distinct [Error] values, not a [TypeError]. *)
Theorem cnx_without_context_cookie {rt : Runtime} (identifiant password : string)
    (w : World) (st : State) (res : Response) :
  http w (now_index st) (Urssaf.cnx_request identifiant password) = Some res ->
  parseCookies res "ctxUrssaf" = None ->
  let out := fst (Urssaf.login identifiant password w st) in
  let st' := snd (Urssaf.login identifiant password w st) in
  (Str.includes (text res) "Erreur d'identifiant ou de mot de passe" = true ->
     out = Thrown Urssaf.credentials_rejected
     /\ secrets st' = delete (KEYCHAIN_SERVICE, "urssaf") (secrets st)
     /\ (forall w', fst (getCredentials urssaf w' st') = Returned JNull)
     /\ (forall w' prompt,
           In (StdoutWrite prompt)
              (run_events st' (snd (getOrPromptCredentials urssaf prompt w' st')))))
  /\ (Str.includes (text res) "Erreur d'identifiant ou de mot de passe" = false ->
     out = Thrown Urssaf.contract_changed /\ secrets st' = secrets st)
  /\ Urssaf.credentials_rejected <> Urssaf.contract_changed
  /\ (exists message,
        Urssaf.contract_changed = Error message /\ Str.includes message "ctxUrssaf" = true)
  /\ (exists message, Urssaf.credentials_rejected = Error message).
Proof.
  intros Hres Hcookie out st'.
  assert (Hrun : Urssaf.login identifiant password w st
                 = if Str.includes (text res) Urssaf.bad_credentials_marker
                   then (Thrown Urssaf.credentials_rejected,
                         {| secrets := delete (KEYCHAIN_SERVICE, "urssaf") (secrets st);
                            log := SecretsDelete KEYCHAIN_SERVICE "urssaf"
                                   :: Fetch (Urssaf.cnx_request identifiant password)
                                   :: log st |})
                   else (Thrown Urssaf.contract_changed,
                         record (Fetch (Urssaf.cnx_request identifiant password)) st)).
  { unfold Urssaf.login, bind, fetch. rewrite Hres. cbv zeta. rewrite Hcookie. cbn [falsy].
    destruct (Str.includes (text res) Urssaf.bad_credentials_marker); reflexivity. }
  change "Erreur d'identifiant ou de mot de passe" with Urssaf.bad_credentials_marker.
  subst out st'. rewrite Hrun. repeat split.
  - now rewrite H.
  - now rewrite H.
  - intros w'. rewrite H. unfold getCredentials, bind, secrets_get. cbn [secrets fst snd].
    change (service_name urssaf) with "urssaf". now rewrite lookup_delete_eq.
  - intros w' prompt. rewrite H. cbn [snd].
    apply getOrPromptCredentials_prompts. cbn [secrets]. apply lookup_delete_eq.
  - now rewrite H.
  - now rewrite H.
  - discriminate.
  - eexists. split; reflexivity.
  - eexists. reflexivity.
Qed.

(** The run of the example: the page carries the marker, the credential is
    deleted and the rejection is raised. *)
Lemma cnx_without_context_cookie_witness :
  fst (Urssaf.login (rt := Sample.runtime) "12345678900011" "hunter2"
         (Sample.world [(0%nat, Sample.cnx_rejected)] 0 EmptyString true)
         (Sample.start Sample.keychain_with_credentials))
  = Thrown Urssaf.credentials_rejected
  /\ secrets (snd (Urssaf.login (rt := Sample.runtime) "12345678900011" "hunter2"
                     (Sample.world [(0%nat, Sample.cnx_rejected)] 0 EmptyString true)
                     (Sample.start Sample.keychain_with_credentials)))
     = delete (KEYCHAIN_SERVICE, "urssaf") Sample.keychain_with_credentials.
Proof.
  destruct (cnx_without_context_cookie (rt := Sample.runtime) "12345678900011" "hunter2"
              (Sample.world [(0%nat, Sample.cnx_rejected)] 0 EmptyString true)
              (Sample.start Sample.keychain_with_credentials) Sample.cnx_rejected
              eq_refl eq_refl) as (H & _).
  destruct (H eq_refl) as (Hout & Hsecrets & _).
  split; [exact Hout | exact Hsecrets].
Defined.

(** C1 as the specification words it fails: a page without the cookie
    whose body contains [identifiant ou mot de passe incorrect] makes
    [login] raise the contract-change error and keep the stored
    credential. *)
Lemma cnx_spec_substring_counterexample :
  parseCookies (rt := Sample.runtime) Sample.cnx_spec_wording "ctxUrssaf" = None
  /\ Str.includes (text Sample.cnx_spec_wording) Spec.bad_credentials_substring = true
  /\ fst (Urssaf.login (rt := Sample.runtime) "12345678900011" "hunter2"
            (Sample.world [(0%nat, Sample.cnx_spec_wording)] 0 EmptyString true)
            (Sample.start Sample.keychain_with_credentials))
     = Thrown Urssaf.contract_changed
  /\ secrets (snd (Urssaf.login (rt := Sample.runtime) "12345678900011" "hunter2"
                     (Sample.world [(0%nat, Sample.cnx_spec_wording)] 0 EmptyString true)
                     (Sample.start Sample.keychain_with_credentials)))
       !! (KEYCHAIN_SERVICE, "urssaf")
     = Some (JSON.stringify (Credentials "12345678900011" "hunter2")).
Proof. repeat split; vm_compute; reflexivity. Qed.

(** ** The monidenum handshake *)

Lemma falsy_set (v : string) : falsy (Some v) = false <-> v <> EmptyString.
Proof.
  cbn [falsy]. destruct (String.eqb_spec v EmptyString); split; congruence.
Qed.

Lemma falsy_cases (o : option string) :
  falsy o = true -> o = None \/ o = Some EmptyString.
Proof.
  destruct o as [v|]; cbn [falsy]; [|now left].
  intros H. apply String.eqb_eq in H. right. now rewrite H.
Qed.

(** The redirect walk, by induction on its budget.  It asks for at most
    [budget] URLs, one after the other; a hop whose answer sets the session
    cookie is the last one and its cookie is the result; a result that is
    not empty is the cookie set by the answer to the last hop; the walk
    itself only fails when a request does. *)
Lemma walk_spec {rt : Runtime} (w : World) (budget : nat) :
  forall (currentUrl : string) (st : State),
  exists urls : list string,
    log (snd (Kbis.walk budget currentUrl w st))
    = (List.rev (map Kbis.hop urls) ++ log st)%list
    /\ secrets (snd (Kbis.walk budget currentUrl w st)) = secrets st
    /\ (List.length urls <= budget)%nat
    /\ (forall i u res v,
          nth_error urls i = Some u ->
          http w (i + now_index st) (Kbis.get_manual u) = Some res ->
          parseCookies res "PHPSESSID" = Some v -> v <> EmptyString ->
          S i = List.length urls
          /\ fst (Kbis.walk budget currentUrl w st) = Returned v)
    /\ (forall v,
          fst (Kbis.walk budget currentUrl w st) = Returned v -> v <> EmptyString ->
          exists i u res,
            nth_error urls i = Some u
            /\ http w (i + now_index st) (Kbis.get_manual u) = Some res
            /\ parseCookies res "PHPSESSID" = Some v)
    /\ (forall e, fst (Kbis.walk budget currentUrl w st) = Thrown e ->
          e = FetchError
          /\ exists u, nth_error urls (List.length urls - 1) = Some u
               /\ http w (List.length urls - 1 + now_index st) (Kbis.get_manual u) = None).
Proof.
  induction budget as [|k IH]; intros currentUrl st.
  - exists []. cbn. split; [|split; [|split; [|split; [|split]]]]; try reflexivity; try lia.
    + intros i u res v Hi. destruct i; discriminate Hi.
    + intros v Hv Hne. injection Hv as <-. congruence.
    + discriminate.
  - cbn [Kbis.walk]. unfold bind, fetch.
    destruct (http w (now_index st) (Kbis.get_manual currentUrl)) as [res|] eqn:Hres.
    2:{ exists [currentUrl]. cbn.
        split; [|split; [|split; [|split; [|split]]]]; try reflexivity; try lia.
        + intros i u r v Hi Hr. destruct i as [|i]; [|destruct i; discriminate].
          cbn in Hi, Hr. congruence.
        + discriminate.
        + intros e He. split; [congruence|].
          exists currentUrl. split; [reflexivity | exact Hres]. }
    cbv zeta.
    destruct (falsy (parseCookies res "PHPSESSID")) eqn:Hcookie; cbn [negb].
    2:{ exists [currentUrl]. cbn.
        destruct (parseCookies res "PHPSESSID") as [c|] eqn:Hc; [|discriminate Hcookie].
        apply falsy_set in Hcookie. cbn [unwrap].
        split; [|split; [|split; [|split; [|split]]]]; try reflexivity; try lia.
        + intros i u r v Hi Hr Hv Hne. destruct i as [|i]; [|destruct i; discriminate].
          cbn in Hi, Hr. injection Hi as <-. rewrite Hres in Hr. injection Hr as <-.
          split; [reflexivity | congruence].
        + intros v Hv _. injection Hv as <-.
          exists 0%nat, currentUrl, res. repeat split; assumption.
        + discriminate. }
    destruct (falsy (location res) || negb (status res =? 302)%Z) eqn:Hstop.
    { exists [currentUrl]. cbn.
      split; [|split; [|split; [|split; [|split]]]]; try reflexivity; try lia.
      + intros i u r v Hi Hr Hv Hne. destruct i as [|i]; [|destruct i; discriminate].
        cbn in Hi, Hr. injection Hi as <-. rewrite Hres in Hr. injection Hr as <-.
        rewrite Hv in Hcookie. apply falsy_set in Hne. congruence.
      + intros v Hv Hne. injection Hv as <-. congruence.
      + discriminate. }
    destruct (IH (Kbis.resolve (unwrap (location res)))
                 (record (Fetch (Kbis.get_manual currentUrl)) st))
      as (urls & Hlog & Hsec & Hlen & Hfirst & Hret & Hthrow).
    exists (currentUrl :: urls).
    assert (Hidx : forall i, (S i + now_index st
                    = i + now_index (record (Fetch (Kbis.get_manual currentUrl)) st))%nat).
    { intros i. unfold now_index, record. cbn [log List.length]. lia. }
    split; [|split; [|split; [|split; [|split]]]].
    + rewrite Hlog. cbn [map List.rev record log].
      exact (List.app_assoc _ [Kbis.hop currentUrl] (log st)).
    + exact Hsec.
    + cbn [List.length]. lia.
    + intros i u r v Hi Hr Hc Hne. destruct i as [|i].
      * cbn in Hi, Hr. injection Hi as <-. rewrite Hres in Hr. injection Hr as <-.
        rewrite Hc in Hcookie. apply falsy_set in Hne. congruence.
      * cbn [nth_error] in Hi. rewrite Hidx in Hr.
        destruct (Hfirst i u r v Hi Hr Hc Hne) as [Hlast Hout].
        split; [cbn [List.length]; lia | exact Hout].
    + intros v Hv Hne. destruct (Hret v Hv Hne) as (i & u & r & Hi & Hr & Hc).
      exists (S i), u, r. rewrite Hidx. repeat split; assumption.
    + intros e He. destruct (Hthrow e He) as (-> & u & Hu & Hnone).
      split; [reflexivity|]. exists u.
      destruct urls as [|u0 urls']; [discriminate Hu|].
      replace (List.length (currentUrl :: u0 :: urls') - 1)%nat
        with (S (List.length (u0 :: urls') - 1)) by (cbn [List.length]; lia).
      split; [exact Hu|]. rewrite Hidx. exact Hnone.
Qed.

Lemma wp_walk {rt : Runtime} (w : World) (budget : nat) (currentUrl : string) (st : State)
    (Q : Outcome string -> State -> Prop) :
  (forall urls st' out,
     log st' = (List.rev (map Kbis.hop urls) ++ log st)%list ->
     secrets st' = secrets st ->
     (List.length urls <= budget)%nat ->
     (forall i u res v,
        nth_error urls i = Some u ->
        http w (i + now_index st) (Kbis.get_manual u) = Some res ->
        parseCookies res "PHPSESSID" = Some v -> v <> EmptyString ->
        S i = List.length urls /\ out = Returned v) ->
     (forall v, out = Returned v -> v <> EmptyString ->
        exists i u res,
          nth_error urls i = Some u
          /\ http w (i + now_index st) (Kbis.get_manual u) = Some res
          /\ parseCookies res "PHPSESSID" = Some v) ->
     (forall e, out = Thrown e ->
        e = FetchError
        /\ exists u, nth_error urls (List.length urls - 1) = Some u
             /\ http w (List.length urls - 1 + now_index st) (Kbis.get_manual u) = None) ->
     Q out st') ->
  wp w (Kbis.walk budget currentUrl) st Q.
Proof.
  intros H. unfold wp.
  destruct (walk_spec w budget currentUrl st) as (urls & Hlog & Hsec & Hlen & H1 & H2 & H3).
  now apply (H urls).
Qed.

Lemma hop_inj (u u' : string) : Kbis.hop u = Kbis.hop u' -> u = u'.
Proof. unfold Kbis.hop, Kbis.get_manual. intros H. now injection H. Qed.

Lemma nth_error_hops (urls : list string) (i : nat) (u : string) :
  nth_error (map Kbis.hop urls) i = Some (Kbis.hop u) -> nth_error urls i = Some u.
Proof.
  rewrite nth_error_map. destruct (nth_error urls i) as [u'|]; [|discriminate].
  cbn. intros H. injection H as H. now rewrite H.
Qed.

(** The events of a run of [login] that went as far as the redirect
    walk. *)
Lemma events_with_hops (st st' : State) (e1 e2 e3 : Event) (urls : list string) :
  log st' = (List.rev (map Kbis.hop urls) ++ e3 :: e2 :: e1 :: log st)%list ->
  run_events st st' = (e1 :: e2 :: e3 :: map Kbis.hop urls)%list.
Proof.
  intros H.
  rewrite (run_events_app st st' (List.rev (map Kbis.hop urls) ++ [e3; e2; e1])%list).
  - rewrite rev_app_distr, rev_involutive. reflexivity.
  - rewrite H, <- List.app_assoc. reflexivity.
Qed.

(** C2.  The redirect walk of the monidenum handshake is bounded.  In
    every run of [login] the calls are requests, the third one being the
    only POST; at most 5 requests follow it, all of them GET requests that
    do not follow redirects; a hop whose answer sets a (non-empty)
    [PHPSESSID] cookie is the last request of the run and its cookie is the
    value returned; a value is only returned when the answer to a hop set
    it; and when every hop was answered and none set the cookie, [login]
    raises the session-cookie-not-found error. *)
Theorem redirect_walk_bounded {rt : Runtime} (email password : string)
    (w : World) (st : State) :
  let out := fst (Kbis.login email password w st) in
  let events := run_events st (snd (Kbis.login email password w st)) in
  let hops := skipn 3 events in
  let n := now_index st in
  (forall i e, nth_error events i = Some e ->
     exists rq, e = Fetch rq /\ (method rq = POST <-> i = 2%nat))
  /\ (List.length hops <= 5)%nat
  /\ (forall e, In e hops -> exists u, e = Fetch (Kbis.get_manual u))
  /\ (forall i u res v,
        nth_error hops i = Some (Fetch (Kbis.get_manual u)) ->
        http w (i + (3 + n)) (Kbis.get_manual u) = Some res ->
        parseCookies res "PHPSESSID" = Some v -> v <> EmptyString ->
        S i = List.length hops /\ out = Returned v)
  /\ (forall v, out = Returned v ->
        v <> EmptyString
        /\ exists i u res,
             nth_error hops i = Some (Fetch (Kbis.get_manual u))
             /\ http w (i + (3 + n)) (Kbis.get_manual u) = Some res
             /\ parseCookies res "PHPSESSID" = Some v)
  /\ (hops <> [] ->
      (forall i u, nth_error hops i = Some (Fetch (Kbis.get_manual u)) ->
         exists res, http w (i + (3 + n)) (Kbis.get_manual u) = Some res
                     /\ falsy (parseCookies res "PHPSESSID") = true) ->
      out = Thrown Kbis.session_not_found).
Proof.
  cbv zeta.
  change (wp w (Kbis.login email password) st (fun out st' =>
    (forall i e, nth_error (run_events st st') i = Some e ->
       exists rq, e = Fetch rq /\ (method rq = POST <-> i = 2%nat))
    /\ (List.length (skipn 3 (run_events st st')) <= 5)%nat
    /\ (forall e, In e (skipn 3 (run_events st st')) -> exists u, e = Fetch (Kbis.get_manual u))
    /\ (forall i u res v,
          nth_error (skipn 3 (run_events st st')) i = Some (Fetch (Kbis.get_manual u)) ->
          http w (i + (3 + now_index st)) (Kbis.get_manual u) = Some res ->
          parseCookies res "PHPSESSID" = Some v -> v <> EmptyString ->
          S i = List.length (skipn 3 (run_events st st')) /\ out = Returned v)
    /\ (forall v, out = Returned v ->
          v <> EmptyString
          /\ exists i u res,
               nth_error (skipn 3 (run_events st st')) i = Some (Fetch (Kbis.get_manual u))
               /\ http w (i + (3 + now_index st)) (Kbis.get_manual u) = Some res
               /\ parseCookies res "PHPSESSID" = Some v)
    /\ (skipn 3 (run_events st st') <> [] ->
        (forall i u, nth_error (skipn 3 (run_events st st')) i
                     = Some (Fetch (Kbis.get_manual u)) ->
           exists res, http w (i + (3 + now_index st)) (Kbis.get_manual u) = Some res
                       /\ falsy (parseCookies res "PHPSESSID") = true) ->
        out = Thrown Kbis.session_not_found))).
  unfold Kbis.login.
  repeat (lazymatch goal with
          | |- wp _ (Kbis.walk _ _) _ _ => fail
          | |- wp _ (bind (Kbis.walk _ _) _) _ _ => apply wp_bind
          | _ => wp_step
          end).
  (* the runs that stop before the walk *)
  all: try solve [
    at_end;
    (split; [|split; [|split; [|split; [|split]]]]);
    [ intros [|[|[|i]]] ev Hi; cbn in Hi; rewrite ?nth_error_nil in Hi; try discriminate Hi;
      injection Hi as <-; eexists; (split; [reflexivity|]);
      cbn; split; intros; (discriminate || lia || reflexivity)
    | cbn; lia
    | cbn; intros ev []
    | intros [|i] u r v Hi; cbn in Hi; discriminate Hi
    | intros v Hv; discriminate Hv
    | cbn; congruence ] ].
  (* the run that walks *)
  apply wp_walk. intros urls st' out Hlog Hsec Hlen Hfirst Hret Hthrow.
  unfold record, now_index in *. cbn [log secrets List.length] in *.
  assert (Hevents := events_with_hops st st' _ _ _ urls Hlog).
  assert (Hidx : forall i, (i + S (S (S (List.length (log st))))
                            = i + (3 + List.length (log st)))%nat) by (intros; lia).
  assert (A : forall i e, nth_error (run_events st st') i = Some e ->
                exists rq, e = Fetch rq /\ (method rq = POST <-> i = 2%nat)).
  { rewrite Hevents. intros [|[|[|i]]] e Hi; cbn [nth_error] in Hi.
    1-3: injection Hi as <-; eexists; (split; [reflexivity|]);
         cbn; split; intros; (discriminate || lia || reflexivity).
    rewrite nth_error_map in Hi. destruct (nth_error urls i) as [u|]; [|discriminate Hi].
    injection Hi as <-. eexists. split; [reflexivity|]. cbn. split; intros; (discriminate || lia). }
  assert (Hhops : skipn 3 (run_events st st') = map Kbis.hop urls) by now rewrite Hevents.
  assert (B : (List.length (map Kbis.hop urls) <= 5)%nat) by (rewrite length_map; exact Hlen).
  assert (C : forall e, In e (map Kbis.hop urls) -> exists u, e = Fetch (Kbis.get_manual u)).
  { intros e He. apply in_map_iff in He as (u & <- & _). now exists u. }
  assert (D : forall i u res v,
            nth_error (map Kbis.hop urls) i = Some (Fetch (Kbis.get_manual u)) ->
            http w (i + (3 + List.length (log st))) (Kbis.get_manual u) = Some res ->
            parseCookies res "PHPSESSID" = Some v -> v <> EmptyString ->
            S i = List.length (map Kbis.hop urls) /\ out = Returned v).
  { intros i u r v Hi Hr Hc Hne. apply nth_error_hops in Hi. rewrite <- Hidx in Hr.
    rewrite length_map. now apply (Hfirst i u r v). }
  assert (E : forall v, out = Returned v -> v <> EmptyString ->
            exists i u res,
              nth_error (map Kbis.hop urls) i = Some (Fetch (Kbis.get_manual u))
              /\ http w (i + (3 + List.length (log st))) (Kbis.get_manual u) = Some res
              /\ parseCookies res "PHPSESSID" = Some v).
  { intros v Hv Hne. destruct (Hret v Hv Hne) as (i & u & r & Hi & Hr & Hc).
    exists i, u, r. rewrite <- Hidx. repeat split; try assumption.
    rewrite nth_error_map, Hi. reflexivity. }
  assert (F : map Kbis.hop urls <> [] ->
            (forall i u, nth_error (map Kbis.hop urls) i = Some (Fetch (Kbis.get_manual u)) ->
               exists res, http w (i + (3 + List.length (log st))) (Kbis.get_manual u) = Some res
                           /\ falsy (parseCookies res "PHPSESSID") = true) ->
            out = Returned EmptyString).
  { intros Hne Hall. destruct out as [v|e].
    - destruct (String.eqb_spec v EmptyString) as [->|Hv]; [reflexivity|].
      destruct (E v eq_refl Hv) as (i & u & r & Hi & Hr & Hc).
      destruct (Hall i u Hi) as (r' & Hr' & Hfalsy).
      rewrite Hr in Hr'. injection Hr' as <-. rewrite Hc in Hfalsy.
      apply falsy_set in Hv. congruence.
    - destruct (Hthrow e eq_refl) as (_ & u & Hu & Hnone).
      rewrite Hidx in Hnone.
      destruct (Hall (List.length urls - 1)%nat u) as (r' & Hr' & _).
      { rewrite nth_error_map, Hu. reflexivity. }
      congruence. }
  destruct out as [v|e]; cbv beta iota.
  - destruct (String.eqb_spec v EmptyString) as [->|Hv].
    + apply wp_throw. rewrite Hhops.
      split; [exact A|split; [exact B|split; [exact C|split; [|split]]]].
      * intros i u r v Hi Hr Hc Hne. destruct (D i u r v Hi Hr Hc Hne) as [_ Hout].
        injection Hout as <-. congruence.
      * discriminate.
      * reflexivity.
    + apply wp_ret. rewrite Hhops.
      split; [exact A|split; [exact B|split; [exact C|split; [|split]]]].
      * exact D.
      * intros v' Hv'. injection Hv' as <-. split; [exact Hv|]. now apply E.
      * intros Hne Hall. specialize (F Hne Hall). injection F as ->. congruence.
  - rewrite Hhops.
      split; [exact A|split; [exact B|split; [exact C|split; [|split]]]].
    + intros i u r v Hi Hr Hc Hne. destruct (D i u r v Hi Hr Hc Hne) as [_ Hout].
      discriminate Hout.
    + discriminate.
    + intros Hne Hall. specialize (F Hne Hall). discriminate F.
Qed.

(** Five hops without the cookie: the error is raised and the sixth answer
    is never asked for.  A cookie at the second hop: it is returned and the
    walk ends there. *)
Lemma redirect_walk_bounded_witness :
  (fst (Kbis.login (rt := Sample.runtime) "a@b.fr" "pw" Sample.kbis_five_hops (Sample.start ∅))
   = Thrown Kbis.session_not_found
   /\ (List.length (skipn 3 (run_events (Sample.start ∅)
         (snd (Kbis.login (rt := Sample.runtime) "a@b.fr" "pw" Sample.kbis_five_hops
                 (Sample.start ∅))))) <= 5)%nat)
  /\ fst (Kbis.login (rt := Sample.runtime) "a@b.fr" "pw" Sample.kbis_second_hop
            (Sample.start ∅))
     = Returned "abc123".
Proof.
  split.
  - destruct (redirect_walk_bounded (rt := Sample.runtime) "a@b.fr" "pw"
                Sample.kbis_five_hops (Sample.start ∅)) as (_ & Hlen & _ & _ & _ & Hnone).
    split; [|exact Hlen]. apply Hnone.
    + vm_compute. discriminate.
    + intros i u Hi. vm_compute in Hi.
      do 5 (destruct i as [|i]; [injection Hi as <-; eexists; split; vm_compute; reflexivity|]).
      destruct i; discriminate Hi.
  - destruct (redirect_walk_bounded (rt := Sample.runtime) "a@b.fr" "pw"
                Sample.kbis_second_hop (Sample.start ∅)) as (_ & _ & _ & Hfirst & _).
    refine (proj2 (Hfirst 1%nat "https://monidenum.fr/sso/2" (Sample.with_session "abc123")
                     "abc123" _ _ _ _)).
    + vm_compute. reflexivity.
    + vm_compute. reflexivity.
    + vm_compute. reflexivity.
    + discriminate.
Defined.

(** What [login] does once the login POST is answered. *)
Lemma login_after_post {rt : Runtime} (email password : string) (w : World) (st : State)
    (lp page r3 : Response) (kc action : string) :
  http w (now_index st) (Kbis.get_manual "https://monidenum.fr/login") = Some lp ->
  location lp = Some kc ->
  http w (1 + now_index st) (Kbis.get_follow kc) = Some page ->
  Regex.match_action (text page) = Some action ->
  http w (2 + now_index st)
    (Kbis.login_post (Str.replaceAll action "&amp;" "&") (Kbis.authCookies page) email password)
  = Some r3 ->
  let st3 :=
    {| secrets := secrets st;
       log := Fetch (Kbis.login_post (Str.replaceAll action "&amp;" "&")
                       (Kbis.authCookies page) email password)
              :: Fetch (Kbis.get_follow kc)
              :: Fetch (Kbis.get_manual "https://monidenum.fr/login") :: log st |} in
  Kbis.login email password w st
  = if negb (status r3 =? 302)%Z then (Thrown (Kbis.rejected (text r3)), st3)
    else if falsy (location r3) || negb (Str.includes (unwrap (location r3)) "monidenum.fr")
    then (Thrown Kbis.unexpected_redirect, st3)
    else bind (Kbis.walk 5 (unwrap (location r3)))
           (fun phpsessid =>
              if String.eqb phpsessid EmptyString then throw Kbis.session_not_found
              else ret phpsessid) w st3.
Proof.
  intros Hlp Hkc Hpage Haction Hpost st3. subst st3.
  unfold Kbis.login, bind, fetch, lift, now_index, record in *.
  cbn [log List.length secrets Nat.add] in *.
  rewrite Hlp, Hkc. cbn [of_option log List.length secrets]. rewrite Hpage.
  cbv zeta. rewrite Haction. cbn [log List.length secrets]. rewrite Hpost.
  destruct (negb (status r3 =? 302)%Z); [reflexivity|].
  destruct (falsy (location r3) || negb (Str.includes (unwrap (location r3)) "monidenum.fr"));
    reflexivity.
Qed.

(** ** The password prompt *)

(** C6, as the code has it.  [askPassword] runs [stty -echo], waits for a
    line and runs [stty echo], one after the other and without a guard
    around them.  In every run in which [stty -echo] succeeded, [stty echo]
    is run after it, before [askPassword] returns or throws; when
    [askPassword] returns, the last of the two switches that succeeded is
    [stty echo], so the echo is on.  When [stty -echo] fails, its error
    propagates and [stty echo] is not run; when [stty echo] fails, its error
    propagates and the echo is left off. *)
Theorem askPassword_echo (prompt : string) (w : World) (st : State) :
  let out := fst (askPassword prompt w st) in
  let events := run_events st (snd (askPassword prompt w st)) in
  let n := now_index st in
  (In (Shell "stty -echo" true) events ->
     exists ok, followed_by (Shell "stty -echo" true) (Shell "stty echo" ok) events)
  /\ (forall password echo, out = Returned password -> echo_after events echo = true)
  /\ (shell w (1 + n) "stty -echo" = false ->
      out = Thrown (ShellError "stty -echo")
      /\ events = [StdoutWrite prompt; Shell "stty -echo" false])
  /\ (shell w (1 + n) "stty -echo" = true -> shell w (3 + n) "stty echo" = false ->
      out = Thrown (ShellError "stty echo")
      /\ events = [StdoutWrite prompt; Shell "stty -echo" true; StdinData;
                   Shell "stty echo" false]
      /\ echo_after events true = false)
  /\ (shell w (1 + n) "stty -echo" = true -> shell w (3 + n) "stty echo" = true ->
      out = Returned (Str.trim (stdin w (2 + n)))
      /\ events = [StdoutWrite prompt; Shell "stty -echo" true; StdinData;
                   Shell "stty echo" true; StdoutWrite newline]).
Proof.
  cbv zeta.
  change (wp w (askPassword prompt) st (fun out st' =>
    (In (Shell "stty -echo" true) (run_events st st') ->
       exists ok, followed_by (Shell "stty -echo" true) (Shell "stty echo" ok)
                    (run_events st st'))
    /\ (forall password echo, out = Returned password ->
          echo_after (run_events st st') echo = true)
    /\ (shell w (1 + now_index st) "stty -echo" = false ->
        out = Thrown (ShellError "stty -echo")
        /\ run_events st st' = [StdoutWrite prompt; Shell "stty -echo" false])
    /\ (shell w (1 + now_index st) "stty -echo" = true ->
        shell w (3 + now_index st) "stty echo" = false ->
        out = Thrown (ShellError "stty echo")
        /\ run_events st st' = [StdoutWrite prompt; Shell "stty -echo" true; StdinData;
                                Shell "stty echo" false]
        /\ echo_after (run_events st st') true = false)
    /\ (shell w (1 + now_index st) "stty -echo" = true ->
        shell w (3 + now_index st) "stty echo" = true ->
        out = Returned (Str.trim (stdin w (2 + now_index st)))
        /\ run_events st st' = [StdoutWrite prompt; Shell "stty -echo" true; StdinData;
                                Shell "stty echo" true; StdoutWrite newline]))).
  unfold askPassword. wp_run.
  all: at_end; cbn [Nat.add].
  all: split; [|split; [|split; [|split]]].
  all: try (intros; congruence).
  all: try (intros; repeat split; reflexivity).
  - intros _. exists true. exists [StdoutWrite prompt], [StdinData], [StdoutWrite newline].
    reflexivity.
  - intros _. exists false. exists [StdoutWrite prompt], [StdinData], []. reflexivity.
  - intros Hin. cbn [In] in Hin. destruct Hin as [Hin|[Hin|[]]]; discriminate Hin.
Qed.

(** A terminal where both commands succeed: the password typed is returned
    trimmed and the echo is on again. *)
Lemma askPassword_echo_witness :
  fst (askPassword "Mot de passe: " Sample.tty (Sample.start ∅)) = Returned "hunter2"
  /\ echo_after (run_events (Sample.start ∅)
                   (snd (askPassword "Mot de passe: " Sample.tty (Sample.start ∅)))) false
     = true.
Proof.
  destruct (askPassword_echo "Mot de passe: " Sample.tty (Sample.start ∅))
    as (_ & Hecho & _ & _ & Hok).
  destruct (Hok eq_refl eq_refl) as [Hout _].
  split; [exact Hout|]. exact (Hecho _ false Hout).
Defined.

(** C6 as the specification words it fails on both failure paths.  Without
    a terminal, [stty -echo] is run and fails, and the error propagates
    without [stty echo] being run.  On a terminal where [stty -echo]
    succeeds and [stty echo] fails, the error propagates and the echo is
    left off. *)
Lemma askPassword_echo_counterexample :
  (fst (askPassword "Mot de passe: " Sample.no_tty (Sample.start ∅))
   = Thrown (ShellError "stty -echo")
   /\ run_events (Sample.start ∅)
        (snd (askPassword "Mot de passe: " Sample.no_tty (Sample.start ∅)))
      = [StdoutWrite "Mot de passe: "; Shell "stty -echo" false])
  /\ (fst (askPassword "Mot de passe: " Sample.echo_stuck (Sample.start ∅))
      = Thrown (ShellError "stty echo")
      /\ run_events (Sample.start ∅)
           (snd (askPassword "Mot de passe: " Sample.echo_stuck (Sample.start ∅)))
         = [StdoutWrite "Mot de passe: "; Shell "stty -echo" true; StdinData;
            Shell "stty echo" false]
      /\ echo_after (run_events (Sample.start ∅)
           (snd (askPassword "Mot de passe: " Sample.echo_stuck (Sample.start ∅)))) true
         = false).
Proof. repeat split; vm_compute; reflexivity. Qed.

(** ** The totals of the schedule *)

Section Totals.

Variable number : Type.
Variable zero : number.
Variable plus : number -> number -> number.
Variable toLocaleString_fr : number -> string.
Variable toLowerCase : string -> string.

Let visit := Urssaf.visit plus toLocaleString_fr toLowerCase.
Let ligne := Urssaf.ligne toLocaleString_fr toLowerCase.

(** The sum of a list of amounts, taken from left to right from [zero]. *)
Let sum (amounts : list number) : number := fold_left plus amounts zero.

Lemma fold_visit (echeances : list (Urssaf.Echeance number)) :
  forall t0 t1 t2 lignes,
    fold_left visit echeances ((t0, t1, t2), lignes)
    = ((fold_left plus (map Urssaf.montantTotal echeances) t0,
        fold_left plus (map Urssaf.montantPaye echeances) t1,
        fold_left plus (map Urssaf.montantNonPaye echeances) t2),
       (lignes ++ map ligne echeances)%list).
Proof.
  induction echeances as [|e es IH]; intros t0 t1 t2 lignes; cbn [fold_left map].
  - now rewrite app_nil_r.
  - unfold visit at 2. cbn [Urssaf.visit]. rewrite IH. now rewrite <- List.app_assoc.
Qed.

(** C9.  For every list of schedule entries, the three cells of [totaux]
    after the single pass of [echeances.map] are the sums, taken from left
    to right from 0, of [montantTotal], of [paiement.montantPaye] and of
    [montantNonPaye] over all the entries; the rows are those of the
    entries in order; and what [printEcheances] prints last is the totals
    block made of these three sums, each formatted as euros and padded to
    12 characters. *)
Theorem printed_totals_are_sums (echeances : list (Urssaf.Echeance number)) :
  let totaux :=
    (sum (map Urssaf.montantTotal echeances),
     sum (map Urssaf.montantPaye echeances),
     sum (map Urssaf.montantNonPaye echeances)) in
  Urssaf.accumulate zero plus toLocaleString_fr toLowerCase echeances
  = (totaux, map ligne echeances)
  /\ nth_error (Urssaf.printEcheances zero plus toLocaleString_fr toLowerCase echeances) 2
     = Some (Urssaf.Log (Urssaf.totaux_text toLocaleString_fr totaux))
  /\ Urssaf.totaux_text toLocaleString_fr totaux
     = newline ++ Urssaf.esc ++ "[96m 💰 TOTAUX" ++ Urssaf.esc ++ "[0m" ++ newline ++ newline
       ++ "  " ++ Urssaf.padEnd "Total :" 12 ++ " "
       ++ Urssaf.padStart
            (toLocaleString_fr (sum (map Urssaf.montantTotal echeances)) ++ " €") 12
       ++ newline
       ++ "  " ++ Urssaf.padEnd "Payé :" 12 ++ " "
       ++ Urssaf.padStart
            (toLocaleString_fr (sum (map Urssaf.montantPaye echeances)) ++ " €") 12
       ++ newline
       ++ "  " ++ Urssaf.padEnd "Restant dû :" 12 ++ " "
       ++ Urssaf.padStart
            (toLocaleString_fr (sum (map Urssaf.montantNonPaye echeances)) ++ " €") 12
       ++ newline.
Proof.
  intros totaux.
  assert (H : Urssaf.accumulate zero plus toLocaleString_fr toLowerCase echeances
              = (totaux, map ligne echeances)).
  { unfold Urssaf.accumulate. now rewrite fold_visit. }
  split; [exact H|]. split; [|reflexivity].
  unfold Urssaf.printEcheances. rewrite H. reflexivity.
Qed.

End Totals.

(** Two entries with amounts in cents: the totals are the three sums. *)
Example totals_of_two_entries :
  fst (Urssaf.accumulate 0%Z Z.add (fun z => JSON.number z) (fun s => s)
         [ {| Urssaf.montantTotal := 120000%Z; Urssaf.montantNonPaye := 20000%Z;
              Urssaf.montantPaye := 100000%Z; Urssaf.dateExigibilite := "2024-02-05";
              Urssaf.etatEcheance := "PAYEE" |};
           {| Urssaf.montantTotal := 80050%Z; Urssaf.montantNonPaye := 80050%Z;
              Urssaf.montantPaye := 0%Z; Urssaf.dateExigibilite := "2024-05-05";
              Urssaf.etatEcheance := "A_VENIR" |} ])
  = (200050%Z, 100000%Z, 100050%Z).
Proof. reflexivity. Qed.

Example lignes_of_two_entries :
  map (fun l => (Urssaf.Date l, Urssaf.Etat l))
    (snd (Urssaf.accumulate 0%Z Z.add (fun z => JSON.number z) (fun s => "payee")
         [ {| Urssaf.montantTotal := 120000%Z; Urssaf.montantNonPaye := 20000%Z;
              Urssaf.montantPaye := 100000%Z; Urssaf.dateExigibilite := "2024-02-05";
              Urssaf.etatEcheance := "PAYEE" |} ]))
  = [("05/02/2024", "payée")].
Proof. reflexivity. Qed.

(** * Further properties of the code *)

(** ** Consequence and framing for [wp] *)

Lemma wp_mono {A} (w : World) (m : M A) (st : State) (Q Q' : Outcome A -> State -> Prop) :
  wp w m st Q -> (forall o s, Q o s -> Q' o s) -> wp w m st Q'.
Proof. unfold wp. intros H HQ. now apply HQ. Qed.

Lemma wp_run_pair {A} (w : World) (m : M A) (st : State) (Q : Outcome A -> State -> Prop) :
  wp w m st Q <-> (forall o st', m w st = (o, st') -> Q o st').
Proof.
  unfold wp. split.
  - intros H o st' E. now rewrite E in H.
  - intros H. apply H. now destruct (m w st).
Qed.

Lemma wp_equation {A} (w : World) (m : M A) (st : State) (r : Outcome A * State) :
  wp w m st (fun o s => (o, s) = r) -> m w st = r.
Proof. unfold wp. now destruct (m w st). Qed.

(** ** The credential store of [utils.ts] *)

Lemma parse_credentials (login password : string) :
  JSON.parse (JSON.stringify (Credentials login password)) = Some (Credentials login password).
Proof.
  apply (JSONShapes.parse_of_value 4).
  - intros f. unfold Credentials. rewrite JSONShapes.stringify_fields2. cbn [JSON.stringify].
    apply JSONShapes.value_object. eapply JSONShapes.members_cons; [apply JSONFacts.value_quote|].
    apply JSONShapes.members_last. apply JSONFacts.value_quote.
  - unfold Credentials. rewrite JSONShapes.stringify_fields2, !length_append. simpl. lia.
Qed.

Lemma stringify_credentials_nonempty (login password : string) :
  String.eqb (JSON.stringify (Credentials login password)) EmptyString = false.
Proof. unfold Credentials. now rewrite JSONShapes.stringify_fields2. Qed.

Lemma getCredentials_stored (s : ServiceName) (login password : string) (w : World) (st : State) :
  secrets st !! (KEYCHAIN_SERVICE, service_name s)
    = Some (JSON.stringify (Credentials login password)) ->
  getCredentials s w st
  = (Returned (Credentials login password),
     record (SecretsGet KEYCHAIN_SERVICE (service_name s)) st).
Proof.
  intros H. unfold getCredentials, bind, secrets_get. rewrite H.
  rewrite stringify_credentials_nonempty. unfold lift, JSON_parse.
  now rewrite parse_credentials.
Qed.

(** X1.  Stored credentials are read back.  For every service and all
    strings [login] and [password], [getCredentials] after
    [setCredentials] returns the object [{login, password}] and leaves the
    keychain as [setCredentials] left it. *)
Theorem credentials_round_trip (s : ServiceName) (login password : string)
    (w w' : World) (st : State) :
  let st1 := snd (setCredentials s login password w st) in
  fst (setCredentials s login password w st) = Returned tt
  /\ fst (getCredentials s w' st1) = Returned (Credentials login password)
  /\ secrets (snd (getCredentials s w' st1)) = secrets st1.
Proof.
  intros st1. split; [reflexivity|].
  rewrite (getCredentials_stored s login password w' st1); [now split|].
  apply lookup_insert_eq.
Qed.

(** X2.  Deleting credentials is idempotent and never fails: after
    [deleteCredentials] the entry is absent, a second [deleteCredentials]
    returns as well and changes nothing, and [getCredentials] then
    answers [null]. *)
Theorem deleteCredentials_idempotent (s : ServiceName) (w w' w'' : World) (st : State) :
  let st1 := snd (deleteCredentials s w st) in
  let st2 := snd (deleteCredentials s w' st1) in
  fst (deleteCredentials s w st) = Returned tt
  /\ secrets st1 !! (KEYCHAIN_SERVICE, service_name s) = None
  /\ fst (deleteCredentials s w' st1) = Returned tt
  /\ secrets st2 = secrets st1
  /\ fst (getCredentials s w'' st2) = Returned JNull.
Proof.
  intros st1 st2.
  assert (Hgone : secrets st1 !! (KEYCHAIN_SERVICE, service_name s) = None)
    by apply lookup_delete_eq.
  assert (Hsame : secrets st2 = secrets st1).
  { unfold st2, deleteCredentials, secrets_delete. cbn [snd secrets].
    now apply delete_id. }
  repeat split; try assumption.
  unfold getCredentials, bind, secrets_get. now rewrite Hsame, Hgone.
Qed.

Lemma getOrPromptCredentials_stored (s : ServiceName) (loginPrompt login password : string)
    (w : World) (st : State) :
  secrets st !! (KEYCHAIN_SERVICE, service_name s)
    = Some (JSON.stringify (Credentials login password)) ->
  getOrPromptCredentials s loginPrompt w st
  = (Returned (Credentials login password),
     record (SecretsGet KEYCHAIN_SERVICE (service_name s)) st).
Proof.
  intros H. unfold getOrPromptCredentials, bind.
  rewrite (getCredentials_stored s login password w st H). reflexivity.
Qed.

(** X3.  Stored credentials are used as they are.  When the keychain holds
    the credentials [{login, password}] of a service,
    [getOrPromptCredentials] returns them after the one read of the
    keychain: it writes no prompt, reads no line, runs no command and
    leaves the keychain alone. *)
Theorem getOrPromptCredentials_uses_stored (s : ServiceName) (loginPrompt login password : string)
    (w : World) (st : State) :
  secrets st !! (KEYCHAIN_SERVICE, service_name s)
    = Some (JSON.stringify (Credentials login password)) ->
  let st' := snd (getOrPromptCredentials s loginPrompt w st) in
  fst (getOrPromptCredentials s loginPrompt w st) = Returned (Credentials login password)
  /\ run_events st st' = [SecretsGet KEYCHAIN_SERVICE (service_name s)]
  /\ secrets st' = secrets st.
Proof.
  intros H st'. unfold st'. rewrite (getOrPromptCredentials_stored s _ _ _ w st H).
  cbn [fst snd]. repeat split.
  now rewrite (run_events_app st _ [SecretsGet KEYCHAIN_SERVICE (service_name s)]).
Qed.

Lemma getOrPromptCredentials_uses_stored_witness :
  fst (getOrPromptCredentials urssaf "Login (SIRET): " (Sample.at_time 0)
         (Sample.start {[ (KEYCHAIN_SERVICE, "urssaf")
                          := JSON.stringify (Credentials "12345678900011" "hunter2") ]}))
  = Returned (Credentials "12345678900011" "hunter2").
Proof.
  apply (getOrPromptCredentials_uses_stored urssaf "Login (SIRET): " "12345678900011" "hunter2"
           (Sample.at_time 0)).
  apply lookup_singleton_eq.
Defined.

(** X4.  The first run prompts and remembers.  When the keychain has no
    (or an empty) entry for the service and both [stty] commands succeed,
    [getOrPromptCredentials] writes the login prompt, reads a line, writes
    the password prompt, reads a second line with the echo switched off
    around it, pauses the input, stores [{login, password}] -- the two lines
    trimmed -- under the key of the service and returns that object; a
    second call then returns the same object without prompting. *)
Theorem getOrPromptCredentials_prompts_once (s : ServiceName) (loginPrompt : string)
    (w w' : World) (st : State) :
  let n := now_index st in
  let login := Str.trim (stdin w (2 + n)) in
  let password := Str.trim (stdin w (5 + n)) in
  let creds := Credentials login password in
  let st' := snd (getOrPromptCredentials s loginPrompt w st) in
  falsy (secrets st !! (KEYCHAIN_SERVICE, service_name s)) = true ->
  shell w (4 + n) "stty -echo" = true ->
  shell w (6 + n) "stty echo" = true ->
  fst (getOrPromptCredentials s loginPrompt w st) = Returned creds
  /\ run_events st st'
     = [SecretsGet KEYCHAIN_SERVICE (service_name s);
        StdoutWrite loginPrompt; StdinData;
        StdoutWrite "Mot de passe: "; Shell "stty -echo" true; StdinData;
        Shell "stty echo" true; StdoutWrite newline;
        StdinPause;
        SecretsSet KEYCHAIN_SERVICE (service_name s) (JSON.stringify creds);
        ConsoleLog "Identifiants sauvegardés dans le trousseau."]
  /\ secrets st' = <[(KEYCHAIN_SERVICE, service_name s) := JSON.stringify creds]> (secrets st)
  /\ fst (getOrPromptCredentials s loginPrompt w' st') = Returned creds
  /\ run_events st' (snd (getOrPromptCredentials s loginPrompt w' st'))
     = [SecretsGet KEYCHAIN_SERVICE (service_name s)].
Proof.
  intros n login password creds st' Hnone Hoff Hon.
  assert (Hrun : getOrPromptCredentials s loginPrompt w st
    = (Returned creds,
       {| secrets := <[(KEYCHAIN_SERVICE, service_name s) := JSON.stringify creds]> (secrets st);
          log := [ConsoleLog "Identifiants sauvegardés dans le trousseau.";
                  SecretsSet KEYCHAIN_SERVICE (service_name s) (JSON.stringify creds);
                  StdinPause; StdoutWrite newline; Shell "stty echo" true; StdinData;
                  Shell "stty -echo" true; StdoutWrite "Mot de passe: "; StdinData;
                  StdoutWrite loginPrompt; SecretsGet KEYCHAIN_SERVICE (service_name s)]
                 ++ log st |})).
  { apply wp_equation.
    unfold n, now_index in Hoff, Hon. cbn [Nat.add] in Hoff, Hon.
    unfold creds, login, password, n.
    unfold getOrPromptCredentials, getCredentials, ask, askPassword, setCredentials.
    wp_run; at_end; cbn [Nat.add]; unfold falsy in Hnone;
      first [reflexivity | discriminate | congruence]. }
  assert (Hst' : secrets st' !! (KEYCHAIN_SERVICE, service_name s)
                 = Some (JSON.stringify creds)).
  { unfold st'. rewrite Hrun. cbn [snd secrets]. apply lookup_insert_eq. }
  pose proof (getOrPromptCredentials_stored s loginPrompt login password w' st' Hst')
    as Hagain.
  split; [now rewrite Hrun|].
  split; [unfold st'; rewrite Hrun; cbn [snd]; now erewrite run_events_app by reflexivity|].
  split; [unfold st'; now rewrite Hrun|].
  rewrite Hagain. cbn [fst snd]. split; [reflexivity|].
  now rewrite (run_events_app st' _ [SecretsGet KEYCHAIN_SERVICE (service_name s)]).
Qed.

Lemma getOrPromptCredentials_prompts_once_witness :
  fst (getOrPromptCredentials kbis "Email monidenum.fr: " (Sample.world [] 0 " alice " true)
         (Sample.start ∅))
  = Returned (Credentials "alice" "alice").
Proof.
  apply (getOrPromptCredentials_prompts_once kbis "Email monidenum.fr: "
           (Sample.world [] 0 " alice " true) (Sample.at_time 0) (Sample.start ∅));
    reflexivity.
Defined.

(** ** The session cache of [utils.ts] *)

(** X5.  What [getSessionToken] may do to the keychain.  In every run,
    whatever the keychain holds and whatever the clock reads, either the
    keychain is left as it was, or the session entry of the service was
    deleted and the answer is [null]; nothing is ever written. *)
Theorem getSessionToken_only_evicts {rt : Runtime} (s : ServiceName) (w : World) (st : State) :
  let st' := snd (getSessionToken s w st) in
  secrets st' = secrets st
  \/ (secrets st' = delete (KEYCHAIN_SERVICE, sessionKey s) (secrets st)
      /\ fst (getSessionToken s w st) = Returned (Some JNull)).
Proof.
  cbv zeta.
  change (wp w (getSessionToken s) st (fun o st' =>
    secrets st' = secrets st
    \/ (secrets st' = delete (KEYCHAIN_SERVICE, sessionKey s) (secrets st)
        /\ o = Returned (Some JNull)))).
  unfold getSessionToken. wp_run; at_end; auto.
Qed.

(** X6.  An entry that is not JSON is reported and kept.  When the session
    entry holds a non-empty text that [JSON.parse] refuses,
    [getSessionToken] throws the [SyntaxError] right after reading the
    keychain: it does not read the clock and does not delete the entry. *)
Theorem getSessionToken_corrupt_entry {rt : Runtime} (s : ServiceName) (stored : string)
    (w : World) (st : State) :
  secrets st !! (KEYCHAIN_SERVICE, sessionKey s) = Some stored ->
  stored <> EmptyString ->
  JSON.parse stored = None ->
  getSessionToken s w st
  = (Thrown SyntaxError, record (SecretsGet KEYCHAIN_SERVICE (sessionKey s)) st).
Proof.
  intros Hs Hne Hparse. unfold getSessionToken, bind, secrets_get. rewrite Hs.
  unfold falsy. destruct (String.eqb_spec stored EmptyString) as [->|_]; [congruence|].
  unfold lift, JSON_parse. cbn [unwrap]. now rewrite Hparse.
Qed.

Lemma getSessionToken_corrupt_entry_witness :
  getSessionToken (rt := Sample.runtime) kbis (Sample.at_time 0)
    (Sample.start {[ (KEYCHAIN_SERVICE, "kbis-session") := "PHPSESSID=abc" ]})
  = (Thrown SyntaxError,
     record (SecretsGet KEYCHAIN_SERVICE "kbis-session")
       (Sample.start {[ (KEYCHAIN_SERVICE, "kbis-session") := "PHPSESSID=abc" ]})).
Proof.
  apply (getSessionToken_corrupt_entry (rt := Sample.runtime) kbis "PHPSESSID=abc").
  - apply lookup_singleton_eq.
  - discriminate.
  - reflexivity.
Defined.

Lemma parse_token_only (token : string) :
  JSON.parse (JSON.stringify (JObj [("token", JStr token)])) = Some (JObj [("token", JStr token)]).
Proof.
  apply (JSONShapes.parse_of_value 3).
  - intros f. rewrite JSONShapes.stringify_fields1. cbn [JSON.stringify].
    apply JSONShapes.value_object, JSONShapes.members_last, JSONFacts.value_quote.
  - rewrite JSONShapes.stringify_fields1, !length_append. simpl. lia.
Qed.

(** X7.  An entry without [expiresAt] never expires.  When the session
    entry is the JSON text of [{token}], with no [expiresAt],
    [getSessionToken] returns the token whatever the clock reads and keeps
    the entry: the comparison of the time with [undefined] is false. *)
Theorem getSessionToken_without_expiry {rt : Runtime} (s : ServiceName) (token : string)
    (w : World) (st : State) :
  secrets st !! (KEYCHAIN_SERVICE, sessionKey s)
    = Some (JSON.stringify (JObj [("token", JStr token)])) ->
  getSessionToken s w st
  = (Returned (Some (JStr token)),
     record DateNow (record (SecretsGet KEYCHAIN_SERVICE (sessionKey s)) st)).
Proof.
  intros Hs. unfold getSessionToken, bind, secrets_get. rewrite Hs.
  assert (Hne : falsy (Some (JSON.stringify (JObj [("token", JStr token)]))) = false)
    by now rewrite JSONShapes.stringify_fields1.
  rewrite Hne. unfold lift, JSON_parse. cbn [unwrap]. rewrite parse_token_only.
  reflexivity.
Qed.

Lemma getSessionToken_without_expiry_witness :
  fst (getSessionToken (rt := Sample.runtime) kbis (Sample.at_time 99999999999999)
         (Sample.start {[ (KEYCHAIN_SERVICE, "kbis-session")
                          := JSON.stringify (JObj [("token", JStr "abc")]) ]}))
  = Returned (Some (JStr "abc")).
Proof.
  refine (f_equal fst (getSessionToken_without_expiry (rt := Sample.runtime) kbis "abc"
                         (Sample.at_time 99999999999999) _ _)).
  apply lookup_singleton_eq.
Defined.

(** ** The legacy handshake of [mon-kbis.ts] *)

(** The redirect walk adds nothing but its own requests to the log, at
    most [budget] of them, and leaves the keychain alone; it fails only
    when a request does. *)
Lemma walk_adds_hops {rt : Runtime} (w : World) (budget : nat) :
  forall url st,
    wp w (Kbis.walk budget url) st (fun o st' =>
      secrets st' = secrets st
      /\ (exists new, log st' = (new ++ log st)%list
                      /\ (List.length new <= budget)%nat /\ Forall KbisCli.is_hop new)
      /\ (forall e, o = Thrown e -> e = FetchError)).
Proof.
  induction budget as [|k IH]; intros url st; cbn [Kbis.walk].
  - wp_run. split; [reflexivity|]. split; [|discriminate].
    exists []. repeat split; auto.
  - wp_run.
    + split; [reflexivity|]. split; [|discriminate].
      exists [Fetch (Kbis.get_manual url)]. repeat split; cbn; [lia|].
      repeat constructor. now exists url.
    + split; [reflexivity|]. split; [|discriminate].
      exists [Fetch (Kbis.get_manual url)]. repeat split; cbn; [lia|].
      repeat constructor. now exists url.
    + eapply wp_mono; [apply IH|].
      intros o1 s1 (Hsec & (new & Hlog & Hlen & Hall) & Herr).
      split; [exact Hsec|]. split; [|exact Herr].
      exists (new ++ [Fetch (Kbis.get_manual url)])%list.
      rewrite Hlog, <- app_assoc, length_app. cbn. repeat split; [lia|].
      apply Forall_app. split; [exact Hall|]. repeat constructor. now exists url.
    + split; [reflexivity|]. split; [|now intros e [= <-]].
      exists [Fetch (Kbis.get_manual url)]. repeat split; cbn; [lia|].
      repeat constructor. now exists url.
Qed.

(** X8.  How the legacy login can fail, and what it leaves alone.  In
    every run of [login] of [mon-kbis.ts], whatever the servers answer, the
    keychain is left as it was, and an error thrown is one of six: a
    request that failed, the [TypeError] of a first answer without
    [location], the form-action error, the rejection carrying the message
    of the page, the unexpected-redirect error, or the
    session-cookie-not-found error. *)
Theorem kbis_login_failures {rt : Runtime} (email password : string) (w : World) (st : State) :
  secrets (snd (Kbis.login email password w st)) = secrets st
  /\ forall e, fst (Kbis.login email password w st) = Thrown e ->
       e = FetchError
       \/ (e = TypeError
           /\ exists first, http w (now_index st) (Kbis.get_manual "https://monidenum.fr/login")
                            = Some first /\ location first = None)
       \/ e = Kbis.unknown_action
       \/ (exists page, e = Kbis.rejected page)
       \/ e = Kbis.unexpected_redirect
       \/ e = Kbis.session_not_found.
Proof.
  change (wp w (Kbis.login email password) st (fun o st' =>
    secrets st' = secrets st
    /\ forall e, o = Thrown e ->
         e = FetchError
         \/ (e = TypeError
             /\ exists first, http w (now_index st) (Kbis.get_manual "https://monidenum.fr/login")
                              = Some first /\ location first = None)
         \/ e = Kbis.unknown_action
         \/ (exists page, e = Kbis.rejected page)
         \/ e = Kbis.unexpected_redirect
         \/ e = Kbis.session_not_found)).
  unfold Kbis.login. wp_run.
  all: try (split; [reflexivity|]; intros e0 [= <-]; eauto 10; fail).
  2: { split; [reflexivity|]. intros e0 [= <-].
       match goal with
       | H : of_option _ (location ?r) = Thrown _ |- _ =>
           destruct (location r) eqn:Hloc; [discriminate H | injection H as <-]
       end.
       right. left. eauto. }
  eapply wp_mono; [apply walk_adds_hops|].
  intros o1 s1 (Hsec & _ & Herr).
  destruct o1 as [v|e1].
  - wp_run; (split; [exact Hsec|]); intros e0 He0; [|discriminate He0].
    injection He0 as <-. eauto 10.
  - split; [exact Hsec|]. intros e0 [= <-]. left. now apply Herr.
Qed.

Lemma kbis_login_failures_witness :
  Kbis.rejected (text Sample.post_rejected) = FetchError
  \/ (Kbis.rejected (text Sample.post_rejected) = TypeError
      /\ exists first, http Sample.kbis_rejected (now_index (Sample.start ∅))
                         (Kbis.get_manual "https://monidenum.fr/login")
                       = Some first /\ location first = None)
  \/ Kbis.rejected (text Sample.post_rejected) = Kbis.unknown_action
  \/ (exists page, Kbis.rejected (text Sample.post_rejected) = Kbis.rejected page)
  \/ Kbis.rejected (text Sample.post_rejected) = Kbis.unexpected_redirect
  \/ Kbis.rejected (text Sample.post_rejected) = Kbis.session_not_found.
Proof.
  apply (proj2 (kbis_login_failures (rt := Sample.runtime) "marie@example.org" "hunter2"
                  Sample.kbis_rejected (Sample.start ∅))).
  vm_compute. reflexivity.
Defined.

(** *** What the form-action expression captures *)

Lemma after_app (p s r : string) : Str.after p s = Some r -> s = p ++ r.
Proof.
  revert s. induction p as [|a p IH]; intros s H; simpl in H.
  - now injection H as ->.
  - destruct s as [|b s]; [discriminate|].
    destruct (Ascii.eqb_spec a b) as [->|]; [|discriminate].
    simpl. f_equal. now apply IH.
Qed.

Lemma span_app (f : ascii -> bool) (s a b : string) :
  Str.span f s = (a, b) ->
  s = a ++ b
  /\ every f a = true
  /\ match b with String c _ => f c = false | EmptyString => True end.
Proof.
  revert a b. induction s as [|c s IH]; intros a b H; simpl in H.
  - injection H as <- <-. repeat split.
  - destruct (f c) eqn:Hc.
    + destruct (Str.span f s) as [a' b'] eqn:E. injection H as <- <-.
      destruct (IH a' b' eq_refl) as (-> & Hall & Hb).
      repeat split; [|exact Hb]. simpl. now rewrite Hc, Hall.
    + injection H as <- <-. repeat split. exact Hc.
Qed.

(** The capture of the form-action expression is a non-empty text without
    a double quote that stands in the page between [action=] with its
    opening quote and a closing quote. *)
Lemma match_action_sound (html action : string) :
  Regex.match_action html = Some action ->
  action <> EmptyString
  /\ every (Regex.isnt Str.dq) action = true
  /\ exists before after,
       html = before ++ Regex.action_prefix ++ action ++ String Str.dq after.
Proof.
  induction html as [|c html IH]; intros H.
  - discriminate.
  - cbn [Regex.match_action] in H.
    destruct (Regex.action_here (String c html)) as [cap|] eqn:E.
    + injection H as ->. unfold Regex.action_here in E.
      destruct (Str.after Regex.action_prefix (String c html)) as [r|] eqn:Ea; [|discriminate].
      destruct (Str.span (Regex.isnt Str.dq) r) as [a b] eqn:Es.
      destruct a as [|x a]; [discriminate|]. destruct b as [|y b]; [discriminate|].
      injection E as <-.
      destruct (span_app _ _ _ _ Es) as (Hr & Hall & Hy).
      apply after_app in Ea. split; [discriminate|]. split; [exact Hall|].
      exists EmptyString, b. rewrite Ea, Hr. cbn [String.append]. do 2 f_equal.
      unfold Regex.isnt in Hy. apply negb_false_iff in Hy.
      apply Ascii.eqb_eq in Hy. now subst y.
    + destruct (IH H) as (Hne & Hall & before & after & ->).
      split; [exact Hne|]. split; [exact Hall|].
      now exists (String c before), after.
Qed.

(** X9.  The credentials go to the form action and nowhere else.  In every
    run of [login] of [mon-kbis.ts], a request that carries a body is the
    third call of the run: the POST of [username], [password] and an empty
    [credentialId] to the form action captured in the page that answered
    the second call -- a non-empty text without a double quote, found in
    that page after [action=] and its quote, with its [&amp;] unescaped.
    Every other request is a GET without body. *)
Theorem kbis_credentials_go_to_form_action {rt : Runtime} (email password : string)
    (w : World) (st : State) :
  let events := run_events st (snd (Kbis.login email password w st)) in
  forall rq, In (Fetch rq) events -> body rq <> NoBody ->
    exists keycloakUrl page action before after,
      nth_error events 1 = Some (Fetch (Kbis.get_follow keycloakUrl))
      /\ http w (1 + now_index st) (Kbis.get_follow keycloakUrl) = Some page
      /\ text page = before ++ Regex.action_prefix ++ action ++ String Str.dq after
      /\ action <> EmptyString
      /\ every (Regex.isnt Str.dq) action = true
      /\ nth_error events 2 = Some (Fetch rq)
      /\ rq = Kbis.login_post (Str.replaceAll action "&amp;" "&") (Kbis.authCookies page)
                email password.
Proof.
  cbv zeta.
  change (wp w (Kbis.login email password) st (fun _ st' =>
    forall rq, In (Fetch rq) (run_events st st') -> body rq <> NoBody ->
    exists keycloakUrl page action before after,
      nth_error (run_events st st') 1 = Some (Fetch (Kbis.get_follow keycloakUrl))
      /\ http w (1 + now_index st) (Kbis.get_follow keycloakUrl) = Some page
      /\ text page = before ++ Regex.action_prefix ++ action ++ String Str.dq after
      /\ action <> EmptyString
      /\ every (Regex.isnt Str.dq) action = true
      /\ nth_error (run_events st st') 2 = Some (Fetch rq)
      /\ rq = Kbis.login_post (Str.replaceAll action "&amp;" "&") (Kbis.authCookies page)
                email password)).
  unfold Kbis.login. wp_run.
  all: try (at_end; intros rq Hin Hbody; pick_event Hin;
            try (injection Hin as <-; now contradiction Hbody)).
  all: destruct (match_action_sound _ _ Heqo) as (Hne & Hall & before & after & Hpage).
  all: try (injection Hin as <-;
            eexists _, _, _, _, _; repeat split; try eassumption; reflexivity).
  - eapply wp_mono; [apply walk_adds_hops|].
    intros o1 s1 (_ & (new & Hlog & _ & Hhops) & _).
    match type of Hlog with log s1 = (new ++ log ?st0)%list =>
      assert (Hfull : log s1 = ((new ++ firstn 3 (log st0)) ++ log st)%list)
        by (rewrite Hlog, <- app_assoc; reflexivity)
    end.
    assert (Hgoal : forall rq, In (Fetch rq) (run_events st s1) -> body rq <> NoBody ->
      exists keycloakUrl page action before after,
        nth_error (run_events st s1) 1 = Some (Fetch (Kbis.get_follow keycloakUrl))
        /\ http w (1 + now_index st) (Kbis.get_follow keycloakUrl) = Some page
        /\ text page = before ++ Regex.action_prefix ++ action ++ String Str.dq after
        /\ action <> EmptyString
        /\ every (Regex.isnt Str.dq) action = true
        /\ nth_error (run_events st s1) 2 = Some (Fetch rq)
        /\ rq = Kbis.login_post (Str.replaceAll action "&amp;" "&") (Kbis.authCookies page)
                  email password).
    { rewrite (run_events_app st s1 _ Hfull), rev_app_distr.
      unfold record. cbn [log firstn List.rev List.app].
      intros rq Hin Hbody. cbn [In] in Hin.
      destruct Hin as [Hin | [Hin | [Hin | Hin]]].
      - injection Hin as <-. now contradiction Hbody.
      - injection Hin as <-. now contradiction Hbody.
      - injection Hin as <-.
        eexists _, _, _, _, _. repeat split; try eassumption; reflexivity.
      - apply in_rev in Hin. rewrite List.Forall_forall in Hhops.
        destruct (Hhops _ Hin) as (u & Hu). injection Hu as ->. now contradiction Hbody. }
    destruct o1 as [v|e]; [|exact Hgoal].
    wp_run; exact Hgoal.
Qed.

Lemma kbis_credentials_go_to_form_action_witness :
  exists keycloakUrl page action before after,
    nth_error (run_events (Sample.start ∅)
                 (snd (Kbis.login (rt := Sample.runtime) "marie@example.org" "hunter2"
                         Sample.kbis_second_hop (Sample.start ∅)))) 1
    = Some (Fetch (Kbis.get_follow keycloakUrl))
    /\ http Sample.kbis_second_hop 1 (Kbis.get_follow keycloakUrl) = Some page
    /\ text page = before ++ Regex.action_prefix ++ action ++ String Str.dq after
    /\ action <> EmptyString
    /\ every (Regex.isnt Str.dq) action = true
    /\ nth_error (run_events (Sample.start ∅)
                    (snd (Kbis.login (rt := Sample.runtime) "marie@example.org" "hunter2"
                            Sample.kbis_second_hop (Sample.start ∅)))) 2
       = Some (Fetch (Kbis.login_post
                        "https://auth.monidenum.fr/login-actions/authenticate?session_code=c1&tab_id=t1"
                        "AUTH_SESSION_ID=s1.node" "marie@example.org" "hunter2"))
    /\ Kbis.login_post
         "https://auth.monidenum.fr/login-actions/authenticate?session_code=c1&tab_id=t1"
         "AUTH_SESSION_ID=s1.node" "marie@example.org" "hunter2"
       = Kbis.login_post (Str.replaceAll action "&amp;" "&") (Kbis.authCookies page)
           "marie@example.org" "hunter2".
Proof.
  apply (kbis_credentials_go_to_form_action (rt := Sample.runtime)
           "marie@example.org" "hunter2" Sample.kbis_second_hop (Sample.start ∅)).
  - vm_compute. do 2 right. left. reflexivity.
  - unfold Kbis.login_post. cbn [body]. intros H. discriminate H.
Defined.

Lemma after_none (p s : string) : String.prefix p s = false -> Str.after p s = None.
Proof.
  revert s. induction p as [|a p IH]; intros s H.
  - destruct s; discriminate H.
  - destruct s as [|b s]; [reflexivity|].
    simpl in H. cbn [Str.after].
    destruct (ascii_dec a b) as [->|Hne].
    + rewrite Ascii.eqb_refl. now apply IH.
    + destruct (Ascii.eqb_spec a b); [contradiction|reflexivity].
Qed.

Lemma includes_cons (c : ascii) (r p : string) :
  Str.includes (String c r) p = String.prefix p (String c r) || Str.includes r p.
Proof. reflexivity. Qed.

Lemma match_action_complete (html : string) :
  Str.includes html Regex.action_prefix = false -> Regex.match_action html = None.
Proof.
  induction html as [|c html IH]; intros H.
  - reflexivity.
  - rewrite includes_cons in H. apply orb_false_iff in H as [Hp Hrest].
    cbn [Regex.match_action]. unfold Regex.action_here.
    rewrite (after_none _ _ Hp). now apply IH.
Qed.

(** X10.  A sign-in page without a form action ends the login before any
    credential is sent.  When the answer to the first call carries a
    [location] and the page fetched from there nowhere contains [action=]
    followed by a double quote, [login] of [mon-kbis.ts] throws its
    form-action error after exactly these two GET requests; the keychain is
    untouched. *)
Theorem kbis_login_without_form {rt : Runtime} (email password : string)
    (w : World) (st : State) (first page : Response) (keycloakUrl : string) :
  http w (now_index st) (Kbis.get_manual "https://monidenum.fr/login") = Some first ->
  location first = Some keycloakUrl ->
  http w (1 + now_index st) (Kbis.get_follow keycloakUrl) = Some page ->
  Str.includes (text page) Regex.action_prefix = false ->
  fst (Kbis.login email password w st) = Thrown Kbis.unknown_action
  /\ run_events st (snd (Kbis.login email password w st))
     = [Fetch (Kbis.get_manual "https://monidenum.fr/login");
        Fetch (Kbis.get_follow keycloakUrl)]
  /\ secrets (snd (Kbis.login email password w st)) = secrets st.
Proof.
  intros Hfirst Hloc Hpage Hform.
  apply match_action_complete in Hform.
  assert (E : Kbis.login email password w st
              = (Thrown Kbis.unknown_action,
                 record (Fetch (Kbis.get_follow keycloakUrl))
                   (record (Fetch (Kbis.get_manual "https://monidenum.fr/login")) st))).
  { unfold Kbis.login, bind, fetch, lift, of_option, throw.
    rewrite Hfirst, Hloc. cbn [now_index record log List.length].
    change (S (List.length (log st))) with (1 + now_index st)%nat.
    rewrite Hpage, Hform. reflexivity. }
  rewrite E. cbn [fst snd]. split; [reflexivity|]. split; [|reflexivity].
  rewrite (run_events_app st _ [Fetch (Kbis.get_follow keycloakUrl);
                                Fetch (Kbis.get_manual "https://monidenum.fr/login")])
    by reflexivity.
  reflexivity.
Qed.

Lemma kbis_login_without_form_witness :
  fst (Kbis.login (rt := Sample.runtime) "marie@example.org" "hunter2"
         (Sample.world [(0%nat, Sample.login_page);
                        (1%nat, Sample.response 200 None [] "<h1>Maintenance</h1>")]
            0 EmptyString true)
         (Sample.start ∅))
  = Thrown Kbis.unknown_action.
Proof.
  refine (proj1 (kbis_login_without_form (rt := Sample.runtime) "marie@example.org" "hunter2"
                   (Sample.world [(0%nat, Sample.login_page);
                                  (1%nat, Sample.response 200 None [] "<h1>Maintenance</h1>")]
                      0 EmptyString true)
                   (Sample.start ∅) Sample.login_page
                   (Sample.response 200 None [] "<h1>Maintenance</h1>")
                   "https://auth.monidenum.fr/realms/mon/auth?client_id=portail"
                   eq_refl eq_refl eq_refl eq_refl)).
Defined.

(** ** [authenticate] of [mon-kbis.ts] *)

Lemma wp_any {A} (w : World) (m : M A) (st : State) (Q : Outcome A -> State -> Prop) :
  (forall o s, Q o s) -> wp w m st Q.
Proof. intros H. apply H. Qed.

(** A truthy answer of [getSessionToken] comes after the keychain and the
    clock were read, and nothing else happened. *)
Lemma getSessionToken_truthy {rt : Runtime} (s : ServiceName) (w : World) (st : State) :
  wp w (getSessionToken s) st (fun o st' =>
    forall v, o = Returned v -> JSON.truthy v = true ->
      st' = record DateNow (record (SecretsGet KEYCHAIN_SERVICE (sessionKey s)) st)).
Proof.
  unfold getSessionToken. wp_run.
  all: intros v Hv Ht; try discriminate Hv.
  all: try (injection Hv as <-; discriminate Ht).
  reflexivity.
Qed.

(** The session identifier that [login] returns is not empty. *)
Lemma login_returns_session {rt : Runtime} (email password : string) (w : World) (st : State) :
  wp w (Kbis.login email password) st (fun o _ =>
    forall s, o = Returned s -> s <> EmptyString).
Proof.
  unfold Kbis.login. wp_run.
  all: try (intros s0 Hs0; discriminate Hs0).
  apply wp_any. intros o s1. destruct o as [phpsessid|e]; [|intros s0 Hs0; discriminate Hs0].
  wp_run.
  - intros s0 Hs0. discriminate Hs0.
  - intros s0 [= <-] ->. discriminate.
Qed.

(** X11.  A live cached session spares the sign-in.  When the keychain
    holds session data for [kbis] with a non-empty token and an expiry that
    the clock has not passed, [authenticate] returns that token after
    reading the keychain and the clock: no request is sent, nothing is
    asked and the keychain is left as it was. *)
Theorem authenticate_uses_cached_session {rt : Runtime} (ToString_other : JsValue -> string)
    (token : string) (expiresAt : Z) (w : World) (st : State) :
  secrets st !! (KEYCHAIN_SERVICE, "kbis-session")
    = Some (JSON.stringify (SessionData token expiresAt)) ->
  token <> EmptyString ->
  (clock w (1 + now_index st) <= expiresAt)%Z ->
  fst (KbisCli.authenticate ToString_other w st) = Returned (Some (JStr token))
  /\ run_events st (snd (KbisCli.authenticate ToString_other w st))
     = [SecretsGet KEYCHAIN_SERVICE "kbis-session"; DateNow]
  /\ secrets (snd (KbisCli.authenticate ToString_other w st)) = secrets st.
Proof.
  intros Hstored Hne Hclock.
  assert (E : KbisCli.authenticate ToString_other w st
              = (Returned (Some (JStr token)),
                 {| secrets := secrets st;
                    log := DateNow :: SecretsGet KEYCHAIN_SERVICE "kbis-session" :: log st |})).
  { unfold KbisCli.authenticate, bind.
    rewrite (getSessionToken_stored kbis token expiresAt w st Hstored).
    destruct (expiresAt <? clock w (S (now_index st)))%Z eqn:Hlt;
      [apply Z.ltb_lt in Hlt; cbn in Hclock; lia|].
    assert (Ht : JSON.truthy (Some (JStr token)) = true).
    { destruct token; [congruence | reflexivity]. }
    rewrite Ht. reflexivity. }
  rewrite E. cbn [fst snd secrets]. split; [reflexivity|]. split; [|reflexivity].
  rewrite (run_events_app st _ [DateNow; SecretsGet KEYCHAIN_SERVICE "kbis-session"])
    by reflexivity.
  reflexivity.
Qed.

Lemma authenticate_uses_cached_session_witness :
  fst (KbisCli.authenticate (rt := Sample.runtime) (fun _ => EmptyString)
         (Sample.at_time 60000)
         (Sample.start {[ (KEYCHAIN_SERVICE, "kbis-session")
                            := JSON.stringify (SessionData "abc123" 1800000) ]}))
  = Returned (Some (JStr "abc123")).
Proof.
  refine (proj1 (authenticate_uses_cached_session (rt := Sample.runtime) (fun _ => EmptyString)
                   "abc123" 1800000 (Sample.at_time 60000)
                   (Sample.start {[ (KEYCHAIN_SERVICE, "kbis-session")
                                      := JSON.stringify (SessionData "abc123" 1800000) ]})
                   _ _ _)).
  - apply lookup_singleton_eq.
  - discriminate.
  - cbn. lia.
Defined.

(** X12.  What [authenticate] hands out.  In every run that returns, the
    value is truthy, and one of two things happened.  Either the run only
    read the keychain and the clock -- the cached token was returned and
    the keychain is as it was.  Or the value is the non-empty session
    identifier of a fresh login, the keychain now holds it with an expiry
    of 1 800 000 ms after the clock reading taken just before the write,
    and [getSessionToken] returns it for as long as the clock has not
    passed that expiry. *)
Theorem authenticate_returns_live_token {rt : Runtime} (ToString_other : JsValue -> string)
    (w : World) (st : State) (v : JsValue) :
  fst (KbisCli.authenticate ToString_other w st) = Returned v ->
  let st' := snd (KbisCli.authenticate ToString_other w st) in
  JSON.truthy v = true
  /\ ((run_events st st' = [SecretsGet KEYCHAIN_SERVICE "kbis-session"; DateNow]
       /\ secrets st' = secrets st)
      \/ exists phpsessid,
           phpsessid <> EmptyString
           /\ v = Some (JStr phpsessid)
           /\ secrets st' !! (KEYCHAIN_SERVICE, "kbis-session")
              = Some (JSON.stringify
                        (SessionData phpsessid (clock w (now_index st' - 2) + 1800000)))
           /\ forall w2,
                (clock w2 (1 + now_index st') <= clock w (now_index st' - 2) + 1800000)%Z ->
                fst (getSessionToken kbis w2 st') = Returned (Some (JStr phpsessid))).
Proof.
  cbv zeta. revert v.
  change (wp w (KbisCli.authenticate ToString_other) st (fun o st' =>
    forall v, o = Returned v ->
    JSON.truthy v = true
    /\ ((run_events st st' = [SecretsGet KEYCHAIN_SERVICE "kbis-session"; DateNow]
         /\ secrets st' = secrets st)
        \/ exists phpsessid,
             phpsessid <> EmptyString
             /\ v = Some (JStr phpsessid)
             /\ secrets st' !! (KEYCHAIN_SERVICE, "kbis-session")
                = Some (JSON.stringify
                          (SessionData phpsessid (clock w (now_index st' - 2) + 1800000)))
             /\ forall w2,
                  (clock w2 (1 + now_index st') <= clock w (now_index st' - 2) + 1800000)%Z ->
                  fst (getSessionToken kbis w2 st') = Returned (Some (JStr phpsessid))))).
  unfold KbisCli.authenticate. apply wp_bind.
  eapply wp_mono; [apply getSessionToken_truthy|].
  intros o s1 Hcache. destruct o as [cached|e]; [|intros v Hv; discriminate Hv].
  destruct (JSON.truthy cached) eqn:Ht.
  - apply wp_ret. intros v [= <-]. split; [exact Ht|]. left.
    rewrite (Hcache _ eq_refl Ht). split; [|reflexivity].
    rewrite (run_events_app st _ [DateNow; SecretsGet KEYCHAIN_SERVICE "kbis-session"])
      by reflexivity.
    reflexivity.
  - clear Hcache. apply wp_bind. apply wp_any. intros o s2.
    destruct o as [credentials|e]; [|intros v Hv; discriminate Hv].
    wp_run; try (intros v Hv; discriminate Hv).
    eapply wp_mono; [apply login_returns_session|]. intros o s3 Hne.
    destruct o as [phpsessid|e]; [|intros v Hv; discriminate Hv].
    specialize (Hne _ eq_refl).
    unfold setSessionToken. wp_run.
    intros v [= <-].
    assert (Htoken : JSON.truthy (Some (JStr phpsessid)) = true).
    { destruct phpsessid; [congruence | reflexivity]. }
    split; [exact Htoken|]. right. exists phpsessid.
    unfold now_index, record. cbn [log secrets List.length Nat.sub].
    rewrite Nat.sub_0_r.
    assert (Hstored :
      <[(KEYCHAIN_SERVICE, sessionKey kbis) :=
          JSON.stringify (SessionData phpsessid (clock w (List.length (log s3)) + 30 * 60 * 1000))]>
        (secrets s3) !! (KEYCHAIN_SERVICE, "kbis-session")
      = Some (JSON.stringify
                (SessionData phpsessid (clock w (List.length (log s3)) + 1800000)))).
    { apply lookup_insert_eq. }
    repeat split; [exact Hne | exact Hstored |].
    intros w2 Hclock.
    match goal with |- fst (getSessionToken kbis w2 ?s) = _ =>
      rewrite (getSessionToken_stored kbis phpsessid _ w2 s Hstored)
    end.
    unfold now_index. cbn [log List.length].
    destruct (_ <? _)%Z eqn:Hlt; [apply Z.ltb_lt in Hlt; cbn in Hclock; lia | reflexivity].
Qed.

Lemma authenticate_returns_live_token_witness :
  JSON.truthy (Some (JStr "abc123")) = true
  /\ ((run_events (Sample.start SampleCli.keychain_kbis)
         (snd (KbisCli.authenticate (rt := Sample.runtime) (fun _ => EmptyString)
                 SampleCli.portal (Sample.start SampleCli.keychain_kbis)))
       = [SecretsGet KEYCHAIN_SERVICE "kbis-session"; DateNow]
       /\ secrets (snd (KbisCli.authenticate (rt := Sample.runtime) (fun _ => EmptyString)
                          SampleCli.portal (Sample.start SampleCli.keychain_kbis)))
          = secrets (Sample.start SampleCli.keychain_kbis))
      \/ exists phpsessid,
           phpsessid <> EmptyString
           /\ Some (JStr "abc123") = Some (JStr phpsessid)
           /\ secrets (snd (KbisCli.authenticate (rt := Sample.runtime) (fun _ => EmptyString)
                              SampleCli.portal (Sample.start SampleCli.keychain_kbis)))
                !! (KEYCHAIN_SERVICE, "kbis-session")
              = Some (JSON.stringify
                        (SessionData phpsessid
                           (clock SampleCli.portal
                              (now_index
                                 (snd (KbisCli.authenticate (rt := Sample.runtime)
                                         (fun _ => EmptyString)
                                         SampleCli.portal
                                         (Sample.start SampleCli.keychain_kbis))) - 2)
                            + 1800000)))
           /\ forall w2,
                (clock w2 (1 + now_index
                                 (snd (KbisCli.authenticate (rt := Sample.runtime)
                                         (fun _ => EmptyString)
                                         SampleCli.portal
                                         (Sample.start SampleCli.keychain_kbis))))
                 <= clock SampleCli.portal
                      (now_index
                         (snd (KbisCli.authenticate (rt := Sample.runtime)
                                 (fun _ => EmptyString)
                                 SampleCli.portal
                                 (Sample.start SampleCli.keychain_kbis))) - 2)
                    + 1800000)%Z ->
                fst (getSessionToken (rt := Sample.runtime) kbis w2
                       (snd (KbisCli.authenticate (rt := Sample.runtime)
                               (fun _ => EmptyString)
                               SampleCli.portal
                               (Sample.start SampleCli.keychain_kbis))))
                = Returned (Some (JStr phpsessid))).
Proof.
  apply (authenticate_returns_live_token (rt := Sample.runtime) (fun _ => EmptyString)
           SampleCli.portal (Sample.start SampleCli.keychain_kbis) (Some (JStr "abc123"))).
  vm_compute. reflexivity.
Defined.

(** ** [selectEntreprise] of [mon-kbis.ts] *)

Lemma listings_length (l : list KbisCli.Entreprise) :
  forall i, List.length (KbisCli.listings i l) = List.length l.
Proof. induction l as [|e l IH]; intros i; cbn; [reflexivity | now rewrite IH]. Qed.

(** The list is printed line by line and nothing else happens. *)
Lemma list_entreprises_run (l : list KbisCli.Entreprise) :
  forall i w st,
    KbisCli.list_entreprises i l w st
    = (Returned tt,
       {| secrets := secrets st;
          log := (List.rev (map ConsoleLog (KbisCli.listings i l)) ++ log st)%list |}).
Proof.
  induction l as [|e l IH]; intros i w st; cbn [KbisCli.list_entreprises KbisCli.listings].
  - destruct st. reflexivity.
  - unfold bind, console_log. rewrite IH. unfold record.
    cbn [secrets log map List.rev]. now rewrite <- List.app_assoc.
Qed.

(** The run of [selectEntreprise] when there are several companies and no
    SIREN was given. *)
Lemma selectEntreprise_asks (first second : KbisCli.Entreprise)
    (others : list KbisCli.Entreprise) (sirenArg : option string) (w : World) (st : State) :
  falsy sirenArg = true ->
  let entreprises := first :: second :: others in
  let typed := Str.trim (stdin w (now_index st + List.length entreprises + 2)) in
  KbisCli.selectEntreprise entreprises sirenArg w st
  = (match KbisCli.parseInt typed with
     | None => Thrown KbisCli.invalid_choice
     | Some n =>
         if ((n - 1 <? 0) || (Z.of_nat (List.length entreprises) <=? n - 1))%Z
         then Thrown KbisCli.invalid_choice
         else Returned (nth (Z.to_nat (n - 1)) entreprises first)
     end,
     {| secrets := secrets st;
        log := (StdinData :: StdoutWrite (newline ++ "Numéro de l'entreprise: ")
                :: List.rev (map ConsoleLog (KbisCli.listings 0 entreprises))
                ++ ConsoleLog (newline ++ "Entreprises disponibles :") :: log st)%list |}).
Proof.
  intros Hfalsy entreprises typed.
  apply wp_equation.
  unfold KbisCli.selectEntreprise. fold entreprises. rewrite Hfalsy. cbn [negb].
  apply wp_bind, wp_console_log, wp_bind.
  unfold wp at 1. rewrite list_entreprises_run. cbn [fst snd].
  unfold ask. wp_run.
  all: unfold record, now_index in *; cbn [secrets log] in *.
  all: match goal with
       | H : KbisCli.parseInt (Str.trim (stdin _ ?i)) = _ |- _ =>
           replace i with (List.length (log st) + List.length entreprises + 2)%nat in H
             by (cbn [List.length]; rewrite length_app, length_rev, length_map, listings_length;
                 cbn [List.length]; lia)
       end.
  all: subst typed; unfold now_index.
  all: match goal with H : KbisCli.parseInt _ = _ |- _ => rewrite H end.
  all: try match goal with H : (_ || _)%bool = _ |- _ => rewrite H end.
  all: reflexivity.
Qed.

(** X13.  The company handed back is one of the list.  In every run of
    [selectEntreprise] that returns -- by SIREN, as the only company, or
    by the number typed -- the result is an element of [entreprises]; the
    keychain is left as it was and no request was sent. *)
Theorem selectEntreprise_returns_member (entreprises : list KbisCli.Entreprise)
    (sirenArg : option string) (w : World) (st : State) (e : KbisCli.Entreprise) :
  fst (KbisCli.selectEntreprise entreprises sirenArg w st) = Returned e ->
  In e entreprises
  /\ secrets (snd (KbisCli.selectEntreprise entreprises sirenArg w st)) = secrets st
  /\ forall rq, ~ In (Fetch rq)
                  (run_events st (snd (KbisCli.selectEntreprise entreprises sirenArg w st))).
Proof.
  destruct entreprises as [|first [|second others]].
  - discriminate.
  - cbn. destruct (negb (falsy sirenArg)).
    + destruct (String.eqb _ _); cbn; [|discriminate].
      intros [= <-]. unfold run_events. rewrite Nat.sub_diag. cbn. auto.
    + cbn. intros [= <-]. unfold run_events. rewrite Nat.sub_diag. cbn. auto.
  - destruct (falsy sirenArg) eqn:Hfalsy.
    + rewrite (selectEntreprise_asks first second others sirenArg w st Hfalsy).
      cbn [fst snd secrets].
      set (l := first :: second :: others).
      set (typed := Str.trim _).
      intros Hout. split; [|split; [reflexivity|]].
      * destruct (KbisCli.parseInt typed) as [n|]; [|discriminate].
        destruct (n - 1 <? 0)%Z eqn:Hlo; [discriminate|].
        destruct (Z.of_nat (List.length l) <=? n - 1)%Z eqn:Hhi; [discriminate|].
        cbn [orb] in Hout. injection Hout as <-.
        change (In (nth (Z.to_nat (n - 1)) l first) l).
        apply nth_In. apply Z.ltb_ge in Hlo. apply Z.leb_gt in Hhi. lia.
      * intros rq.
        rewrite (run_events_app st _
                   (StdinData :: StdoutWrite (newline ++ "Numéro de l'entreprise: ")
                    :: List.rev (map ConsoleLog (KbisCli.listings 0 l))
                    ++ [ConsoleLog (newline ++ "Entreprises disponibles :")])%list).
        2: { cbn [log List.app]. now rewrite <- List.app_assoc. }
        rewrite <- in_rev. cbn [In]. rewrite in_app_iff, <- in_rev, in_map_iff. cbn [In].
        intros [H|[H|[(x & H & _)|[H|[]]]]]; discriminate H.
    + unfold KbisCli.selectEntreprise. rewrite Hfalsy. cbn [negb].
      destruct (find _ _) as [found|] eqn:Hfind; [|discriminate].
      cbn. intros [= <-]. split; [exact (proj1 (find_some _ _ Hfind))|].
      unfold run_events. rewrite Nat.sub_diag. cbn. auto.
Qed.

Lemma selectEntreprise_returns_member_witness :
  In SampleCli.globex [SampleCli.acme; SampleCli.globex].
Proof.
  refine (proj1 (selectEntreprise_returns_member [SampleCli.acme; SampleCli.globex]
                   (Some "987 654 321") (Sample.at_time 0) (Sample.start ∅)
                   SampleCli.globex _)).
  vm_compute. reflexivity.
Defined.

Lemma find_first {A} (f : A -> bool) (before : list A) (x : A) (after : list A) :
  (forall y, In y before -> f y = false) -> f x = true ->
  find f (before ++ x :: after) = Some x.
Proof.
  intros Hbefore Hx. induction before as [|y before IH]; cbn.
  - now rewrite Hx.
  - rewrite (Hbefore y) by now left. apply IH. intros z Hz. apply Hbefore. now right.
Qed.

Lemma find_nowhere {A} (f : A -> bool) (l : list A) :
  (forall y, In y l -> f y = false) -> find f l = None.
Proof.
  intros H. induction l as [|y l IH]; cbn; [reflexivity|].
  rewrite (H y) by now left. apply IH. intros z Hz. apply H. now right.
Qed.

(** X14.  Choosing by SIREN asks nothing.  When a non-empty SIREN argument
    is given and the account has companies, [selectEntreprise] performs no
    call at all.  It returns the first company of the list whose [siren]
    is the argument with its white space removed; when no company has that
    [siren] it throws an error whose message carries the argument as it
    was given. *)
Theorem selectEntreprise_by_siren (entreprises : list KbisCli.Entreprise) (sirenArg : string)
    (w : World) (st : State) :
  sirenArg <> EmptyString ->
  entreprises <> [] ->
  let wanted := KbisCli.remove_ws sirenArg in
  let run := KbisCli.selectEntreprise entreprises (Some sirenArg) w st in
  snd run = st
  /\ (forall before e after,
        entreprises = (before ++ e :: after)%list ->
        (forall x, In x before -> KbisCli.siren x <> wanted) ->
        KbisCli.siren e = wanted ->
        fst run = Returned e)
  /\ ((forall x, In x entreprises -> KbisCli.siren x <> wanted) ->
      fst run = Thrown (KbisCli.siren_not_found sirenArg)).
Proof.
  intros Hne Hsome wanted run.
  destruct entreprises as [|first others]; [congruence|].
  assert (Hfalsy : falsy (Some sirenArg) = false).
  { unfold falsy. destruct (String.eqb_spec sirenArg EmptyString); congruence. }
  assert (Hrun : run = match find (fun e => String.eqb (KbisCli.siren e) wanted)
                               (first :: others) with
                       | Some found => (Returned found, st)
                       | None => (Thrown (KbisCli.siren_not_found sirenArg), st)
                       end).
  { unfold run, KbisCli.selectEntreprise. rewrite Hfalsy. cbn [negb unwrap]. fold wanted.
    destruct (find _ _); reflexivity. }
  rewrite Hrun. split; [destruct (find _ _); reflexivity|]. split.
  - intros before e after Hl Hbefore He. rewrite Hl, (find_first _ before e after).
    + reflexivity.
    + intros y Hy. apply String.eqb_neq. now apply Hbefore.
    + now apply String.eqb_eq.
  - intros Hnone. rewrite find_nowhere; [reflexivity|].
    intros y Hy. apply String.eqb_neq. now apply Hnone.
Qed.

Lemma selectEntreprise_by_siren_witness :
  fst (KbisCli.selectEntreprise [SampleCli.acme; SampleCli.globex] (Some "987 654 321")
         (Sample.at_time 0) (Sample.start ∅))
  = Returned SampleCli.globex.
Proof.
  destruct (selectEntreprise_by_siren [SampleCli.acme; SampleCli.globex] "987 654 321"
              (Sample.at_time 0) (Sample.start ∅)) as (_ & H & _).
  - discriminate.
  - discriminate.
  - apply (H [SampleCli.acme] SampleCli.globex []).
    + reflexivity.
    + intros x [<-|[]]. vm_compute. discriminate.
    + reflexivity.
Defined.

Lemma selectEntreprise_asks_events (first second : KbisCli.Entreprise)
    (others : list KbisCli.Entreprise) (sirenArg : option string) (w : World) (st : State) :
  falsy sirenArg = true ->
  let entreprises := first :: second :: others in
  run_events st (snd (KbisCli.selectEntreprise entreprises sirenArg w st))
  = (ConsoleLog (newline ++ "Entreprises disponibles :")
     :: map ConsoleLog (KbisCli.listings 0 entreprises)
     ++ [StdoutWrite (newline ++ "Numéro de l'entreprise: "); StdinData])%list.
Proof.
  intros Hfalsy entreprises.
  pose proof (selectEntreprise_asks first second others sirenArg w st Hfalsy) as Hrun.
  cbv zeta in Hrun. fold entreprises in Hrun. rewrite Hrun. cbn [snd].
  rewrite (run_events_app st _
             (StdinData :: StdoutWrite (newline ++ "Numéro de l'entreprise: ")
              :: List.rev (map ConsoleLog (KbisCli.listings 0 entreprises))
              ++ [ConsoleLog (newline ++ "Entreprises disponibles :")])%list).
  2: { cbn [log List.app]. now rewrite <- List.app_assoc. }
  cbn [List.rev]. rewrite rev_app_distr, rev_involutive. cbn [List.rev List.app].
  now rewrite <- !List.app_assoc.
Qed.

Lemma selectEntreprise_asks_pick (first second : KbisCli.Entreprise)
    (others : list KbisCli.Entreprise) (sirenArg : option string) (w : World) (st : State)
    (k : Z) (e : KbisCli.Entreprise) :
  falsy sirenArg = true ->
  let entreprises := first :: second :: others in
  KbisCli.parseInt (Str.trim (stdin w (now_index st + List.length entreprises + 2)))
    = Some k ->
  (1 <= k)%Z ->
  nth_error entreprises (Z.to_nat (k - 1)) = Some e ->
  fst (KbisCli.selectEntreprise entreprises sirenArg w st) = Returned e.
Proof.
  intros Hfalsy entreprises Hk Hlo Hnth.
  pose proof (selectEntreprise_asks first second others sirenArg w st Hfalsy) as Hrun.
  cbv zeta in Hrun. fold entreprises in Hrun. rewrite Hrun. cbn [fst]. rewrite Hk.
  assert (Hlt : (Z.to_nat (k - 1) < List.length entreprises)%nat).
  { apply nth_error_Some. congruence. }
  destruct (k - 1 <? 0)%Z eqn:E1; [apply Z.ltb_lt in E1; lia|].
  destruct (Z.of_nat (List.length entreprises) <=? k - 1)%Z eqn:E2;
    [apply Z.leb_le in E2; lia|].
  cbn [orb]. f_equal. now apply nth_error_nth.
Qed.

(** X15.  Choosing by number.  With several companies and no SIREN
    argument, [selectEntreprise] prints the heading and one line per
    company, asks for a number and reads one line.  If [parseInt] of the
    trimmed line is a number [k] and the list has a [k]-th company,
    counting from 1, that company is returned; if the number is below 1 or
    above the length of the list, or the line does not start with a
    number, the invalid-choice error is thrown. *)
Theorem selectEntreprise_by_number (first second : KbisCli.Entreprise)
    (others : list KbisCli.Entreprise) (sirenArg : option string) (w : World) (st : State) :
  falsy sirenArg = true ->
  let entreprises := first :: second :: others in
  let typed := Str.trim (stdin w (now_index st + List.length entreprises + 2)) in
  let run := KbisCli.selectEntreprise entreprises sirenArg w st in
  run_events st (snd run)
  = (ConsoleLog (newline ++ "Entreprises disponibles :")
     :: map ConsoleLog (KbisCli.listings 0 entreprises)
     ++ [StdoutWrite (newline ++ "Numéro de l'entreprise: "); StdinData])%list
  /\ (forall k e,
        KbisCli.parseInt typed = Some k -> (1 <= k)%Z ->
        nth_error entreprises (Z.to_nat (k - 1)) = Some e ->
        fst run = Returned e)
  /\ (forall k,
        KbisCli.parseInt typed = Some k ->
        (k < 1 \/ Z.of_nat (List.length entreprises) < k)%Z ->
        fst run = Thrown KbisCli.invalid_choice)
  /\ (KbisCli.parseInt typed = None -> fst run = Thrown KbisCli.invalid_choice).
Proof.
  intros Hfalsy entreprises typed run.
  split; [apply (selectEntreprise_asks_events first second others sirenArg w st Hfalsy)|].
  split; [intros k e; apply (selectEntreprise_asks_pick first second others sirenArg w st k e
                               Hfalsy)|].
  pose proof (selectEntreprise_asks first second others sirenArg w st Hfalsy) as Hrun.
  cbv zeta in Hrun. fold entreprises in Hrun. fold typed in Hrun. fold run in Hrun.
  rewrite Hrun. cbn [fst snd]. split.
  - intros k Hk Hout. rewrite Hk.
    destruct (k - 1 <? 0)%Z eqn:E1; [reflexivity|].
    destruct (Z.of_nat (List.length entreprises) <=? k - 1)%Z eqn:E2; [reflexivity|].
    apply Z.ltb_ge in E1. apply Z.leb_gt in E2. lia.
  - intros Hnan. now rewrite Hnan.
Qed.

Lemma selectEntreprise_by_number_witness :
  fst (KbisCli.selectEntreprise [SampleCli.acme; SampleCli.globex] None
         (Sample.world [] 0 " 2 " true) (Sample.start ∅))
  = Returned SampleCli.globex.
Proof.
  destruct (selectEntreprise_by_number SampleCli.acme SampleCli.globex [] None
              (Sample.world [] 0 " 2 " true) (Sample.start ∅) eq_refl) as (_ & H & _).
  apply (H 2%Z SampleCli.globex).
  - vm_compute. reflexivity.
  - lia.
  - reflexivity.
Defined.

(** *** The number in front of a company, read back *)

Lemma digits_value_acc (d : Decimal.uint) :
  forall acc : positive,
    KbisCli.digits_value (Z.pos acc) (NilEmpty.string_of_uint d)
    = Z.pos (Pos.of_uint_acc d acc).
Proof.
  induction d; intros acc; cbn [NilEmpty.string_of_uint KbisCli.digits_value Pos.of_uint_acc];
    [reflexivity|..].
  all: rewrite <- IHd; f_equal; vm_compute (Z.of_nat _); lia.
Qed.

Lemma digits_value_of_uint (d : Decimal.uint) :
  KbisCli.digits_value 0 (NilEmpty.string_of_uint d) = Z.of_N (Pos.of_uint d).
Proof.
  induction d; cbn [NilEmpty.string_of_uint KbisCli.digits_value Pos.of_uint];
    [reflexivity | exact IHd | ..].
  all: match goal with
       | |- KbisCli.digits_value ?z _ = Z.of_N (N.pos (Pos.of_uint_acc _ ?k)) =>
           change z with (Z.pos k); apply digits_value_acc
       end.
Qed.

Lemma trimStart_digit (c : ascii) (r : string) :
  JSON.is_digit c = true -> Str.trimStart (String c r) = String c r.
Proof.
  intros Hc.
  destruct c as [[] [] [] [] [] [] [] []]; try discriminate Hc.
  all: destruct r as [|c2 [|c3 r3]]; reflexivity.
Qed.

(** [parseInt] reads the decimal text of a number back. *)
Lemma parseInt_digits (n : N) : KbisCli.parseInt (JSON.digits n) = Some (Z.of_N n).
Proof.
  unfold JSON.digits.
  assert (Hnil : N.to_uint n <> Decimal.Nil).
  { rewrite <- JSONFacts.to_uint_normal. apply unorm_nonnil. }
  destruct (JSONFacts.uint_digit_head _ Hnil) as (c & r & Hd & Hc).
  assert (Hspan : Str.span JSON.is_digit (NilEmpty.string_of_uint (N.to_uint n))
                  = (NilEmpty.string_of_uint (N.to_uint n), EmptyString)).
  { rewrite <- (append_nil_r (NilEmpty.string_of_uint (N.to_uint n))) at 1.
    now apply JSONFacts.span_digits. }
  unfold KbisCli.parseInt. rewrite Hd, (trimStart_digit c r Hc).
  assert (Hminus : Ascii.eqb c "-" = false /\ Ascii.eqb c "+" = false).
  { destruct c as [[] [] [] [] [] [] [] []]; try discriminate Hc; split; reflexivity. }
  destruct Hminus as [-> ->]. rewrite <- Hd, Hspan. cbn [fst].
  rewrite Hd. rewrite <- Hd. rewrite digits_value_of_uint.
  change (Pos.of_uint (N.to_uint n)) with (N.of_uint (N.to_uint n)).
  now rewrite DecimalN.Unsigned.of_to.
Qed.

Lemma nth_error_listings (l : list KbisCli.Entreprise) :
  forall j i e,
    nth_error l i = Some e ->
    nth_error (KbisCli.listings j l) i = Some (KbisCli.listing (j + i) e).
Proof.
  induction l as [|x l IH]; intros j i e H; destruct i as [|i]; try discriminate H.
  - cbn in *. injection H as ->. now rewrite Nat.add_0_r.
  - cbn [KbisCli.listings nth_error] in *. rewrite (IH (S j) i e H). do 2 f_equal. lia.
Qed.

(** X16.  The number in the list is the number to type.  With several
    companies and no SIREN argument, the line printed for the company at
    position [i] (from 0) starts with two spaces, the decimal text of
    [i + 1] and a dot; and when the line typed is, white space aside, that
    decimal text, [selectEntreprise] returns that company. *)
Theorem listed_number_selects (first second : KbisCli.Entreprise)
    (others : list KbisCli.Entreprise) (sirenArg : option string) (w : World) (st : State)
    (i : nat) (e : KbisCli.Entreprise) :
  falsy sirenArg = true ->
  let entreprises := first :: second :: others in
  nth_error entreprises i = Some e ->
  Str.trim (stdin w (now_index st + List.length entreprises + 2))
    = JSON.digits (N.of_nat (i + 1)) ->
  nth_error (run_events st (snd (KbisCli.selectEntreprise entreprises sirenArg w st))) (S i)
    = Some (ConsoleLog ("  " ++ JSON.digits (N.of_nat (i + 1)) ++ ". "
                        ++ KbisCli.denomination e ++ " (" ++ KbisCli.siren e ++ ") - "
                        ++ KbisCli.formeJuridique e))
  /\ fst (KbisCli.selectEntreprise entreprises sirenArg w st) = Returned e.
Proof.
  intros Hfalsy entreprises Hnth Htyped.
  pose proof (selectEntreprise_asks_events first second others sirenArg w st Hfalsy)
    as Hevents.
  pose proof (fun k => selectEntreprise_asks_pick first second others sirenArg w st k e Hfalsy)
    as Hpick.
  cbv zeta in Hevents, Hpick. fold entreprises in Hevents, Hpick. split.
  - rewrite Hevents. cbn [nth_error].
    assert (Hlt : (i < List.length (map ConsoleLog (KbisCli.listings 0 entreprises)))%nat).
    { rewrite length_map, listings_length. apply nth_error_Some. congruence. }
    rewrite nth_error_app1 by exact Hlt.
    rewrite nth_error_map, (nth_error_listings entreprises 0 i e Hnth). reflexivity.
  - apply (Hpick (Z.of_nat (i + 1))).
    + rewrite Htyped, parseInt_digits. f_equal. lia.
    + lia.
    + replace (Z.to_nat (Z.of_nat (i + 1) - 1)) with i by lia. exact Hnth.
Qed.

Lemma listed_number_selects_witness :
  fst (KbisCli.selectEntreprise [SampleCli.acme; SampleCli.globex] None
         (Sample.world [] 0 " 2 " true) (Sample.start ∅))
  = Returned SampleCli.globex.
Proof.
  refine (proj2 (listed_number_selects SampleCli.acme SampleCli.globex [] None
                   (Sample.world [] 0 " 2 " true) (Sample.start ∅) 1 SampleCli.globex
                   eq_refl eq_refl _)).
  vm_compute. reflexivity.
Defined.

(** ** The two [logout] commands *)

(** X17.  [logout] of [mon-kbis.ts] forgets the account and nothing else.
    The command always completes; afterwards [getCredentials] and
    [getSessionToken] answer [null] for [kbis], and every other entry of
    the keychain -- the URSSAF credentials among them -- is as it was. *)
Theorem kbis_logout_forgets {rt : Runtime} (w : World) (st : State) :
  let st' := snd (KbisCli.logout w st) in
  fst (KbisCli.logout w st) = Returned tt
  /\ (forall w2, fst (getCredentials kbis w2 st') = Returned JNull)
  /\ (forall w2, fst (getSessionToken kbis w2 st') = Returned (Some JNull))
  /\ (forall service name,
        (service, name) <> (KEYCHAIN_SERVICE, "kbis") ->
        (service, name) <> (KEYCHAIN_SERVICE, "kbis-session") ->
        secrets st' !! (service, name) = secrets st !! (service, name)).
Proof.
  cbv zeta.
  assert (E : KbisCli.logout w st
              = (Returned tt,
                 {| secrets := delete (KEYCHAIN_SERVICE, "kbis-session")
                                 (delete (KEYCHAIN_SERVICE, "kbis") (secrets st));
                    log := ConsoleLog "Identifiants et session supprimés du trousseau."
                           :: SecretsDelete KEYCHAIN_SERVICE "kbis-session"
                           :: SecretsDelete KEYCHAIN_SERVICE "kbis" :: log st |}))
    by reflexivity.
  rewrite E. cbn [fst snd]. split; [reflexivity|]. split; [|split].
  - intros w2. unfold getCredentials, bind, secrets_get. cbn [secrets service_name].
    rewrite lookup_delete_ne by discriminate. now rewrite lookup_delete_eq.
  - intros w2. rewrite getSessionToken_absent; [reflexivity|].
    cbn [secrets]. apply lookup_delete_eq.
  - intros service name H1 H2. cbn [secrets].
    rewrite lookup_delete_ne by congruence. now rewrite lookup_delete_ne by congruence.
Qed.

Lemma kbis_logout_forgets_witness :
  secrets (snd (KbisCli.logout (Sample.at_time 0)
                  (Sample.start (<[(KEYCHAIN_SERVICE, "kbis-session") := "stale"]>
                                   Sample.keychain_with_credentials))))
    !! (KEYCHAIN_SERVICE, "urssaf")
  = secrets (Sample.start (<[(KEYCHAIN_SERVICE, "kbis-session") := "stale"]>
                              Sample.keychain_with_credentials))
      !! (KEYCHAIN_SERVICE, "urssaf").
Proof.
  apply (proj2 (proj2 (proj2 (kbis_logout_forgets (rt := Sample.runtime) (Sample.at_time 0)
           (Sample.start (<[(KEYCHAIN_SERVICE, "kbis-session") := "stale"]>
                            Sample.keychain_with_credentials)))))); discriminate.
Defined.

(** X18.  [logout] of [mes-echeances-urssaf.ts] forgets the credentials
    and nothing else.  The command always completes; afterwards
    [getCredentials] answers [null] for [urssaf], so that
    [getOrPromptCredentials] asks again, and every other entry of the
    keychain -- the two entries of [kbis] among them -- is as it was. *)
Theorem urssaf_logout_forgets {rt : Runtime} (w : World) (st : State) :
  let st' := snd (UrssafCli.logout w st) in
  fst (UrssafCli.logout w st) = Returned tt
  /\ (forall w2, fst (getCredentials urssaf w2 st') = Returned JNull)
  /\ (forall w2 prompt,
        nth_error (run_events st' (snd (getOrPromptCredentials urssaf prompt w2 st'))) 1
        = Some (StdoutWrite prompt))
  /\ (forall service name,
        (service, name) <> (KEYCHAIN_SERVICE, "urssaf") ->
        secrets st' !! (service, name) = secrets st !! (service, name)).
Proof.
  cbv zeta.
  assert (E : UrssafCli.logout w st
              = (Returned tt,
                 {| secrets := delete (KEYCHAIN_SERVICE, "urssaf") (secrets st);
                    log := ConsoleLog "Identifiants supprimés du trousseau."
                           :: SecretsDelete KEYCHAIN_SERVICE "urssaf" :: log st |}))
    by reflexivity.
  rewrite E. cbn [fst snd]. split; [reflexivity|].
  set (st' := {| secrets := _; log := _ |}).
  assert (Hgone : secrets st' !! (KEYCHAIN_SERVICE, service_name urssaf) = None)
    by apply lookup_delete_eq.
  split; [|split].
  - intros w2. unfold getCredentials, bind, secrets_get. now rewrite Hgone.
  - intros w2 prompt.
    change (wp w2 (getOrPromptCredentials urssaf prompt) st' (fun _ s =>
      nth_error (run_events st' s) 1 = Some (StdoutWrite prompt))).
    unfold getOrPromptCredentials, getCredentials, ask, askPassword, setCredentials.
    apply wp_bind, wp_bind, wp_secrets_get. rewrite Hgone.
    wp_run.
    all: try match goal with
             | H : JSON.truthy (Some JNull) = true |- _ => discriminate H
             end.
    all: at_end; reflexivity.
  - intros service name H1. unfold st'. cbn [secrets].
    now rewrite lookup_delete_ne by congruence.
Qed.

Lemma urssaf_logout_forgets_witness :
  secrets (snd (UrssafCli.logout (Sample.at_time 0) (Sample.start SampleCli.keychain_kbis)))
    !! (KEYCHAIN_SERVICE, "kbis")
  = secrets (Sample.start SampleCli.keychain_kbis) !! (KEYCHAIN_SERVICE, "kbis").
Proof.
  apply (proj2 (proj2 (proj2 (urssaf_logout_forgets (rt := Sample.runtime) (Sample.at_time 0)
           (Sample.start SampleCli.keychain_kbis))))); discriminate.
Defined.

(** ** The texts that [b64url] makes *)

Lemma digit_url_safe (v : ascii) :
  Base64.small v = true -> url_safe (Base64.digit Base64.alphabet_url v) = true.
Proof. destruct v as [[] [] [] [] [] [] [] []]; intros H; try discriminate H; reflexivity. Qed.

Lemma every_render (l : list ascii) :
  Forall (fun v => Base64.small v = true) l ->
  every url_safe (Base64.render Base64.alphabet_url l) = true.
Proof.
  unfold Base64.render. induction 1 as [|v l Hv _ IH]; cbn; [reflexivity|].
  now rewrite (digit_url_safe v Hv), IH.
Qed.

(** X19.  What [b64url] yields.  For every buffer the text is made of
    letters, digits, [-] and [_] only -- no [+], no [/] and no padding --
    and its length is the number of bytes times 4/3, rounded up.  The
    [codeVerifier], the random part of [state] and the [nonce] that [login]
    makes of 32 random bytes therefore have 43 characters each. *)
Theorem b64url_is_url_safe (buf : string) (w : World) (i : nat) :
  every url_safe (Urssaf.b64url buf) = true
  /\ String.length (Urssaf.b64url buf) = ((4 * String.length buf + 2) / 3)%nat
  /\ String.length (Urssaf.b64url (sample w i 32)) = 43%nat.
Proof.
  assert (Hlen : forall b, String.length (Urssaf.b64url b)
                           = ((4 * String.length b + 2) / 3)%nat).
  { intros b. unfold Urssaf.b64url, Base64.encode_url, Base64.render.
    now rewrite length_string_of_list, length_map, length_to_sextets. }
  split; [|split].
  - apply every_render, Base64Facts.to_sextets_small.
  - apply Hlen.
  - rewrite Hlen, sample_length. reflexivity.
Qed.

(** ** The rows of [printEcheances] *)

Lemma split_nonempty (sep : ascii) (s : string) : Str.split sep s <> [].
Proof.
  destruct s as [|c r]; cbn [Str.split]; [discriminate|].
  destruct (Str.split sep r); [discriminate|]. destruct (Ascii.eqb c sep); discriminate.
Qed.

Lemma split_plain (sep : ascii) (a : string) :
  every (Regex.isnt sep) a = true -> Str.split sep a = [a].
Proof.
  induction a as [|c a IH]; cbn [every Str.split]; [reflexivity|].
  intros H. apply andb_true_iff in H as [Hc Ha]. rewrite (IH Ha).
  unfold Regex.isnt in Hc. apply negb_true_iff in Hc. now rewrite Hc.
Qed.

Lemma split_app (sep : ascii) (a b : string) :
  every (Regex.isnt sep) a = true ->
  Str.split sep (a ++ String sep b) = a :: Str.split sep b.
Proof.
  induction a as [|c a IH]; cbn [every String.append]; intros H.
  - cbn [Str.split]. pose proof (split_nonempty sep b) as Hb.
    destruct (Str.split sep b) as [|piece pieces]; [congruence|].
    now rewrite Ascii.eqb_refl.
  - apply andb_true_iff in H as [Hc Ha]. cbn [Str.split]. rewrite (IH Ha).
    unfold Regex.isnt in Hc. apply negb_true_iff in Hc. now rewrite Hc.
Qed.

(** X20.  The date of a row.  When [dateExigibilite] is [y-m-d], three
    parts without a hyphen, the row shows [d/m/y]; whatever follows a third
    hyphen is dropped.  When it contains no hyphen at all, the two missing
    parts are printed as [undefined]. *)
Theorem ligne_date {number : Type} (toLocaleString_fr : number -> string)
    (toLowerCase : string -> string) (e : Urssaf.Echeance number) :
  (forall y m d,
     every (Regex.isnt "-") y = true -> every (Regex.isnt "-") m = true ->
     every (Regex.isnt "-") d = true ->
     Urssaf.dateExigibilite e = y ++ "-" ++ m ++ "-" ++ d ->
     Urssaf.Date (Urssaf.ligne toLocaleString_fr toLowerCase e) = d ++ "/" ++ m ++ "/" ++ y)
  /\ (forall y m d rest,
        every (Regex.isnt "-") y = true -> every (Regex.isnt "-") m = true ->
        every (Regex.isnt "-") d = true ->
        Urssaf.dateExigibilite e = y ++ "-" ++ m ++ "-" ++ d ++ "-" ++ rest ->
        Urssaf.Date (Urssaf.ligne toLocaleString_fr toLowerCase e) = d ++ "/" ++ m ++ "/" ++ y)
  /\ (every (Regex.isnt "-") (Urssaf.dateExigibilite e) = true ->
      Urssaf.Date (Urssaf.ligne toLocaleString_fr toLowerCase e)
      = "undefined/undefined/" ++ Urssaf.dateExigibilite e).
Proof.
  unfold Urssaf.ligne. cbn [Urssaf.Date]. split; [|split].
  - intros y m d Hy Hm Hd ->.
    change (y ++ "-" ++ m ++ "-" ++ d) with (y ++ String "-" (m ++ String "-" d)).
    rewrite (split_app "-" y _ Hy), (split_app "-" m _ Hm), (split_plain "-" d Hd).
    reflexivity.
  - intros y m d rest Hy Hm Hd ->.
    change (y ++ "-" ++ m ++ "-" ++ d ++ "-" ++ rest)
      with (y ++ String "-" (m ++ String "-" (d ++ String "-" rest))).
    rewrite (split_app "-" y _ Hy), (split_app "-" m _ Hm), (split_app "-" d _ Hd).
    reflexivity.
  - intros H. rewrite (split_plain "-" _ H). reflexivity.
Qed.

Lemma ligne_date_witness :
  Urssaf.Date (Urssaf.ligne (fun z => JSON.number z) (fun s => s)
                 {| Urssaf.montantTotal := 120000%Z; Urssaf.montantNonPaye := 20000%Z;
                    Urssaf.montantPaye := 100000%Z; Urssaf.dateExigibilite := "2024-02-05";
                    Urssaf.etatEcheance := "PAYEE" |})
  = "05" ++ "/" ++ "02" ++ "/" ++ "2024".
Proof.
  apply (proj1 (ligne_date (fun z => JSON.number z) (fun s => s)
                  {| Urssaf.montantTotal := 120000%Z; Urssaf.montantNonPaye := 20000%Z;
                     Urssaf.montantPaye := 100000%Z; Urssaf.dateExigibilite := "2024-02-05";
                     Urssaf.etatEcheance := "PAYEE" |}) "2024" "02" "05"); reflexivity.
Defined.

(** X21.  The state of a row.  The replacement made on the lower-cased
    [etatEcheance] rewrites a final [ee] into [ée] and changes nothing
    else: a text that ends with [ee] has these two letters replaced, a text
    that does not is left as it is, and an [ee] elsewhere stays. *)
Theorem replace_final_ee_spec (s : string) :
  (forall p, s = p ++ "ee" -> Urssaf.replace_final_ee s = p ++ "ée")
  /\ ((forall p, s <> p ++ "ee") -> Urssaf.replace_final_ee s = s).
Proof.
  split.
  - intros p ->. induction p as [|c p IH].
    + reflexivity.
    + cbn [String.append Urssaf.replace_final_ee].
      destruct (String.eqb_spec (String c (p ++ "ee")) "ee") as [E|_].
      * apply (f_equal String.length) in E. cbn in E. rewrite length_append in E.
        cbn in E. lia.
      * now rewrite IH.
  - induction s as [|c s IH]; intros H; [reflexivity|].
    cbn [Urssaf.replace_final_ee].
    destruct (String.eqb_spec (String c s) "ee") as [E|_].
    + exfalso. apply (H EmptyString). exact E.
    + rewrite IH; [reflexivity|]. intros p ->. apply (H (String c p)). reflexivity.
Qed.

Lemma replace_final_ee_spec_witness :
  Urssaf.replace_final_ee "payee" = "pay" ++ "ée"
  /\ Urssaf.replace_final_ee "a_venir" = "a_venir".
Proof.
  split.
  - apply (proj1 (replace_final_ee_spec "payee") "pay"). reflexivity.
  - apply (proj2 (replace_final_ee_spec "a_venir")).
    intros p H. apply (f_equal Str.rev) in H.
    assert (Hrev : forall a b, Str.rev (a ++ b) = Str.rev b ++ Str.rev a).
    { intros a b. unfold Str.rev.
      rewrite <- string_of_list_app, <- rev_app_distr. f_equal. f_equal.
      clear. induction a as [|c a IH]; cbn; [reflexivity | now rewrite IH]. }
    rewrite Hrev in H. cbn in H. discriminate H.
Defined.

(** *** The width of the totals *)

Lemma utf16_length_app (a b : string) :
  Urssaf.utf16_length (a ++ b) = (Urssaf.utf16_length a + Urssaf.utf16_length b)%nat.
Proof.
  induction a as [|c a IH]; [reflexivity|].
  cbn [String.append Urssaf.utf16_length]. rewrite IH. lia.
Qed.

Lemma utf16_length_spaces (n : nat) : Urssaf.utf16_length (Urssaf.spaces n) = n.
Proof. induction n as [|n IH]; [reflexivity|]. cbn. now rewrite IH. Qed.

(** X22.  Padding counts UTF-16 code units.  [padStart] and [padEnd] add
    spaces only: before, respectively after, the text, as many as it takes
    to reach [width] code units; a text that is already that long or longer
    is left as it is. *)
Theorem padding_reaches_width (s : string) (width : nat) :
  (exists n, Urssaf.padStart s width = Urssaf.spaces n ++ s
             /\ Urssaf.padEnd s width = s ++ Urssaf.spaces n
             /\ n = (width - Urssaf.utf16_length s)%nat)
  /\ Urssaf.utf16_length (Urssaf.padStart s width) = Nat.max width (Urssaf.utf16_length s)
  /\ Urssaf.utf16_length (Urssaf.padEnd s width) = Nat.max width (Urssaf.utf16_length s)
  /\ ((width <= Urssaf.utf16_length s)%nat ->
      Urssaf.padStart s width = s /\ Urssaf.padEnd s width = s).
Proof.
  unfold Urssaf.padStart, Urssaf.padEnd. split; [|split; [|split]].
  - eexists. repeat split.
  - rewrite utf16_length_app, utf16_length_spaces. lia.
  - rewrite utf16_length_app, utf16_length_spaces. lia.
  - intros H. replace (width - Urssaf.utf16_length s)%nat with 0%nat by lia.
    cbn [Urssaf.spaces String.append]. now rewrite append_nil_r.
Qed.

Lemma padding_reaches_width_witness :
  Urssaf.padStart "1 234 567,89 €" 12 = "1 234 567,89 €"
  /\ Urssaf.padEnd "1 234 567,89 €" 12 = "1 234 567,89 €".
Proof.
  apply (proj2 (proj2 (proj2 (padding_reaches_width "1 234 567,89 €" 12)))).
  vm_compute. lia.
Defined.

(** ** Where the password goes

    A program of the monad reads its past only through the number of calls
    made; from two states that [agree] it does the same. *)

Lemma uniform_lift {A} (o : Outcome A) : uniform (lift o).
Proof. intros w st1 st2 [Hs Hl]. repeat split; [exact Hs|]. now exists []. Qed.

Lemma uniform_bind {A B} (m : M A) (k : A -> M B) :
  uniform m -> (forall a, uniform (k a)) -> uniform (bind m k).
Proof.
  intros Hm Hk w st1 st2 Hag. unfold bind.
  destruct (Hm w st1 st2 Hag) as (Ho & Hs & new & L1 & L2).
  destruct (m w st1) as [o1 s1], (m w st2) as [o2 s2]. cbn [fst snd] in *. subst o2.
  destruct o1 as [a|e].
  - destruct (Hk a w s1 s2) as (Ho' & Hs' & new' & L1' & L2').
    { split; [exact Hs|]. rewrite L1, L2, !length_app. f_equal. apply Hag. }
    split; [exact Ho'|]. split; [exact Hs'|].
    exists (new' ++ new)%list. rewrite L1', L2', L1, L2, <- !List.app_assoc. auto.
  - cbn [fst snd]. split; [reflexivity|]. split; [exact Hs|]. eauto.
Qed.

Lemma uniform_fetch rq : uniform (fetch rq).
Proof.
  intros w st1 st2 [Hs Hl]. unfold fetch, now_index. rewrite Hl.
  destruct (http w (List.length (log st2)) rq); cbn [fst snd secrets log record];
    (split; [reflexivity|]; split; [exact Hs|]; exists [Fetch rq]; split; reflexivity).
Qed.

Lemma uniform_randomBytes n : uniform (randomBytes n).
Proof.
  intros w st1 st2 [Hs Hl]. unfold randomBytes, now_index. rewrite Hl.
  cbn [fst snd secrets log record].
  split; [reflexivity|]. split; [exact Hs|]. exists [RandomBytes n]. split; reflexivity.
Qed.

Lemma uniform_secrets_delete service name : uniform (secrets_delete service name).
Proof.
  intros w st1 st2 [Hs Hl]. unfold secrets_delete. cbn [fst snd secrets log].
  split; [reflexivity|]. split; [now rewrite Hs|].
  exists [SecretsDelete service name]. split; reflexivity.
Qed.

Ltac uniform_step :=
  cbv beta iota;
  lazymatch goal with
  | |- uniform (bind _ _) => apply uniform_bind; [|intros ?]
  | |- uniform (ret _) => apply uniform_lift
  | |- uniform (throw _) => apply uniform_lift
  | |- uniform (lift _) => apply uniform_lift
  | |- uniform (fetch _) => apply uniform_fetch
  | |- uniform (randomBytes _) => apply uniform_randomBytes
  | |- uniform (secrets_delete _ _) => apply uniform_secrets_delete
  | |- uniform (deleteCredentials _) => unfold deleteCredentials
  | |- uniform (if ?b then _ else _) => destruct b
  | |- uniform (match ?x with _ => _ end) => destruct x
  end.

Lemma uniform_walk {rt : Runtime} (budget : nat) : forall url, uniform (Kbis.walk budget url).
Proof.
  induction budget as [|k IH]; intros url; cbn [Kbis.walk]; repeat uniform_step. apply IH.
Qed.

(** From two states that agree, the new events of the two runs are the
    same. *)
Lemma uniform_events {A} (m : M A) (w : World) (st st1 st2 : State) (e1 e2 : list Event) :
  uniform m ->
  secrets st1 = secrets st2 ->
  log st1 = (e1 ++ log st)%list -> log st2 = (e2 ++ log st)%list ->
  List.length e1 = List.length e2 ->
  fst (m w st1) = fst (m w st2)
  /\ secrets (snd (m w st1)) = secrets (snd (m w st2))
  /\ exists new, run_events st (snd (m w st1)) = (List.rev e1 ++ new)%list
                 /\ run_events st (snd (m w st2)) = (List.rev e2 ++ new)%list.
Proof.
  intros Hm Hs L1 L2 Hlen.
  destruct (Hm w st1 st2) as (Ho & Hs' & new & N1 & N2).
  { split; [exact Hs|]. rewrite L1, L2, !length_app. now rewrite Hlen. }
  split; [exact Ho|]. split; [exact Hs'|]. exists (List.rev new).
  rewrite (run_events_app st _ (new ++ e1)%list), (run_events_app st _ (new ++ e2)%list).
  - now rewrite !rev_app_distr.
  - now rewrite N2, L2, List.app_assoc.
  - now rewrite N1, L1, List.app_assoc.
Qed.

(** Two runs that reach different requests after the same calls, when the
    two requests are answered alike. *)
Lemma request_apart {A} (rq1 rq2 : Request) (k : Response -> M A)
    (w : World) (st0 st : State) (before : list Event) :
  (forall res, uniform (k res)) ->
  log st = (before ++ log st0)%list ->
  http w (now_index st) rq1 = http w (now_index st) rq2 ->
  fst (bind (fetch rq1) k w st) = fst (bind (fetch rq2) k w st)
  /\ secrets (snd (bind (fetch rq1) k w st)) = secrets (snd (bind (fetch rq2) k w st))
  /\ exists rest,
       run_events st0 (snd (bind (fetch rq1) k w st))
       = (List.rev before ++ Fetch rq1 :: rest)%list
       /\ run_events st0 (snd (bind (fetch rq2) k w st))
          = (List.rev before ++ Fetch rq2 :: rest)%list.
Proof.
  intros Hk Hlog Hsame. unfold bind, fetch. rewrite Hsame.
  destruct (http w (now_index st) rq2) as [res|].
  - destruct (uniform_events (k res) w st0 (record (Fetch rq1) st) (record (Fetch rq2) st)
                (Fetch rq1 :: before) (Fetch rq2 :: before) (Hk res))
      as (Ho & Hs & new & E1 & E2);
      try (cbn [record log secrets List.length]; now rewrite ?Hlog).
    split; [exact Ho|]. split; [exact Hs|]. exists new.
    rewrite E1, E2. cbn [List.rev]. now rewrite <- !List.app_assoc.
  - cbn [fst snd secrets record]. split; [reflexivity|]. split; [reflexivity|].
    exists []. split.
    + rewrite (run_events_app st0 _ (Fetch rq1 :: before)).
      * reflexivity.
      * cbn [record log]. now rewrite Hlog.
    + rewrite (run_events_app st0 _ (Fetch rq2 :: before)).
      * reflexivity.
      * cbn [record log]. now rewrite Hlog.
Qed.

(** Two programs that start with the same step. *)
Lemma same_start {A B} (m : M A) (k1 k2 : A -> M B) (w : World) (st : State)
    (R : Outcome B * State -> Outcome B * State -> Prop) :
  (forall e s, m w st = (Thrown e, s) -> R (Thrown e, s) (Thrown e, s)) ->
  (forall a s, m w st = (Returned a, s) -> R (k1 a w s) (k2 a w s)) ->
  R (bind m k1 w st) (bind m k2 w st).
Proof. intros He Ha. unfold bind. destruct (m w st) as [[a|e] s]; auto. Qed.

(** X23.  The URSSAF password goes to [/cnx] and nowhere else.  The first
    call of [login] of [mes-echeances-urssaf.ts] is the POST to [/cnx]
    that carries the password.  Apart from it the run does not depend on
    the password: for two passwords that the server answers alike, the two
    runs have the same outcome, leave the same keychain and make the same
    calls after the first. *)
Theorem urssaf_password_only_to_cnx {rt : Runtime} (identifiant p1 p2 : string)
    (w : World) (st : State) :
  http w (now_index st) (Urssaf.cnx_request identifiant p1)
    = http w (now_index st) (Urssaf.cnx_request identifiant p2) ->
  let run1 := Urssaf.login identifiant p1 w st in
  let run2 := Urssaf.login identifiant p2 w st in
  fst run1 = fst run2
  /\ secrets (snd run1) = secrets (snd run2)
  /\ exists rest,
       run_events st (snd run1) = Fetch (Urssaf.cnx_request identifiant p1) :: rest
       /\ run_events st (snd run2) = Fetch (Urssaf.cnx_request identifiant p2) :: rest.
Proof.
  intros Hsame.
  destruct (request_apart (Urssaf.cnx_request identifiant p1)
              (Urssaf.cnx_request identifiant p2)
            (fun res =>
               if falsy (parseCookies res "ctxUrssaf")
               then if Str.includes (text res) Urssaf.bad_credentials_marker
                    then deleteCredentials urssaf ;;; throw Urssaf.credentials_rejected
                    else throw Urssaf.contract_changed
               else Urssaf.oidc res (unwrap (parseCookies res "ctxUrssaf")))
            w st st [] ) as (Ho & Hs & rest & E1 & E2);
    [ intros res; unfold Urssaf.oidc; repeat uniform_step | reflexivity | exact Hsame | ].
  split; [exact Ho|]. split; [exact Hs|]. exists rest. split; [exact E1 | exact E2].
Qed.

Lemma urssaf_password_only_to_cnx_witness :
  fst (Urssaf.login (rt := Sample.runtime) "12345678900011" "hunter2"
         Sample.urssaf_ok (Sample.start ∅))
  = fst (Urssaf.login (rt := Sample.runtime) "12345678900011" "correct horse"
           Sample.urssaf_ok (Sample.start ∅)).
Proof.
  refine (proj1 (urssaf_password_only_to_cnx (rt := Sample.runtime) "12345678900011"
                   "hunter2" "correct horse" Sample.urssaf_ok (Sample.start ∅) _)).
  reflexivity.
Defined.

(** X24.  The monidenum password goes to the form action and nowhere
    else.  In [login] of [mon-kbis.ts] the third call is the POST that
    carries the password.  Apart from it the run does not depend on the
    password: for two passwords whose POST the server answers alike,
    whatever the form action and the cookies, the two runs have the same
    outcome, make the same first two calls and the same calls after the
    third; and their third calls are the same POST but for the password. *)
Theorem kbis_password_only_to_form_action {rt : Runtime} (email p1 p2 : string)
    (w : World) (st : State) :
  (forall actionUrl cookies,
     http w (2 + now_index st) (Kbis.login_post actionUrl cookies email p1)
     = http w (2 + now_index st) (Kbis.login_post actionUrl cookies email p2)) ->
  let run1 := Kbis.login email p1 w st in
  let run2 := Kbis.login email p2 w st in
  fst run1 = fst run2
  /\ firstn 2 (run_events st (snd run1)) = firstn 2 (run_events st (snd run2))
  /\ skipn 3 (run_events st (snd run1)) = skipn 3 (run_events st (snd run2))
  /\ forall rq, nth_error (run_events st (snd run1)) 2 = Some (Fetch rq) ->
       exists actionUrl cookies,
         rq = Kbis.login_post actionUrl cookies email p1
         /\ nth_error (run_events st (snd run2)) 2
            = Some (Fetch (Kbis.login_post actionUrl cookies email p2)).
Proof.
  intros Hsame. cbv zeta.
  set (R := fun r1 r2 : Outcome string * State =>
    fst r1 = fst r2
    /\ firstn 2 (run_events st (snd r1)) = firstn 2 (run_events st (snd r2))
    /\ skipn 3 (run_events st (snd r1)) = skipn 3 (run_events st (snd r2))
    /\ forall rq, nth_error (run_events st (snd r1)) 2 = Some (Fetch rq) ->
         exists actionUrl cookies,
           rq = Kbis.login_post actionUrl cookies email p1
           /\ nth_error (run_events st (snd r2)) 2
              = Some (Fetch (Kbis.login_post actionUrl cookies email p2))).
  change (R (Kbis.login email p1 w st) (Kbis.login email p2 w st)).
  assert (Hstop : forall (o : Outcome string) (s : State) (new : list Event),
            log s = (new ++ log st)%list -> (List.length new <= 2)%nat -> R (o, s) (o, s)).
  { intros o s new Hlog Hlen. unfold R. cbn [fst snd]. repeat split.
    intros rq Hrq. rewrite (run_events_app st s new Hlog) in Hrq.
    assert (2 < List.length (List.rev new))%nat by (apply nth_error_Some; congruence).
    rewrite length_rev in *. lia. }
  unfold Kbis.login. apply same_start.
  { intros e s H. unfold fetch in H. destruct (http _ _ _); injection H as _ <-.
    all: apply (Hstop _ _ [Fetch (Kbis.get_manual "https://monidenum.fr/login")]);
      [reflexivity | cbn; lia]. }
  intros loginPageRes s1 H1.
  assert (Hs1 : s1 = record (Fetch (Kbis.get_manual "https://monidenum.fr/login")) st).
  { unfold fetch in H1. destruct (http _ _ _); now injection H1 as _ <-. }
  subst s1. clear H1. apply same_start.
  { intros e s H. injection H as _ <-.
    apply (Hstop _ _ [Fetch (Kbis.get_manual "https://monidenum.fr/login")]);
      [reflexivity | cbn; lia]. }
  intros keycloakUrl s H. injection H as _ <-. apply same_start.
  { intros e s H. unfold fetch in H. destruct (http _ _ _); injection H as _ <-.
    all: apply (Hstop _ _ [Fetch (Kbis.get_follow keycloakUrl);
                           Fetch (Kbis.get_manual "https://monidenum.fr/login")]);
      [reflexivity | cbn; lia]. }
  intros keycloakRes s2 H2.
  assert (Hs2 : s2 = record (Fetch (Kbis.get_follow keycloakUrl))
                       (record (Fetch (Kbis.get_manual "https://monidenum.fr/login")) st)).
  { unfold fetch in H2. destruct (http _ _ _); now injection H2 as _ <-. }
  subst s2. clear H2. cbv beta zeta.
  destruct (Regex.match_action (text keycloakRes)) as [action|].
  2: { apply (Hstop _ _ [Fetch (Kbis.get_follow keycloakUrl);
                         Fetch (Kbis.get_manual "https://monidenum.fr/login")]);
         [reflexivity | cbn; lia]. }
  match goal with
  | |- R (bind (fetch ?rq1) ?k w ?s) (bind (fetch ?rq2) _ w _) =>
      destruct (request_apart rq1 rq2 k w st s
                  [Fetch (Kbis.get_follow keycloakUrl);
                   Fetch (Kbis.get_manual "https://monidenum.fr/login")])
        as (Ho & _ & rest & E1 & E2);
        [ intros res; repeat uniform_step; apply uniform_walk
        | reflexivity
        | apply Hsame
        | ]
  end.
  unfold R. rewrite E1, E2. cbn [List.rev List.app firstn skipn nth_error].
  split; [exact Ho|]. split; [reflexivity|]. split; [reflexivity|].
  intros rq [= <-]. eauto.
Qed.

Lemma kbis_password_only_to_form_action_witness :
  fst (Kbis.login (rt := Sample.runtime) "marie@example.org" "hunter2"
         Sample.kbis_second_hop (Sample.start ∅))
  = fst (Kbis.login (rt := Sample.runtime) "marie@example.org" "correct horse"
           Sample.kbis_second_hop (Sample.start ∅)).
Proof.
  refine (proj1 (kbis_password_only_to_form_action (rt := Sample.runtime)
                   "marie@example.org" "hunter2" "correct horse"
                   Sample.kbis_second_hop (Sample.start ∅) _)).
  reflexivity.
Defined.

(** ** Where the redirect walk goes *)

(** The URLs of the walk: the first is the one given, and each next one is
    the [location] of the answer to the hop before -- an answer with status
    302 that set no session cookie -- as it is when it starts with [http]
    and after [https://monidenum.fr] otherwise. *)
Lemma walk_chain {rt : Runtime} (w : World) (budget : nat) :
  forall (currentUrl : string) (st : State),
  exists urls : list string,
    log (snd (Kbis.walk budget currentUrl w st))
    = (List.rev (map Kbis.hop urls) ++ log st)%list
    /\ (forall u, nth_error urls 0 = Some u -> u = currentUrl)
    /\ (forall i u u',
          nth_error urls i = Some u -> nth_error urls (S i) = Some u' ->
          exists res next,
            http w (i + now_index st) (Kbis.get_manual u) = Some res
            /\ falsy (parseCookies res "PHPSESSID") = true
            /\ status res = 302%Z
            /\ location res = Some next /\ next <> EmptyString
            /\ u' = Kbis.resolve next).
Proof.
  induction budget as [|k IH]; intros currentUrl st.
  - exists []. cbn. split; [reflexivity|]. split; [discriminate|].
    intros i u u' Hi. destruct i; discriminate Hi.
  - assert (Hone : forall s : State,
              log s = (Kbis.hop currentUrl :: log st)%list ->
              exists urls : list string,
                log s = (List.rev (map Kbis.hop urls) ++ log st)%list
                /\ (forall u, nth_error urls 0 = Some u -> u = currentUrl)
                /\ (forall i u u',
                      nth_error urls i = Some u -> nth_error urls (S i) = Some u' ->
                      exists res next,
                        http w (i + now_index st) (Kbis.get_manual u) = Some res
                        /\ falsy (parseCookies res "PHPSESSID") = true
                        /\ status res = 302%Z
                        /\ location res = Some next /\ next <> EmptyString
                        /\ u' = Kbis.resolve next)).
    { intros s Hs. exists [currentUrl]. split; [exact Hs|]. split.
      - intros u [= <-]. reflexivity.
      - intros i u u' _ Hi. destruct i; discriminate Hi. }
    cbn [Kbis.walk]. unfold bind, fetch.
    destruct (http w (now_index st) (Kbis.get_manual currentUrl)) as [res|] eqn:Hres;
      [|now apply Hone].
    cbv zeta.
    destruct (falsy (parseCookies res "PHPSESSID")) eqn:Hcookie; cbn [negb];
      [|now apply Hone].
    destruct (falsy (location res) || negb (status res =? 302)%Z) eqn:Hstop;
      [now apply Hone|].
    apply orb_false_iff in Hstop as [Hloc Hstatus].
    apply negb_false_iff, Z.eqb_eq in Hstatus.
    destruct (location res) as [next|] eqn:Hnext; [|discriminate Hloc].
    apply falsy_set in Hloc. cbn [unwrap].
    destruct (IH (Kbis.resolve next) (record (Fetch (Kbis.get_manual currentUrl)) st))
      as (urls & Hlog & Hhead & Hchain).
    exists (currentUrl :: urls). split; [|split].
    + rewrite Hlog. cbn [map List.rev record log].
      exact (List.app_assoc _ [Kbis.hop currentUrl] (log st)).
    + intros u [= <-]. reflexivity.
    + intros i u u' Hi Hi'. destruct i as [|i].
      * injection Hi as <-. cbn [nth_error] in Hi'.
        exists res, next. rewrite (Hhead _ Hi'). cbn [Nat.add]. auto 10.
      * cbn [nth_error] in Hi, Hi'.
        destruct (Hchain i u u' Hi Hi') as (r & n & Hr & H).
        exists r, n. split; [|exact H].
        replace (S i + now_index st)%nat
          with (i + now_index (record (Fetch (Kbis.get_manual currentUrl)) st))%nat
          by (unfold now_index, record; cbn [log List.length]; lia).
        exact Hr.
Qed.

Lemma resolve_absolute (next : string) :
  Str.startsWith (Kbis.resolve next) "http" = true.
Proof.
  unfold Kbis.resolve. destruct (Str.startsWith next "http") eqn:E; [exact E | reflexivity].
Qed.

(** X25.  Where the redirect walk goes.  In every run of [login] of
    [mon-kbis.ts], the request that follows the login POST goes to the
    [location] of its answer, as it is.  Every later request goes where
    the answer to the request before it points: that answer has status
    302, sets no session cookie and carries a non-empty [location], which
    is taken as it is when it starts with [http] and is put after
    [https://monidenum.fr] otherwise; so the URL of every request after
    the fourth starts with [http]. *)
Theorem redirect_walk_follows_location {rt : Runtime} (email password : string)
    (w : World) (st : State) :
  let events := run_events st (snd (Kbis.login email password w st)) in
  let n := now_index st in
  (forall u, nth_error events 3 = Some (Fetch (Kbis.get_manual u)) ->
     exists post loginRes,
       nth_error events 2 = Some (Fetch post)
       /\ http w (2 + n) post = Some loginRes
       /\ status loginRes = 302%Z
       /\ location loginRes = Some u)
  /\ (forall i u u',
        nth_error events (3 + i) = Some (Fetch (Kbis.get_manual u)) ->
        nth_error events (4 + i) = Some (Fetch (Kbis.get_manual u')) ->
        exists res next,
          http w (3 + i + n) (Kbis.get_manual u) = Some res
          /\ falsy (parseCookies res "PHPSESSID") = true
          /\ status res = 302%Z
          /\ location res = Some next /\ next <> EmptyString
          /\ u' = (if Str.startsWith next "http" then next
                   else "https://monidenum.fr" ++ next)
          /\ Str.startsWith u' "http" = true).
Proof.
  cbv zeta.
  change (wp w (Kbis.login email password) st (fun _ st' =>
    (forall u, nth_error (run_events st st') 3 = Some (Fetch (Kbis.get_manual u)) ->
       exists post loginRes,
         nth_error (run_events st st') 2 = Some (Fetch post)
         /\ http w (2 + now_index st) post = Some loginRes
         /\ status loginRes = 302%Z
         /\ location loginRes = Some u)
    /\ (forall i u u',
          nth_error (run_events st st') (3 + i) = Some (Fetch (Kbis.get_manual u)) ->
          nth_error (run_events st st') (4 + i) = Some (Fetch (Kbis.get_manual u')) ->
          exists res next,
            http w (3 + i + now_index st) (Kbis.get_manual u) = Some res
            /\ falsy (parseCookies res "PHPSESSID") = true
            /\ status res = 302%Z
            /\ location res = Some next /\ next <> EmptyString
            /\ u' = (if Str.startsWith next "http" then next
                     else "https://monidenum.fr" ++ next)
            /\ Str.startsWith u' "http" = true))).
  unfold Kbis.login. wp_run.
  all: try (at_end; split;
            [ intros u Hu; discriminate Hu
            | intros i u u' Hu; destruct i; discriminate Hu ]).
  match goal with
  | |- wp w (Kbis.walk 5 ?url) ?s _ =>
      unfold wp at 1;
      destruct (walk_chain w 5 url s) as (urls & Hlog & Hhead & Hchain);
      generalize dependent (Kbis.walk 5 url w s)
  end.
  intros [out st'] Hlog. cbn [fst snd] in *.
  assert (Hevents : run_events st st'
          = (Fetch (Kbis.get_manual "https://monidenum.fr/login")
             :: Fetch (Kbis.get_follow a)
             :: Fetch (Kbis.login_post (Str.replaceAll s "&amp;" "&")
                         (Kbis.authCookies res0) email password)
             :: map Kbis.hop urls)%list).
  { apply events_with_hops. exact Hlog. }
  assert (Hgoal :
    (forall u, nth_error (run_events st st') 3 = Some (Fetch (Kbis.get_manual u)) ->
       exists post loginRes,
         nth_error (run_events st st') 2 = Some (Fetch post)
         /\ http w (2 + now_index st) post = Some loginRes
         /\ status loginRes = 302%Z
         /\ location loginRes = Some u)
    /\ (forall i u u',
          nth_error (run_events st st') (3 + i) = Some (Fetch (Kbis.get_manual u)) ->
          nth_error (run_events st st') (4 + i) = Some (Fetch (Kbis.get_manual u')) ->
          exists res next,
            http w (3 + i + now_index st) (Kbis.get_manual u) = Some res
            /\ falsy (parseCookies res "PHPSESSID") = true
            /\ status res = 302%Z
            /\ location res = Some next /\ next <> EmptyString
            /\ u' = (if Str.startsWith next "http" then next
                     else "https://monidenum.fr" ++ next)
            /\ Str.startsWith u' "http" = true)).
  { rewrite Hevents. split.
    - intros u Hu. change (nth_error (map Kbis.hop urls) 0 = Some (Kbis.hop u)) in Hu.
      apply nth_error_hops in Hu. apply Hhead in Hu.
      eexists _, res1. split; [reflexivity|]. split; [eassumption|].
      apply negb_false_iff, Z.eqb_eq in Heqb.
      apply orb_false_iff in Heqb0 as [Hloc _].
      destruct (location res1) as [loc|]; [|discriminate Hloc].
      cbn [unwrap] in Hu. split; [exact Heqb|]. now rewrite Hu.
    - intros i u u' Hu Hu'.
      change (nth_error (map Kbis.hop urls) i = Some (Kbis.hop u)) in Hu.
      change (nth_error (map Kbis.hop urls) (S i) = Some (Kbis.hop u')) in Hu'.
      apply nth_error_hops in Hu, Hu'.
      destruct (Hchain i u u' Hu Hu') as (r & next & Hr & Hc & Hst & Hl & Hne & ->).
      exists r, next.
      replace (3 + i + now_index st)%nat
        with (i + now_index
                    (record (Fetch (Kbis.login_post (Str.replaceAll s "&amp;" "&")
                                      (Kbis.authCookies res0) email password))
                       (record (Fetch (Kbis.get_follow a))
                          (record (Fetch (Kbis.get_manual "https://monidenum.fr/login"))
                             st))))%nat
        by (unfold now_index, record; cbn [log List.length]; lia).
      repeat split; try assumption. apply resolve_absolute. }
  destruct out as [v|e]; [|exact Hgoal].
  wp_run; exact Hgoal.
Qed.

Lemma redirect_walk_follows_location_witness :
  exists post loginRes,
    nth_error (run_events (Sample.start ∅)
                 (snd (Kbis.login (rt := Sample.runtime) "marie@example.org" "hunter2"
                         Sample.kbis_second_hop (Sample.start ∅)))) 2
    = Some (Fetch post)
    /\ http Sample.kbis_second_hop (2 + now_index (Sample.start ∅)) post = Some loginRes
    /\ status loginRes = 302%Z
    /\ location loginRes = Some "https://monidenum.fr/sso/1".
Proof.
  apply (proj1 (redirect_walk_follows_location (rt := Sample.runtime)
                  "marie@example.org" "hunter2" Sample.kbis_second_hop (Sample.start ∅))).
  vm_compute. reflexivity.
Defined.

(** ** How the URSSAF login can fail *)

(** X26.  How [login] of [mes-echeances-urssaf.ts] can fail, and what it
    does to the keychain.  In every run, whatever the servers answer: the
    keychain is left as it was unless the credentials-rejected error is
    thrown, in which case the [urssaf] credentials were deleted and nothing
    else; that error is only thrown when [/cnx] answered without the
    context cookie and with the marker in its body; and an error thrown is
    one of six: a request that failed, the credentials-rejected error,
    the contract-change error, or the [URIError], [SyntaxError] or
    [TypeError] of an answer that cannot be read. *)
Theorem urssaf_login_failures {rt : Runtime} (identifiant password : string)
    (w : World) (st : State) :
  let out := fst (Urssaf.login identifiant password w st) in
  let st' := snd (Urssaf.login identifiant password w st) in
  (out <> Thrown Urssaf.credentials_rejected -> secrets st' = secrets st)
  /\ (out = Thrown Urssaf.credentials_rejected ->
      secrets st' = delete (KEYCHAIN_SERVICE, "urssaf") (secrets st)
      /\ exists res,
           http w (now_index st) (Urssaf.cnx_request identifiant password) = Some res
           /\ falsy (parseCookies res "ctxUrssaf") = true
           /\ Str.includes (text res) Urssaf.bad_credentials_marker = true)
  /\ (forall e, out = Thrown e ->
        e = FetchError \/ e = Urssaf.credentials_rejected \/ e = Urssaf.contract_changed
        \/ e = URIError \/ e = SyntaxError \/ e = TypeError).
Proof.
  cbv zeta.
  change (wp w (Urssaf.login identifiant password) st (fun out st' =>
    (out <> Thrown Urssaf.credentials_rejected -> secrets st' = secrets st)
    /\ (out = Thrown Urssaf.credentials_rejected ->
        secrets st' = delete (KEYCHAIN_SERVICE, "urssaf") (secrets st)
        /\ exists res,
             http w (now_index st) (Urssaf.cnx_request identifiant password) = Some res
             /\ falsy (parseCookies res "ctxUrssaf") = true
             /\ Str.includes (text res) Urssaf.bad_credentials_marker = true)
    /\ (forall e, out = Thrown e ->
          e = FetchError \/ e = Urssaf.credentials_rejected \/ e = Urssaf.contract_changed
          \/ e = URIError \/ e = SyntaxError \/ e = TypeError))).
  assert (Hdecode : forall v e, Urssaf.decode_context v = Thrown e ->
            e = URIError \/ e = SyntaxError \/ e = TypeError).
  { intros v e. unfold Urssaf.decode_context, and_then, of_option, JSON_parse, prop.
    destruct (Uri.decodeURIComponent v); [|intros [= <-]; auto].
    destruct (JSON.parse _) as [[]|]; intros [= <-]; auto. }
  assert (Hprop : forall v k e, prop v k = Thrown e -> e = TypeError).
  { intros v k e. unfold prop. destruct v as [[]|]; intros [= <-]; reflexivity. }
  assert (Hjson : forall r e, json r = Thrown e -> e = SyntaxError).
  { intros r e. unfold json, JSON_parse, of_option.
    destruct (JSON.parse _); intros [= <-]; reflexivity. }
  assert (Hsearch : forall h k e, searchParam h k = Thrown e -> e = TypeError).
  { intros h k e. unfold searchParam, of_option. destruct h; [|intros [= <-]; reflexivity].
    destruct (URL_searchParam _ _); intros [= <-]; reflexivity. }
  assert (Hsafe : forall (o : Outcome Urssaf.AuthResult) (s' : State),
            secrets s' = secrets st ->
            (forall e, o = Thrown e ->
               e = FetchError \/ e = Urssaf.contract_changed
               \/ e = URIError \/ e = SyntaxError \/ e = TypeError) ->
            (o <> Thrown Urssaf.credentials_rejected -> secrets s' = secrets st)
            /\ (o = Thrown Urssaf.credentials_rejected ->
                secrets s' = delete (KEYCHAIN_SERVICE, "urssaf") (secrets st)
                /\ exists res,
                     http w (now_index st) (Urssaf.cnx_request identifiant password)
                     = Some res
                     /\ falsy (parseCookies res "ctxUrssaf") = true
                     /\ Str.includes (text res) Urssaf.bad_credentials_marker = true)
            /\ (forall e, o = Thrown e ->
                  e = FetchError \/ e = Urssaf.credentials_rejected
                  \/ e = Urssaf.contract_changed
                  \/ e = URIError \/ e = SyntaxError \/ e = TypeError)).
  { intros o s' Hs He. split; [auto|]. split.
    - intros ->. destruct (He _ eq_refl) as [H|[H|[H|[H|H]]]]; discriminate H.
    - intros e Hoe. destruct (He _ Hoe) as [H|[H|[H|[H|H]]]]; auto 10. }
  unfold Urssaf.login, Urssaf.oidc. wp_run.
  all: try (apply Hsafe; [reflexivity|]; intros e0 He0;
            first [ discriminate He0 | injection He0 as He0 ]; subst;
            try match goal with
                | H : Urssaf.decode_context _ = Thrown _ |- _ =>
                    apply Hdecode in H; destruct H as [->|[->| ->]]
                | H : prop _ _ = Thrown _ |- _ => apply Hprop in H; subst
                | H : json _ = Thrown _ |- _ => apply Hjson in H; subst
                | H : searchParam _ _ = Thrown _ |- _ => apply Hsearch in H; subst
                end;
            auto 10; fail).
  cbn [secrets record]. split; [intros Hne; now contradiction Hne|]. split.
  - intros _. split; [reflexivity|]. eauto.
  - intros e0 [= <-]. auto.
Qed.

Lemma urssaf_login_failures_witness :
  secrets (snd (Urssaf.login (rt := Sample.runtime) "12345678900011" "hunter2"
                  (Sample.world [(0%nat, Sample.cnx_other)] 0 EmptyString true)
                  (Sample.start Sample.keychain_with_credentials)))
  = secrets (Sample.start Sample.keychain_with_credentials).
Proof.
  apply (proj1 (urssaf_login_failures (rt := Sample.runtime) "12345678900011" "hunter2"
                  (Sample.world [(0%nat, Sample.cnx_other)] 0 EmptyString true)
                  (Sample.start Sample.keychain_with_credentials))).
  vm_compute. discriminate.
Defined.

(** ** The message of a rejected login *)

Lemma span_rest (f : ascii -> bool) (s : string) :
  s = fst (Str.span f s) ++ snd (Str.span f s)
  /\ every f (fst (Str.span f s)) = true
  /\ match snd (Str.span f s) with String c _ => f c = false | EmptyString => True end.
Proof.
  destruct (Str.span f s) as [a b] eqn:E. cbn [fst snd]. now apply span_app.
Qed.

(** What the alert expression captures: a non-empty text without [<]
    which stands in the page after an attribute [class] whose value
    starts with [alert], past the [>] that closes the tag, and which runs
    to the next [<] or to the end of the page. *)
Lemma match_alert_sound (page captured : string) :
  Regex.match_alert page = Some captured ->
  captured <> EmptyString
  /\ every (Regex.isnt "<") captured = true
  /\ exists before class attributes after,
       page = before ++ Regex.alert_prefix ++ class ++ String Str.dq attributes
                     ++ String ">" captured ++ after
       /\ every (Regex.isnt Str.dq) class = true
       /\ every (Regex.isnt ">") attributes = true
       /\ match after with String c _ => c = "<"%char | EmptyString => True end.
Proof.
  induction page as [|c page IH]; intros H.
  - discriminate.
  - cbn [Regex.match_alert] in H.
    destruct (Regex.alert_here (String c page)) as [cap|] eqn:E.
    + injection H as ->. unfold Regex.alert_here in E.
      destruct (Str.after Regex.alert_prefix (String c page)) as [r|] eqn:Ea; [|discriminate].
      apply after_app in Ea.
      destruct (span_rest (Regex.isnt Str.dq) r) as (Hr & Hclass & Hq).
      destruct (snd (Str.span (Regex.isnt Str.dq) r)) as [|q r1]; [discriminate|].
      destruct (span_rest (Regex.isnt ">") r1) as (Hr1 & Hattr & Hgt).
      destruct (snd (Str.span (Regex.isnt ">") r1)) as [|g r2]; [discriminate|].
      destruct (span_rest (Regex.isnt "<") r2) as (Hr2 & Hcap & Hlt).
      destruct (fst (Str.span (Regex.isnt "<") r2)) as [|x cap'] eqn:Ecap; [discriminate|].
      injection E as <-.
      split; [discriminate|]. split; [exact Hcap|].
      exists EmptyString, (fst (Str.span (Regex.isnt Str.dq) r)),
             (fst (Str.span (Regex.isnt ">") r1)), (snd (Str.span (Regex.isnt "<") r2)).
      split; [|split; [exact Hclass|split; [exact Hattr|]]].
      * rewrite Ea. cbn [String.append]. f_equal. rewrite Hr at 1. f_equal.
        unfold Regex.isnt in Hq. apply negb_false_iff, Ascii.eqb_eq in Hq. subst q.
        f_equal. rewrite Hr1 at 1. f_equal.
        unfold Regex.isnt in Hgt. apply negb_false_iff, Ascii.eqb_eq in Hgt. subst g.
        f_equal. exact Hr2.
      * destruct (snd (Str.span (Regex.isnt "<") r2)) as [|l after]; [exact I|].
        unfold Regex.isnt in Hlt. now apply negb_false_iff, Ascii.eqb_eq in Hlt.
    + destruct (IH H) as (Hne & Hcap & before & class & attributes & after & -> & Hrest).
      split; [exact Hne|]. split; [exact Hcap|].
      now exists (String c before), class, attributes, after.
Qed.

Lemma match_alert_complete (page : string) :
  Str.includes page Regex.alert_prefix = false -> Regex.match_alert page = None.
Proof.
  induction page as [|c page IH]; intros H.
  - reflexivity.
  - rewrite includes_cons in H. apply orb_false_iff in H as [Hp Hrest].
    cbn [Regex.match_alert]. unfold Regex.alert_here.
    rewrite (after_none _ _ Hp). now apply IH.
Qed.

(** X27.  Where the message of a rejected login comes from.  The message
    that [login] of [mon-kbis.ts] puts after [Authentification: ] is
    [Erreur inconnue] when the page nowhere contains [class=] followed by a
    double quote and [alert].  Otherwise it is [Erreur inconnue] or the
    trimmed text, with [&#39;] turned into an apostrophe, of a non-empty
    stretch of the page without [<]: the one that follows the [>] closing a
    tag with an attribute [class] whose value starts with [alert], up to
    the next [<] or the end of the page. *)
Theorem errorMessage_from_page (page : string) :
  (Str.includes page Regex.alert_prefix = false -> Kbis.errorMessage page = "Erreur inconnue")
  /\ (Kbis.errorMessage page = "Erreur inconnue"
      \/ exists before class attributes captured after,
           page = before ++ Regex.alert_prefix ++ class ++ String Str.dq attributes
                         ++ String ">" captured ++ after
           /\ every (Regex.isnt Str.dq) class = true
           /\ every (Regex.isnt ">") attributes = true
           /\ every (Regex.isnt "<") captured = true
           /\ captured <> EmptyString
           /\ match after with String c _ => c = "<"%char | EmptyString => True end
           /\ Kbis.errorMessage page = Str.trim (Str.replaceAll captured "&#39;" "'")).
Proof.
  unfold Kbis.errorMessage. split.
  - intros H. now rewrite (match_alert_complete page H).
  - destruct (Regex.match_alert page) as [captured|] eqn:E; [|now left].
    right. destruct (match_alert_sound page captured E)
      as (Hne & Hcap & before & class & attributes & after & Hpage & Hclass & Hattr & Hafter).
    exists before, class, attributes, captured, after. auto 10.
Qed.

Lemma errorMessage_from_page_witness :
  Kbis.errorMessage "<h1>Maintenance</h1>" = "Erreur inconnue".
Proof.
  apply (proj1 (errorMessage_from_page "<h1>Maintenance</h1>")). reflexivity.
Defined.

(** ** The login POST that is not followed *)

Lemma match_alert_eq (s : string) :
  Regex.match_alert s
  = match Regex.alert_here s with
    | Some cap => Some cap
    | None => match s with EmptyString => None | String _ r => Regex.match_alert r end
    end.
Proof. destruct s; reflexivity. Qed.

Lemma after_prefix (p r : string) : Str.after p (p ++ r) = Some r.
Proof.
  induction p as [|a p IH]; [reflexivity|].
  cbn [String.append Str.after]. now rewrite Ascii.eqb_refl.
Qed.

Lemma span_every (f : ascii -> bool) (a b : string) :
  every f a = true ->
  match b with String c _ => f c = false | EmptyString => True end ->
  Str.span f (a ++ b) = (a, b).
Proof.
  intros Ha Hb. induction a as [|c a IH].
  - destruct b as [|c b]; [reflexivity|]. cbn [String.append Str.span]. now rewrite Hb.
  - cbn [every] in Ha. apply andb_true_iff in Ha as [Hc Ha].
    cbn [String.append Str.span]. now rewrite Hc, (IH Ha).
Qed.

(** The expression matches at the head of a page that starts with a site. *)
Lemma alert_here_site (page class attributes captured after : string) :
  alert_site page EmptyString class attributes captured after ->
  Regex.alert_here page = Some captured.
Proof.
  intros (-> & Hclass & Hattr & Hcap & Hne & Hafter).
  cbn [String.append]. unfold Regex.alert_here.
  change (String "c" (String "l" (String "a" (String "s" (String "s" (String "="
            (String Str.dq (String "a" (String "l" (String "e" (String "r" (String "t"
               (class ++ String Str.dq (attributes ++ String ">" (captured ++ after)))))))))))))))
    with (Regex.alert_prefix
          ++ class ++ String Str.dq (attributes ++ String ">" (captured ++ after))).
  rewrite after_prefix.
  rewrite (span_every (Regex.isnt Str.dq) class
             (String Str.dq (attributes ++ String ">" (captured ++ after))) Hclass)
    by reflexivity.
  cbn [snd].
  rewrite (span_every (Regex.isnt ">") attributes (String ">" (captured ++ after)) Hattr)
    by reflexivity.
  cbn [snd].
  rewrite (span_every (Regex.isnt "<") captured after Hcap).
  - cbn [fst]. destruct captured; [now contradiction Hne|reflexivity].
  - destruct after as [|c after]; [exact I|]. now subst c.
Qed.

(** Where the expression matches at the head of a page, the page starts
    with a site. *)
Lemma alert_here_sound (page captured : string) :
  Regex.alert_here page = Some captured ->
  exists class attributes after, alert_site page EmptyString class attributes captured after.
Proof.
  intros E. unfold Regex.alert_here in E.
  destruct (Str.after Regex.alert_prefix page) as [r|] eqn:Ea; [|discriminate].
  apply after_app in Ea.
  destruct (span_rest (Regex.isnt Str.dq) r) as (Hr & Hclass & Hq).
  destruct (snd (Str.span (Regex.isnt Str.dq) r)) as [|q r1]; [discriminate|].
  destruct (span_rest (Regex.isnt ">") r1) as (Hr1 & Hattr & Hgt).
  destruct (snd (Str.span (Regex.isnt ">") r1)) as [|g r2]; [discriminate|].
  destruct (span_rest (Regex.isnt "<") r2) as (Hr2 & Hcap & Hlt).
  destruct (fst (Str.span (Regex.isnt "<") r2)) as [|x cap'] eqn:Ecap; [discriminate|].
  injection E as <-.
  exists (fst (Str.span (Regex.isnt Str.dq) r)), (fst (Str.span (Regex.isnt ">") r1)),
         (snd (Str.span (Regex.isnt "<") r2)).
  split; [|split; [exact Hclass|split; [exact Hattr|split; [exact Hcap|split]]]].
  - rewrite Ea. cbn [String.append]. f_equal. rewrite Hr at 1. f_equal.
    unfold Regex.isnt in Hq. apply negb_false_iff, Ascii.eqb_eq in Hq. subst q.
    f_equal. rewrite Hr1 at 1. f_equal.
    unfold Regex.isnt in Hgt. apply negb_false_iff, Ascii.eqb_eq in Hgt. subst g.
    f_equal. exact Hr2.
  - discriminate.
  - destruct (snd (Str.span (Regex.isnt "<") r2)) as [|l after]; [exact I|].
    unfold Regex.isnt in Hlt. now apply negb_false_iff, Ascii.eqb_eq in Hlt.
Qed.

Lemma alert_site_tail (c : ascii) (page before class attributes captured after : string) :
  alert_site (String c page) (String c before) class attributes captured after
  <-> alert_site page before class attributes captured after.
Proof.
  unfold alert_site. cbn [String.append]. split.
  - intros (H & Hrest). injection H as ->. now split.
  - intros (-> & Hrest). now split.
Qed.

(** [body.match] yields the capture of the leftmost site. *)
Lemma match_alert_leftmost (page before class attributes captured after : string) :
  alert_site page before class attributes captured after ->
  (forall b c a cap af,
     alert_site page b c a cap af -> (String.length before <= String.length b)%nat) ->
  Regex.match_alert page = Some captured.
Proof.
  revert page. induction before as [|x before IH]; intros page Hsite Hleft.
  - rewrite match_alert_eq. now rewrite (alert_here_site _ _ _ _ _ Hsite).
  - assert (Hpage : exists rest, page = String x rest).
    { destruct Hsite as (-> & _). cbn [String.append]. eauto. }
    destruct Hpage as (rest & ->).
    rewrite match_alert_eq.
    destruct (Regex.alert_here (String x rest)) as [cap|] eqn:E.
    + destruct (alert_here_sound _ _ E) as (c & a & af & Hhead).
      specialize (Hleft _ _ _ _ _ Hhead). cbn [String.length] in Hleft. lia.
    + apply IH.
      * exact (proj1 (alert_site_tail x _ _ _ _ _ _) Hsite).
      * intros b c a cap af Hb.
        specialize (Hleft _ _ _ _ _ (proj2 (alert_site_tail x _ _ _ _ _ _) Hb)).
        cbn [String.length] in Hleft. lia.
Qed.

(** What [body.match] yields is the capture of a site, and no site stands
    further to the left. *)
Lemma match_alert_site (page captured : string) :
  Regex.match_alert page = Some captured ->
  exists before class attributes after,
    alert_site page before class attributes captured after
    /\ forall b c a cap af,
         alert_site page b c a cap af -> (String.length before <= String.length b)%nat.
Proof.
  induction page as [|x page IH]; intros H.
  - discriminate.
  - rewrite match_alert_eq in H.
    destruct (Regex.alert_here (String x page)) as [cap|] eqn:E.
    + injection H as ->. destruct (alert_here_sound _ _ E) as (c & a & af & Hhead).
      exists EmptyString, c, a, af. split; [exact Hhead|].
      intros; cbn [String.length]; lia.
    + destruct (IH H) as (before & class & attributes & after & Hsite & Hleft).
      exists (String x before), class, attributes, after. split.
      * exact (proj2 (alert_site_tail x _ _ _ _ _ _) Hsite).
      * intros b c a cap af Hb. destruct b as [|y b].
        -- rewrite (alert_here_site _ _ _ _ _ Hb) in E. discriminate E.
        -- assert (y = x) as ->.
           { destruct Hb as (Hb & _). cbn [String.append] in Hb. now injection Hb. }
           specialize (Hleft _ _ _ _ _ (proj1 (alert_site_tail x _ _ _ _ _ _) Hb)).
           cbn [String.length]. lia.
Qed.

(** C4, as the code has it.  Once the login POST is answered: when the
    status is not 302, [login] raises an error whose message is
    [Authentification: ] followed by a text taken from the body, and makes
    no further request.  That text is [Erreur inconnue] when the alert
    expression matches nowhere in the body; otherwise it is what the
    expression captures at its leftmost site, with [&#39;] decoded and
    white space trimmed.  A site is a [class] attribute in double quotes
    whose value starts with [alert], the rest of that tag up to its [>],
    and the non-empty text that follows up to the next [<].  When the
    status is 302 and the [Location] header is missing, empty or does not
    contain the text [monidenum.fr], [login] raises the distinct
    unexpected-redirect error and makes no further request. *)
Theorem login_post_failure {rt : Runtime} (email password : string) (w : World) (st : State)
    (lp page r3 : Response) (kc action : string) :
  http w (now_index st) (Kbis.get_manual "https://monidenum.fr/login") = Some lp ->
  location lp = Some kc ->
  http w (1 + now_index st) (Kbis.get_follow kc) = Some page ->
  Regex.match_action (text page) = Some action ->
  http w (2 + now_index st)
    (Kbis.login_post (Str.replaceAll action "&amp;" "&") (Kbis.authCookies page) email password)
  = Some r3 ->
  let out := fst (Kbis.login email password w st) in
  let events := run_events st (snd (Kbis.login email password w st)) in
  (status r3 <> 302%Z ->
     exists message,
       out = Thrown (Error ("Authentification: " ++ message))
       /\ List.length events = 3%nat
       /\ ((forall b c a cap af, ~ alert_site (text r3) b c a cap af) ->
           message = "Erreur inconnue")
       /\ (forall before class attributes captured after,
             alert_site (text r3) before class attributes captured after ->
             (forall b c a cap af,
                alert_site (text r3) b c a cap af ->
                (String.length before <= String.length b)%nat) ->
             message = Str.trim (Str.replaceAll captured "&#39;" "'"))
       /\ (message = "Erreur inconnue"
           \/ exists before class attributes captured after,
                alert_site (text r3) before class attributes captured after
                /\ (forall b c a cap af,
                      alert_site (text r3) b c a cap af ->
                      (String.length before <= String.length b)%nat)
                /\ message = Str.trim (Str.replaceAll captured "&#39;" "'")))
  /\ (status r3 = 302%Z ->
      location r3 = None \/ location r3 = Some EmptyString
      \/ (exists u, location r3 = Some u /\ Str.includes u "monidenum.fr" = false) ->
      out = Thrown Kbis.unexpected_redirect
      /\ List.length events = 3%nat)
  /\ (forall body, Kbis.rejected body <> Kbis.unexpected_redirect).
Proof.
  intros Hlp Hkc Hpage Haction Hpost out events. subst out events.
  rewrite (login_after_post email password w st lp page r3 kc action Hlp Hkc Hpage Haction Hpost).
  split; [|split].
  - intros Hstatus. apply Z.eqb_neq in Hstatus. rewrite Hstatus. cbn [negb fst snd].
    exists (Kbis.errorMessage (text r3)).
    split; [reflexivity|]. split; [spell_events; reflexivity|].
    unfold Kbis.errorMessage. split; [|split].
    + intros Hnone. destruct (Regex.match_alert (text r3)) as [captured|] eqn:E; [|reflexivity].
      destruct (match_alert_site _ _ E) as (b & c & a & af & Hsite & _).
      now contradiction (Hnone _ _ _ _ _ Hsite).
    + intros before class attributes captured after Hsite Hleft.
      now rewrite (match_alert_leftmost _ _ _ _ _ _ Hsite Hleft).
    + destruct (Regex.match_alert (text r3)) as [captured|] eqn:E; [|now left].
      right. destruct (match_alert_site _ _ E) as (b & c & a & af & Hsite & Hleft).
      exists b, c, a, captured, af. auto.
  - intros Hstatus Hloc. apply Z.eqb_eq in Hstatus. rewrite Hstatus. cbn [negb].
    assert (Hguard : falsy (location r3)
                     || negb (Str.includes (unwrap (location r3)) "monidenum.fr") = true).
    { destruct Hloc as [-> | [-> | (u & -> & Hu)]]; [reflexivity | reflexivity |].
      cbn [unwrap]. rewrite Hu. apply orb_true_r. }
    rewrite Hguard. cbn [fst snd]. split; [reflexivity|]. spell_events. reflexivity.
  - intros body. unfold Kbis.rejected, Kbis.unexpected_redirect. cbn. discriminate.
Qed.

(** The page of the example: its leftmost site is the [div], five
    characters into the page, and [Invalid password] is reported. *)
Lemma login_post_failure_witness :
  fst (Kbis.login (rt := Sample.runtime) "a@b.fr" "pw" Sample.kbis_rejected (Sample.start ∅))
  = Thrown (Error "Authentification: Invalid password")
  /\ fst (Kbis.login (rt := Sample.runtime) "a@b.fr" "pw" Sample.kbis_unexpected
            (Sample.start ∅))
     = Thrown Kbis.unexpected_redirect.
Proof.
  split.
  - destruct (login_post_failure (rt := Sample.runtime) "a@b.fr" "pw" Sample.kbis_rejected
                (Sample.start ∅) Sample.login_page Sample.keycloak_page Sample.post_rejected
                "https://auth.monidenum.fr/realms/mon/auth?client_id=portail"
                "https://auth.monidenum.fr/login-actions/authenticate?session_code=c1&amp;tab_id=t1"
                eq_refl eq_refl eq_refl eq_refl eq_refl) as (H & _).
    destruct H as (message & Hout & _ & _ & Hfirst & _); [discriminate|].
    rewrite Hout.
    rewrite (Hfirst "<div " " alert-danger" EmptyString "Invalid password" "</div>").
    + reflexivity.
    + repeat split. discriminate.
    + intros b c a cap af (Hb & _).
      destruct b as [|? [|? [|? [|? [|? ?]]]]]; cbn [String.length]; try lia;
        exfalso; vm_compute in Hb; discriminate Hb.
  - destruct (login_post_failure (rt := Sample.runtime) "a@b.fr" "pw" Sample.kbis_unexpected
                (Sample.start ∅) Sample.login_page Sample.keycloak_page
                (Sample.redirect "https://login.example.org/")
                "https://auth.monidenum.fr/realms/mon/auth?client_id=portail"
                "https://auth.monidenum.fr/login-actions/authenticate?session_code=c1&amp;tab_id=t1"
                eq_refl eq_refl eq_refl eq_refl eq_refl) as (_ & H & _).
    destruct H as [H _]; [reflexivity | |exact H].
    right. right. eexists. split; reflexivity.
Defined.

(** C4 as the specification words it fails, in both halves.  A page whose
    only element has the classes [notice] and [alert] and the text
    [Invalid password]: the error does not contain that text.  A page
    whose first element of class [alert] holds [Invalid password] in a
    child element: the error carries the text of a later element, whose
    class [alert-info] is another one.  A login POST answered with a
    redirect to [login.example.org], a host outside [monidenum.fr] whose
    URL contains that text: [login] follows it and returns the session
    cookie that this host sets. *)
Lemma login_post_failure_counterexample :
  (Spec.has_alert_class "notice alert" = true
   /\ fst (Kbis.login (rt := Sample.runtime) "a@b.fr" "pw" Sample.kbis_notice (Sample.start ∅))
      = Thrown (Error "Authentification: Erreur inconnue")
   /\ Str.includes "Authentification: Erreur inconnue" "Invalid password" = false)
  /\ (Spec.has_alert_class "alert" = true
      /\ Spec.has_alert_class "alert-info" = false
      /\ fst (Kbis.login (rt := Sample.runtime) "a@b.fr" "pw" Sample.kbis_nested
                (Sample.start ∅))
         = Thrown (Error "Authentification: Try again")
      /\ Str.includes "Authentification: Try again" "Invalid password" = false)
  /\ Spec.belongs_to_expected_origin Sample.elsewhere = false
  /\ fst (Kbis.login (rt := Sample.runtime) "a@b.fr" "pw" Sample.kbis_elsewhere
            (Sample.start ∅))
     = Returned "from-elsewhere"
  /\ nth_error (run_events (Sample.start ∅)
        (snd (Kbis.login (rt := Sample.runtime) "a@b.fr" "pw" Sample.kbis_elsewhere
                (Sample.start ∅)))) 3
     = Some (Fetch (Kbis.get_manual Sample.elsewhere)).
Proof. repeat split; vm_compute; reflexivity. Qed.
